(** * Symptom Timeline Diary: access policies, symptom lookup and chat view

    A shallow embedding of
    - the database migration (tables, [has_role], row-level security
      policies, the updated_at triggers, the referential actions, the
      policies of the photo store),
    - [SymptomFinder.tsx] ([symptomDatabase], [handleSearch]),
    - [Auth.tsx] (both branches of [handleAuth]),
    - the chat view ([fetchMessages], [subscribeToMessages], [handleSend]),
    - the doctor's timeline view ([fetchData], [handleAddNote]),
    - the patient's timeline ([fetchSymptoms], [handlePhotoUpload],
      [handleSubmit]),
    - the redirects of [Dashboard.tsx] and [DoctorDashboard.tsx],
    followed by the properties established about them. *)

From Stdlib Require Import String Ascii NArith Bool Lia List.
Import ListNotations.
Local Open Scope N_scope.
Local Open Scope bool_scope.

(* ===================================================================== *)
(** ** JavaScript strings *)
(* ===================================================================== *)

(** A JavaScript string is a sequence of UTF-16 code units.  SQL [TEXT]
    values travel through the client as such strings, so the same type is
    used for both. *)
Module Js.

Definition jsstring := list N.

(** Literals of the source that are pure ASCII are written as Rocq
    strings and converted. *)
Definition lit (s : string) : jsstring :=
  map N_of_ascii (list_ascii_of_string s).

(** [!s] for a string: only the empty string is falsy. *)
Definition falsy (s : jsstring) : bool :=
  match s with [] => true | _ :: _ => false end.

(** ECMAScript WhiteSpace and LineTerminator code points, the set
    stripped by [String.prototype.trim]. *)
Definition isWhiteSpace (c : N) : bool :=
  (c =? 9) || (c =? 10) || (c =? 11) || (c =? 12) || (c =? 13) ||
  (c =? 32) || (c =? 160) || (c =? 5760) ||
  ((8192 <=? c) && (c <=? 8202)) ||
  (c =? 8232) || (c =? 8233) || (c =? 8239) || (c =? 8287) ||
  (c =? 12288) || (c =? 65279).

Fixpoint trimStart (s : jsstring) : jsstring :=
  match s with
  | [] => []
  | c :: s' => if isWhiteSpace c then trimStart s' else s
  end.

Definition trimEnd (s : jsstring) : jsstring := rev (trimStart (rev s)).

Definition trim (s : jsstring) : jsstring := trimEnd (trimStart s).

(** [s.startsWith(t)] *)
Fixpoint startsWith (s t : jsstring) : bool :=
  match t, s with
  | [], _ => true
  | _ :: _, [] => false
  | b :: t', a :: s' => (a =? b) && startsWith s' t'
  end.

(** [s.includes(t)]: [t] occurs in [s] as a contiguous run. *)
Fixpoint includes (s t : jsstring) : bool :=
  startsWith s t ||
  match s with
  | [] => false
  | _ :: s' => includes s' t
  end.

(** Lower-casing of one code unit below U+00C0: only [A]..[Z] have a
    lower-case mapping there. *)
Definition lowerUnit (c : N) : N :=
  if (65 <=? c) && (c <=? 90) then c + 32 else c.

Definition belowC0 (s : jsstring) : bool := forallb (fun c => c <? 192) s.

(** [String.prototype.toLowerCase] follows the Unicode case mapping; the
    development takes it as a function [lower] and, where a concrete
    value is computed, only relies on its behaviour on strings whose
    code units all lie below U+00C0. *)
Definition lowersBasicLatin (lower : jsstring -> jsstring) : Prop :=
  forall s, belowC0 s = true -> lower s = map lowerUnit s.

End Js.

(* ===================================================================== *)
(** ** Schema *)
(* ===================================================================== *)

Definition uuid := N.
Definition text := Js.jsstring.
Definition timestamptz := N.

(** [CREATE TYPE public.app_role AS ENUM ('patient', 'doctor')] *)
Inductive app_role := patient | doctor.

Definition app_role_eqb (a b : app_role) : bool :=
  match a, b with
  | patient, patient | doctor, doctor => true
  | _, _ => false
  end.

(** One module per table, so that columns keep their names; nullable
    columns are options. *)
Module Profile.
Record row := {
  id : uuid;
  full_name : text;
  role : app_role;
  created_at : timestamptz;
  updated_at : timestamptz }.
End Profile.

Module UserRole.
Record row := {
  id : uuid;
  user_id : uuid;
  role : app_role }.
End UserRole.

Module Symptom.
Record row := {
  id : uuid;
  patient_id : uuid;
  title : text;
  description : option text;
  photo_url : option text;
  severity : option text;
  affected_area : option text;
  duration : option text;
  created_at : timestamptz;
  updated_at : timestamptz }.
End Symptom.

Module DoctorNote.
Record row := {
  id : uuid;
  symptom_id : uuid;
  doctor_id : uuid;
  note : text;
  progress_status : option text;
  created_at : timestamptz }.
End DoctorNote.

Module Message.
Record row := {
  id : uuid;
  sender_id : uuid;
  receiver_id : uuid;
  content : text;
  attachment_url : option text;
  symptom_reference : option uuid;
  read : option bool;
  created_at : timestamptz }.
End Message.

Module Assignment.
Record row := {
  id : uuid;
  patient_id : uuid;
  doctor_id : uuid;
  assigned_at : timestamptz }.
End Assignment.

(** The database: the identities of [auth.users] (the external identity
    store, of which only the keys matter here) and the six public tables. *)
Record database := {
  auth_users : list uuid;
  profiles : list Profile.row;
  user_roles : list UserRole.row;
  symptoms : list Symptom.row;
  doctor_notes : list DoctorNote.row;
  messages : list Message.row;
  patient_doctor_assignments : list Assignment.row }.

(* ===================================================================== *)
(** ** Row-level security *)
(* ===================================================================== *)

Module Rls.

(** [auth.uid() = col] for a [NOT NULL] column: [auth.uid()] is NULL for
    an unauthenticated requester and the comparison is then NULL, which
    a policy treats as false.  The policies below combine such
    comparisons with AND, OR and EXISTS only, so reading NULL as false
    gives the same decisions. *)
Definition uid_eq (uid : option uuid) (col : uuid) : bool :=
  match uid with
  | Some u => u =? col
  | None => false
  end.

(** [public.has_role(_user_id, _role)]:
    [SELECT EXISTS (SELECT 1 FROM public.user_roles
                    WHERE user_id = _user_id AND role = _role)].
    SECURITY DEFINER: it reads the whole table, whatever the caller may
    select. *)
Definition has_role (db : database) (_user_id : option uuid) (_role : app_role)
  : bool :=
  existsb
    (fun r => uid_eq _user_id (UserRole.user_id r)
              && app_role_eqb (UserRole.role r) _role)
    (user_roles db).

Inductive command := SELECT | INSERT | UPDATE | DELETE.

(** A policy expression ([USING] or [WITH CHECK]) for rows of type [R]. *)
Definition policy (R : Type) := database -> option uuid -> R -> bool.

(** All policies of the migration are permissive: the ones declared for
    a command are combined with OR, and with none declared every row is
    refused (row-level security is enabled on all six tables). *)
Definition permitted {R} (ps : list (policy R))
           (db : database) (uid : option uuid) (r : R) : bool :=
  existsb (fun p => p db uid r) ps.

(** *** profiles *)
Definition Users_can_view_their_own_profile : policy Profile.row :=
  fun _ uid r => uid_eq uid (Profile.id r).
Definition Users_can_update_their_own_profile : policy Profile.row :=
  fun _ uid r => uid_eq uid (Profile.id r).
Definition Users_can_insert_their_own_profile : policy Profile.row :=
  fun _ uid r => uid_eq uid (Profile.id r).

Definition profiles_policies (c : command) : list (policy Profile.row) :=
  match c with
  | SELECT => [Users_can_view_their_own_profile]
  | INSERT => [Users_can_insert_their_own_profile]
  | UPDATE => [Users_can_update_their_own_profile]
  | DELETE => []
  end.

(** *** user_roles *)
Definition Users_can_view_their_own_roles : policy UserRole.row :=
  fun _ uid r => uid_eq uid (UserRole.user_id r).

Definition user_roles_policies (c : command) : list (policy UserRole.row) :=
  match c with
  | SELECT => [Users_can_view_their_own_roles]
  | INSERT | UPDATE | DELETE => []
  end.

(** *** patient_doctor_assignments *)
Definition Users_can_view_their_assignments : policy Assignment.row :=
  fun _ uid r => uid_eq uid (Assignment.patient_id r)
                 || uid_eq uid (Assignment.doctor_id r).

Definition Patients_can_create_assignments : policy Assignment.row :=
  fun _ uid r => uid_eq uid (Assignment.patient_id r).

Definition assignments_policies (c : command) : list (policy Assignment.row) :=
  match c with
  | SELECT => [Users_can_view_their_assignments]
  | INSERT => [Patients_can_create_assignments]
  | UPDATE | DELETE => []
  end.

(** A sub-select inside a policy runs as the requester, so it ranges over
    the rows of the other table that the requester may select; only
    [has_role], being SECURITY DEFINER, escapes this. *)
Definition visible_assignments (db : database) (uid : option uuid)
  : list Assignment.row :=
  filter (permitted (assignments_policies SELECT) db uid)
         (patient_doctor_assignments db).

(** *** symptoms *)
Definition Patients_can_view_their_own_symptoms : policy Symptom.row :=
  fun _ uid r => uid_eq uid (Symptom.patient_id r).

Definition Doctors_can_view_assigned_patients_symptoms : policy Symptom.row :=
  fun db uid r =>
    has_role db uid doctor &&
    existsb
      (fun a => (Assignment.patient_id a =? Symptom.patient_id r)
                && uid_eq uid (Assignment.doctor_id a))
      (visible_assignments db uid).

Definition Patients_can_insert_their_own_symptoms : policy Symptom.row :=
  fun _ uid r => uid_eq uid (Symptom.patient_id r).
Definition Patients_can_update_their_own_symptoms : policy Symptom.row :=
  fun _ uid r => uid_eq uid (Symptom.patient_id r).
Definition Patients_can_delete_their_own_symptoms : policy Symptom.row :=
  fun _ uid r => uid_eq uid (Symptom.patient_id r).

Definition symptoms_policies (c : command) : list (policy Symptom.row) :=
  match c with
  | SELECT => [Patients_can_view_their_own_symptoms;
               Doctors_can_view_assigned_patients_symptoms]
  | INSERT => [Patients_can_insert_their_own_symptoms]
  | UPDATE => [Patients_can_update_their_own_symptoms]
  | DELETE => [Patients_can_delete_their_own_symptoms]
  end.

Definition visible_symptoms (db : database) (uid : option uuid)
  : list Symptom.row :=
  filter (permitted (symptoms_policies SELECT) db uid) (symptoms db).

(** *** doctor_notes *)
Definition Doctors_can_insert_notes : policy DoctorNote.row :=
  fun db uid r => has_role db uid doctor && uid_eq uid (DoctorNote.doctor_id r).

Definition Doctors_can_view_their_own_notes : policy DoctorNote.row :=
  fun _ uid r => uid_eq uid (DoctorNote.doctor_id r).

Definition Patients_can_view_notes_on_their_symptoms : policy DoctorNote.row :=
  fun db uid r =>
    existsb
      (fun s => (Symptom.id s =? DoctorNote.symptom_id r)
                && uid_eq uid (Symptom.patient_id s))
      (visible_symptoms db uid).

Definition doctor_notes_policies (c : command) : list (policy DoctorNote.row) :=
  match c with
  | SELECT => [Doctors_can_view_their_own_notes;
               Patients_can_view_notes_on_their_symptoms]
  | INSERT => [Doctors_can_insert_notes]
  | UPDATE | DELETE => []
  end.

(** *** messages *)
Definition Users_can_view_their_own_messages : policy Message.row :=
  fun _ uid r => uid_eq uid (Message.sender_id r)
                 || uid_eq uid (Message.receiver_id r).

Definition Users_can_send_messages : policy Message.row :=
  fun _ uid r => uid_eq uid (Message.sender_id r).

Definition Users_can_update_their_received_messages : policy Message.row :=
  fun _ uid r => uid_eq uid (Message.receiver_id r).

Definition messages_policies (c : command) : list (policy Message.row) :=
  match c with
  | SELECT => [Users_can_view_their_own_messages]
  | INSERT => [Users_can_send_messages]
  | UPDATE => [Users_can_update_their_received_messages]
  | DELETE => []
  end.

End Rls.

(* ===================================================================== *)
(** ** Statements against the database *)
(* ===================================================================== *)

Module Sql.

(** What a statement reports to the client: success, a row refused by
    row-level security, or a violated table constraint.  A statement
    that fails leaves the database as it was. *)
Inductive outcome := Ok | RlsViolation | ConstraintViolation.

Definition is_ok (o : outcome) : bool :=
  match o with Ok => true | _ => false end.

Fixpoint text_eqb (a b : text) : bool :=
  match a, b with
  | [], [] => true
  | x :: a', y :: b' => (x =? y) && text_eqb a' b'
  | _, _ => false
  end.

Definition mem (x : uuid) (l : list uuid) : bool := existsb (N.eqb x) l.

Fixpoint distinct (l : list uuid) : bool :=
  match l with
  | [] => true
  | x :: l' => negb (mem x l') && distinct l'
  end.

(** *** SELECT: the rows some SELECT policy lets the requester see. *)
Definition select_symptoms (db : database) (uid : option uuid)
  : list Symptom.row := Rls.visible_symptoms db uid.

Definition select_messages (db : database) (uid : option uuid)
  : list Message.row :=
  filter (Rls.permitted (Rls.messages_policies Rls.SELECT) db uid) (messages db).

Definition select_doctor_notes (db : database) (uid : option uuid)
  : list DoctorNote.row :=
  filter (Rls.permitted (Rls.doctor_notes_policies Rls.SELECT) db uid)
         (doctor_notes db).

(** *** Table replacement *)
Definition set_profiles (db : database) (t : list Profile.row) : database :=
  {| auth_users := auth_users db; profiles := t; user_roles := user_roles db;
     symptoms := symptoms db; doctor_notes := doctor_notes db;
     messages := messages db;
     patient_doctor_assignments := patient_doctor_assignments db |}.

Definition set_user_roles (db : database) (t : list UserRole.row) : database :=
  {| auth_users := auth_users db; profiles := profiles db; user_roles := t;
     symptoms := symptoms db; doctor_notes := doctor_notes db;
     messages := messages db;
     patient_doctor_assignments := patient_doctor_assignments db |}.

Definition set_doctor_notes (db : database) (t : list DoctorNote.row)
  : database :=
  {| auth_users := auth_users db; profiles := profiles db;
     user_roles := user_roles db; symptoms := symptoms db; doctor_notes := t;
     messages := messages db;
     patient_doctor_assignments := patient_doctor_assignments db |}.

Definition set_messages (db : database) (t : list Message.row) : database :=
  {| auth_users := auth_users db; profiles := profiles db;
     user_roles := user_roles db; symptoms := symptoms db;
     doctor_notes := doctor_notes db; messages := t;
     patient_doctor_assignments := patient_doctor_assignments db |}.

Definition set_assignments (db : database) (t : list Assignment.row)
  : database :=
  {| auth_users := auth_users db; profiles := profiles db;
     user_roles := user_roles db; symptoms := symptoms db;
     doctor_notes := doctor_notes db; messages := messages db;
     patient_doctor_assignments := t |}.

(** *** Table constraints (keys, references and CHECKs of the migration);
    NOT NULL is carried by the column types. *)
Definition profiles_constraints (db : database) (r : Profile.row) : bool :=
  negb (mem (Profile.id r) (map Profile.id (profiles db)))
  && mem (Profile.id r) (auth_users db).

Definition user_roles_constraints (db : database) (r : UserRole.row) : bool :=
  negb (mem (UserRole.id r) (map UserRole.id (user_roles db)))
  && mem (UserRole.user_id r) (auth_users db)
  && negb (existsb
             (fun r' => (UserRole.user_id r' =? UserRole.user_id r)
                        && app_role_eqb (UserRole.role r') (UserRole.role r))
             (user_roles db)).

(** [CHECK (progress_status IN ('improving', 'stable', 'worsening'))];
    a NULL passes a CHECK. *)
Definition progress_status_check (p : option text) : bool :=
  match p with
  | None => true
  | Some s => text_eqb s (Js.lit "improving")
              || text_eqb s (Js.lit "stable")
              || text_eqb s (Js.lit "worsening")
  end.

Definition doctor_notes_constraints (db : database) (r : DoctorNote.row)
  : bool :=
  negb (mem (DoctorNote.id r) (map DoctorNote.id (doctor_notes db)))
  && mem (DoctorNote.symptom_id r) (map Symptom.id (symptoms db))
  && mem (DoctorNote.doctor_id r) (auth_users db)
  && progress_status_check (DoctorNote.progress_status r).

(** References of one message row. *)
Definition messages_references (db : database) (r : Message.row) : bool :=
  mem (Message.sender_id r) (auth_users db)
  && mem (Message.receiver_id r) (auth_users db)
  && match Message.symptom_reference r with
     | None => true
     | Some s => mem s (map Symptom.id (symptoms db))
     end.

Definition messages_constraints (db : database) (r : Message.row) : bool :=
  negb (mem (Message.id r) (map Message.id (messages db)))
  && messages_references db r.

(** *** INSERT: the new row must pass an INSERT policy ([WITH CHECK]),
    then the constraints; it is then appended to the table. *)
Definition insert_profile (db : database) (uid : option uuid)
           (r : Profile.row) : outcome * database :=
  if negb (Rls.permitted (Rls.profiles_policies Rls.INSERT) db uid r)
  then (RlsViolation, db)
  else if negb (profiles_constraints db r) then (ConstraintViolation, db)
  else (Ok, set_profiles db (profiles db ++ [r])).

Definition insert_user_role (db : database) (uid : option uuid)
           (r : UserRole.row) : outcome * database :=
  if negb (Rls.permitted (Rls.user_roles_policies Rls.INSERT) db uid r)
  then (RlsViolation, db)
  else if negb (user_roles_constraints db r) then (ConstraintViolation, db)
  else (Ok, set_user_roles db (user_roles db ++ [r])).

Definition insert_doctor_note (db : database) (uid : option uuid)
           (r : DoctorNote.row) : outcome * database :=
  if negb (Rls.permitted (Rls.doctor_notes_policies Rls.INSERT) db uid r)
  then (RlsViolation, db)
  else if negb (doctor_notes_constraints db r) then (ConstraintViolation, db)
  else (Ok, set_doctor_notes db (doctor_notes db ++ [r])).

Definition insert_message (db : database) (uid : option uuid)
           (r : Message.row) : outcome * database :=
  if negb (Rls.permitted (Rls.messages_policies Rls.INSERT) db uid r)
  then (RlsViolation, db)
  else if negb (messages_constraints db r) then (ConstraintViolation, db)
  else (Ok, set_messages db (messages db ++ [r])).

(** *** UPDATE messages SET ... WHERE ...
    The statement touches the rows that the requester may select, that
    pass the UPDATE policy ([USING]) and that satisfy the WHERE clause
    [wher]; [set] computes the new row.  The UPDATE policy has no
    [WITH CHECK], so its [USING] expression is also checked on every new
    row, and a new row that fails it aborts the statement.  Nothing in
    the policy names columns: [set] is free to assign any of them. *)
Definition update_target (db : database) (uid : option uuid)
           (wher : Message.row -> bool) (r : Message.row) : bool :=
  Rls.permitted (Rls.messages_policies Rls.SELECT) db uid r
  && Rls.permitted (Rls.messages_policies Rls.UPDATE) db uid r
  && wher r.

Definition update_messages (db : database) (uid : option uuid)
           (wher : Message.row -> bool) (set : Message.row -> Message.row)
  : outcome * database :=
  let target := update_target db uid wher in
  let written := map set (filter target (messages db)) in
  let table := map (fun r => if target r then set r else r) (messages db) in
  if negb (forallb
             (fun r' => Rls.permitted (Rls.messages_policies Rls.UPDATE) db uid r'
                        && Rls.permitted (Rls.messages_policies Rls.SELECT) db uid r')
             written)
  then (RlsViolation, db)
  else if negb (forallb (messages_references db) written
                && distinct (map Message.id table))
  then (ConstraintViolation, db)
  else (Ok, set_messages db table).

(** *** Removal of an assignment.  No DELETE policy exists on
    [patient_doctor_assignments], so a requester's DELETE removes
    nothing; rows go away only outside row-level security (the
    [ON DELETE CASCADE] from [auth.users], or the table owner). *)
Definition remove_assignment (patient doctor_ : uuid) (db : database)
  : database :=
  set_assignments db
    (filter (fun a => negb ((Assignment.patient_id a =? patient)
                            && (Assignment.doctor_id a =? doctor_)))
            (patient_doctor_assignments db)).

(** *** Further statements: the other tables' selects, inserts, and the
    updates and deletes for which the migration declares policies,
    triggers or referential actions. *)

Definition set_symptoms (db : database) (t : list Symptom.row) : database :=
  {| auth_users := auth_users db; profiles := profiles db;
     user_roles := user_roles db; symptoms := t;
     doctor_notes := doctor_notes db; messages := messages db;
     patient_doctor_assignments := patient_doctor_assignments db |}.

Definition select_profiles (db : database) (uid : option uuid)
  : list Profile.row :=
  filter (Rls.permitted (Rls.profiles_policies Rls.SELECT) db uid) (profiles db).

Definition select_user_roles (db : database) (uid : option uuid)
  : list UserRole.row :=
  filter (Rls.permitted (Rls.user_roles_policies Rls.SELECT) db uid)
         (user_roles db).

Definition select_assignments (db : database) (uid : option uuid)
  : list Assignment.row := Rls.visible_assignments db uid.

(** [CHECK (severity IN ('mild', 'moderate', 'severe'))]; a NULL passes. *)
Definition severity_check (s : option text) : bool :=
  match s with
  | None => true
  | Some v => text_eqb v (Js.lit "mild")
              || text_eqb v (Js.lit "moderate")
              || text_eqb v (Js.lit "severe")
  end.

Definition symptoms_constraints (db : database) (r : Symptom.row) : bool :=
  negb (mem (Symptom.id r) (map Symptom.id (symptoms db)))
  && mem (Symptom.patient_id r) (auth_users db)
  && severity_check (Symptom.severity r).

Definition insert_symptom (db : database) (uid : option uuid)
           (r : Symptom.row) : outcome * database :=
  if negb (Rls.permitted (Rls.symptoms_policies Rls.INSERT) db uid r)
  then (RlsViolation, db)
  else if negb (symptoms_constraints db r) then (ConstraintViolation, db)
  else (Ok, set_symptoms db (symptoms db ++ [r])).

(** [UNIQUE (patient_id, doctor_id)] beside the key and the two
    references. *)
Definition assignments_constraints (db : database) (r : Assignment.row)
  : bool :=
  negb (mem (Assignment.id r)
            (map Assignment.id (patient_doctor_assignments db)))
  && mem (Assignment.patient_id r) (auth_users db)
  && mem (Assignment.doctor_id r) (auth_users db)
  && negb (existsb
             (fun a => (Assignment.patient_id a =? Assignment.patient_id r)
                       && (Assignment.doctor_id a =? Assignment.doctor_id r))
             (patient_doctor_assignments db)).

Definition insert_assignment (db : database) (uid : option uuid)
           (r : Assignment.row) : outcome * database :=
  if negb (Rls.permitted (Rls.assignments_policies Rls.INSERT) db uid r)
  then (RlsViolation, db)
  else if negb (assignments_constraints db r) then (ConstraintViolation, db)
  else (Ok, set_assignments db (patient_doctor_assignments db ++ [r])).

(** [update_symptoms_updated_at]: BEFORE UPDATE, FOR EACH ROW,
    [update_updated_at_column()] sets [NEW.updated_at = NOW()]. *)
Definition update_symptoms_updated_at (now : timestamptz) (NEW : Symptom.row)
  : Symptom.row :=
  {| Symptom.id := Symptom.id NEW; Symptom.patient_id := Symptom.patient_id NEW;
     Symptom.title := Symptom.title NEW;
     Symptom.description := Symptom.description NEW;
     Symptom.photo_url := Symptom.photo_url NEW;
     Symptom.severity := Symptom.severity NEW;
     Symptom.affected_area := Symptom.affected_area NEW;
     Symptom.duration := Symptom.duration NEW;
     Symptom.created_at := Symptom.created_at NEW;
     Symptom.updated_at := now |}.

(** Some doctor note or message refers to the symptom key [k]. *)
Definition symptom_referenced (db : database) (k : uuid) : bool :=
  mem k (map DoctorNote.symptom_id (doctor_notes db))
  || existsb (fun m => match Message.symptom_reference m with
                       | Some s => s =? k
                       | None => false
                       end)
             (messages db).

Definition symptoms_target (c : Rls.command) (db : database)
           (uid : option uuid) (wher : Symptom.row -> bool) (r : Symptom.row)
  : bool :=
  Rls.permitted (Rls.symptoms_policies Rls.SELECT) db uid r
  && Rls.permitted (Rls.symptoms_policies c) db uid r
  && wher r.

(** [UPDATE symptoms SET ... WHERE ...], read like [update_messages]: the
    UPDATE policy has no [WITH CHECK], so its [USING] expression is
    checked on the new rows too.  The trigger stamps every row written.
    The references to symptoms have no ON UPDATE action: a key that
    disappears while a note or a message still refers to it aborts the
    statement. *)
Definition update_symptoms (db : database) (uid : option uuid)
           (wher : Symptom.row -> bool) (set : Symptom.row -> Symptom.row)
           (now : timestamptz) : outcome * database :=
  let target := symptoms_target Rls.UPDATE db uid wher in
  let new := fun r => update_symptoms_updated_at now (set r) in
  let old := filter target (symptoms db) in
  let written := map new old in
  let table := map (fun r => if target r then new r else r) (symptoms db) in
  if negb (forallb
             (fun r' => Rls.permitted (Rls.symptoms_policies Rls.UPDATE) db uid r'
                        && Rls.permitted (Rls.symptoms_policies Rls.SELECT) db uid r')
             written)
  then (RlsViolation, db)
  else if negb (forallb (fun r' => mem (Symptom.patient_id r') (auth_users db)
                                   && severity_check (Symptom.severity r'))
                        written
                && distinct (map Symptom.id table)
                && forallb (fun r => mem (Symptom.id r) (map Symptom.id table)
                                     || negb (symptom_referenced db (Symptom.id r)))
                           old)
  then (ConstraintViolation, db)
  else (Ok, set_symptoms db table).

(** [symptom_reference ... ON DELETE SET NULL] *)
Definition clear_symptom_reference (gone : list uuid) (m : Message.row)
  : Message.row :=
  match Message.symptom_reference m with
  | Some s =>
      if mem s gone
      then {| Message.id := Message.id m;
              Message.sender_id := Message.sender_id m;
              Message.receiver_id := Message.receiver_id m;
              Message.content := Message.content m;
              Message.attachment_url := Message.attachment_url m;
              Message.symptom_reference := None;
              Message.read := Message.read m;
              Message.created_at := Message.created_at m |}
      else m
  | None => m
  end.

(** [DELETE FROM symptoms WHERE ...]: the rows the requester may select,
    that pass the DELETE policy and that satisfy [wher] go away.  The
    referential actions then run outside row-level security: the notes on
    a deleted symptom are deleted ([ON DELETE CASCADE]) and the messages
    that refer to it lose the reference ([ON DELETE SET NULL]). *)
Definition delete_symptoms (db : database) (uid : option uuid)
           (wher : Symptom.row -> bool) : outcome * database :=
  let target := symptoms_target Rls.DELETE db uid wher in
  let gone := map Symptom.id (filter target (symptoms db)) in
  (Ok,
   {| auth_users := auth_users db; profiles := profiles db;
      user_roles := user_roles db;
      symptoms := filter (fun r => negb (target r)) (symptoms db);
      doctor_notes :=
        filter (fun n => negb (mem (DoctorNote.symptom_id n) gone))
               (doctor_notes db);
      messages := map (clear_symptom_reference gone) (messages db);
      patient_doctor_assignments := patient_doctor_assignments db |}).

(** UPDATE and DELETE against user_roles, read the same way; the table's
    constraints are its key, the reference to the identity and
    [UNIQUE (user_id, role)]. *)
Definition user_roles_target (c : Rls.command) (db : database)
           (uid : option uuid) (wher : UserRole.row -> bool) (r : UserRole.row)
  : bool :=
  Rls.permitted (Rls.user_roles_policies Rls.SELECT) db uid r
  && Rls.permitted (Rls.user_roles_policies c) db uid r
  && wher r.

Fixpoint unique_grants (t : list UserRole.row) : bool :=
  match t with
  | [] => true
  | r :: t' =>
      negb (existsb (fun r' => (UserRole.user_id r' =? UserRole.user_id r)
                               && app_role_eqb (UserRole.role r') (UserRole.role r))
                    t')
      && unique_grants t'
  end.

Definition update_user_roles (db : database) (uid : option uuid)
           (wher : UserRole.row -> bool) (set : UserRole.row -> UserRole.row)
  : outcome * database :=
  let target := user_roles_target Rls.UPDATE db uid wher in
  let written := map set (filter target (user_roles db)) in
  let table := map (fun r => if target r then set r else r) (user_roles db) in
  if negb (forallb
             (fun r' => Rls.permitted (Rls.user_roles_policies Rls.UPDATE) db uid r'
                        && Rls.permitted (Rls.user_roles_policies Rls.SELECT) db uid r')
             written)
  then (RlsViolation, db)
  else if negb (forallb (fun r' => mem (UserRole.user_id r') (auth_users db))
                        written
                && distinct (map UserRole.id table)
                && unique_grants table)
  then (ConstraintViolation, db)
  else (Ok, set_user_roles db table).

Definition delete_user_roles (db : database) (uid : option uuid)
           (wher : UserRole.row -> bool) : outcome * database :=
  (Ok, set_user_roles db
         (filter (fun r => negb (user_roles_target Rls.DELETE db uid wher r))
                 (user_roles db))).

(** [update_profiles_updated_at]: the same trigger function on profiles. *)
Definition update_profiles_updated_at (now : timestamptz) (NEW : Profile.row)
  : Profile.row :=
  {| Profile.id := Profile.id NEW; Profile.full_name := Profile.full_name NEW;
     Profile.role := Profile.role NEW;
     Profile.created_at := Profile.created_at NEW;
     Profile.updated_at := now |}.

Definition profiles_target (db : database) (uid : option uuid)
           (wher : Profile.row -> bool) (r : Profile.row) : bool :=
  Rls.permitted (Rls.profiles_policies Rls.SELECT) db uid r
  && Rls.permitted (Rls.profiles_policies Rls.UPDATE) db uid r
  && wher r.

(** [UPDATE profiles SET ... WHERE ...], read like the other updates; no
    table refers to profiles. *)
Definition update_profiles (db : database) (uid : option uuid)
           (wher : Profile.row -> bool) (set : Profile.row -> Profile.row)
           (now : timestamptz) : outcome * database :=
  let target := profiles_target db uid wher in
  let new := fun r => update_profiles_updated_at now (set r) in
  let written := map new (filter target (profiles db)) in
  let table := map (fun r => if target r then new r else r) (profiles db) in
  if negb (forallb
             (fun r' => Rls.permitted (Rls.profiles_policies Rls.UPDATE) db uid r'
                        && Rls.permitted (Rls.profiles_policies Rls.SELECT) db uid r')
             written)
  then (RlsViolation, db)
  else if negb (forallb (fun r' => mem (Profile.id r') (auth_users db)) written
                && distinct (map Profile.id table))
  then (ConstraintViolation, db)
  else (Ok, set_profiles db table).

(** *** The statements above, as one type, and their execution by a
    requester; a script is a run of requests, each under its own
    identity. *)
Inductive statement :=
| InsertProfile (r : Profile.row)
| InsertUserRole (r : UserRole.row)
| InsertSymptom (r : Symptom.row)
| InsertDoctorNote (r : DoctorNote.row)
| InsertMessage (r : Message.row)
| InsertAssignment (r : Assignment.row)
| UpdateProfiles (wher : Profile.row -> bool) (set : Profile.row -> Profile.row)
                 (now : timestamptz)
| UpdateSymptoms (wher : Symptom.row -> bool) (set : Symptom.row -> Symptom.row)
                 (now : timestamptz)
| UpdateMessages (wher : Message.row -> bool) (set : Message.row -> Message.row)
| UpdateUserRoles (wher : UserRole.row -> bool)
                  (set : UserRole.row -> UserRole.row)
| DeleteSymptoms (wher : Symptom.row -> bool)
| DeleteUserRoles (wher : UserRole.row -> bool).

Definition execute (db : database) (uid : option uuid) (s : statement)
  : outcome * database :=
  match s with
  | InsertProfile r => insert_profile db uid r
  | InsertUserRole r => insert_user_role db uid r
  | InsertSymptom r => insert_symptom db uid r
  | InsertDoctorNote r => insert_doctor_note db uid r
  | InsertMessage r => insert_message db uid r
  | InsertAssignment r => insert_assignment db uid r
  | UpdateProfiles wher set now => update_profiles db uid wher set now
  | UpdateSymptoms wher set now => update_symptoms db uid wher set now
  | UpdateMessages wher set => update_messages db uid wher set
  | UpdateUserRoles wher set => update_user_roles db uid wher set
  | DeleteSymptoms wher => delete_symptoms db uid wher
  | DeleteUserRoles wher => delete_user_roles db uid wher
  end.

Definition run (db : database) (script : list (option uuid * statement))
  : database :=
  fold_left (fun d req => snd (execute d (fst req) (snd req))) script db.

End Sql.


(* ===================================================================== *)
(** ** Requests of the views *)
(* ===================================================================== *)

Module Api.

(** What a request resolves to. *)
Record response (A : Type) := {
  data : option (list A);
  error : option text }.

Arguments data {A} _.
Arguments error {A} _.

Definition answered {A} (rows : list A) : response A :=
  {| data := Some rows; error := None |}.

Definition failed {A} (message : text) : response A :=
  {| data := None; error := Some message |}.

(** ORDER BY: rows are put in the order [leb]; rows that compare equal stay
    in the order the table holds them (the database promises no order
    among them). *)
Fixpoint place {A} (leb : A -> A -> bool) (x : A) (l : list A) : list A :=
  match l with
  | [] => [x]
  | y :: l' => if leb x y then x :: l else y :: place leb x l'
  end.

Fixpoint order_by {A} (leb : A -> A -> bool) (l : list A) : list A :=
  match l with
  | [] => []
  | x :: l' => place leb x (order_by leb l')
  end.

(** [from('symptoms').select('*').eq('patient_id', patientId)
     .order('created_at', { ascending: false })] *)
Definition symptomsOf (db : database) (uid : option uuid) (patientId : uuid)
  : response Symptom.row :=
  answered
    (order_by (fun a b => Symptom.created_at b <=? Symptom.created_at a)
       (filter (fun r => Symptom.patient_id r =? patientId)
               (Sql.select_symptoms db uid))).

(** [from('doctor_notes').select('*').in('symptom_id', symptomIds)
     .order('created_at', { ascending: false })] *)
Definition notesOn (db : database) (uid : option uuid) (symptomIds : list uuid)
  : response DoctorNote.row :=
  answered
    (order_by (fun a b => DoctorNote.created_at b <=? DoctorNote.created_at a)
       (filter (fun n => Sql.mem (DoctorNote.symptom_id n) symptomIds)
               (Sql.select_doctor_notes db uid))).

End Api.

(* ===================================================================== *)
(** ** Auth.tsx: the sign-up branch of [handleAuth] *)
(* ===================================================================== *)

Module Auth.

(** What [supabase.auth.signUp] answered: [error], [data.user], and the
    identity under which the client's following requests run ([auth.uid()],
    NULL when sign-up opened no session). *)
Record signUpResponse := {
  error : option text;            (* [error.message] of a failed sign-up *)
  user : option uuid;
  session : option uuid }.

Inductive ui :=
| ToastError (message : text)
| ToastAccountCreated
| Navigate (path : string).

(** [handleAuth] with [isLogin] false, after [authSchema.parse] accepted the
    form.  [db] is the database once the identity provider has answered;
    [gen_random_uuid] and [now] are the column defaults the two inserts
    draw.  Neither insert's result is inspected: the client resolves with
    an [error] field instead of throwing, and the code awaits and goes on. *)
Definition handleAuth (db : database) (resp : signUpResponse)
           (fullName : text) (role : app_role)
           (gen_random_uuid : uuid) (now : timestamptz)
  : database * list ui :=
  match error resp with
  | Some e => (db, [ToastError (if Js.falsy e
                                then Js.lit "An error occurred" else e)])
  | None =>
      match user resp with
      | None => (db, [])
      | Some u =>
          let db1 :=
            snd (Sql.insert_profile db (session resp)
                   {| Profile.id := u; Profile.full_name := fullName;
                      Profile.role := role;
                      Profile.created_at := now; Profile.updated_at := now |}) in
          let db2 :=
            snd (Sql.insert_user_role db1 (session resp)
                   {| UserRole.id := gen_random_uuid; UserRole.user_id := u;
                      UserRole.role := role |}) in
          (db2, [ToastAccountCreated;
                 Navigate (match role with
                           | doctor => "/doctor"
                           | patient => "/dashboard"
                           end)])
      end
  end.

(** [signInWithPassword] answers with the same three things. *)
Definition signInResponse := signUpResponse.

(** [.single()]: the row when the request matched exactly one, no data
    otherwise. *)
Definition single {A} (rows : list A) : option A :=
  match rows with
  | [r] => Some r
  | _ => None
  end.

(** [handleAuth] with [isLogin] true, after [authSchema.parse] accepted the
    form: the requester's profile is fetched
    ([from('profiles').select('role').eq('id', data.user.id).single()]) and
    decides where to go; the request's own error is not looked at. *)
Definition handleAuthLogin (db : database) (resp : signInResponse) : list ui :=
  match error resp with
  | Some e => [ToastError (if Js.falsy e
                           then Js.lit "An error occurred" else e)]
  | None =>
      match user resp with
      | None => []
      | Some u =>
          let profile :=
            single (filter (fun p => Profile.id p =? u)
                           (Sql.select_profiles db (session resp))) in
          [Navigate (match option_map Profile.role profile with
                     | Some doctor => "/doctor"
                     | _ => "/dashboard"
                     end)]
      end
  end.

End Auth.

(* ===================================================================== *)
(** ** SymptomFinder.tsx *)
(* ===================================================================== *)

Module SymptomFinder.

Import Js.

Record SymptomInfo := {
  name : jsstring;
  description : jsstring;
  keywords : list jsstring }.

Definition symptomDatabase : list SymptomInfo := [
  {| name := lit "Rash";
     description := lit "A change in skin appearance or texture, often with redness, bumps, or irritation.";
     keywords := map lit ["itchy"; "red"; "bumps"; "skin"; "irritation"; "hives"]%string |};
  {| name := lit "Fever";
     (* the two degree signs are U+00B0 *)
     description := lit "Elevated body temperature, usually above 100.4" ++ [176]
                    ++ lit "F (38" ++ [176] ++ lit "C), often indicating infection.";
     keywords := map lit ["temperature"; "hot"; "chills"; "sweating"; "infection"]%string |};
  {| name := lit "Headache";
     description := lit "Pain in the head or upper neck, ranging from mild to severe.";
     keywords := map lit ["pain"; "head"; "migraine"; "pressure"; "throbbing"]%string |};
  {| name := lit "Cough";
     description := lit "A reflex action to clear airways of mucus, irritants, or foreign particles.";
     keywords := map lit ["throat"; "phlegm"; "dry"; "productive"; "wheeze"]%string |};
  {| name := lit "Fatigue";
     description := lit "Extreme tiredness or lack of energy that doesn't improve with rest.";
     keywords := map lit ["tired"; "exhausted"; "weak"; "energy"; "sleepy"]%string |};
  {| name := lit "Nausea";
     description := lit "An uncomfortable sensation of wanting to vomit.";
     keywords := map lit ["sick"; "stomach"; "queasy"; "vomit"; "upset"]%string |};
  {| name := lit "Swelling";
     description := lit "Enlargement or puffiness in a body part due to fluid accumulation.";
     keywords := map lit ["puffy"; "inflammation"; "edema"; "enlarged"; "bloated"]%string |};
  {| name := lit "Joint Pain";
     description := lit "Discomfort, aches, or soreness in body joints.";
     keywords := map lit ["arthritis"; "stiff"; "ache"; "knee"; "elbow"; "shoulder"]%string |}
].

(** The component's two state cells. *)
Record state := {
  searchTerm : jsstring;
  filteredSymptoms : list SymptomInfo }.

Definition initial : state :=
  {| searchTerm := []; filteredSymptoms := symptomDatabase |}.

Section Search.

Variable toLowerCase : jsstring -> jsstring.

(** The callback handed to [symptomDatabase.filter]. *)
Definition matchesTerm (lowerTerm : jsstring) (symptom : SymptomInfo) : bool :=
  includes (toLowerCase (name symptom)) lowerTerm
  || includes (toLowerCase (description symptom)) lowerTerm
  || existsb (fun keyword => includes (toLowerCase keyword) lowerTerm)
             (keywords symptom).

Definition handleSearch (term : jsstring) (st : state) : state :=
  if falsy (trim term)
  then {| searchTerm := term; filteredSymptoms := symptomDatabase |}
  else
    let lowerTerm := toLowerCase term in
    {| searchTerm := term;
       filteredSymptoms := filter (matchesTerm lowerTerm) symptomDatabase |}.

End Search.

End SymptomFinder.

(* ===================================================================== *)
(** ** The chat view *)
(* ===================================================================== *)

Module Chat.

Record Doctor := {
  id : uuid;
  full_name : text }.

(** The component's state cells, and [user] as [useAuth] provides it
    (only [user?.id] is ever read; [None] is a missing user).  Requests the
    view sends run under that same identity. *)
Record state := {
  user : option uuid;
  messages : list Message.row;
  newMessage : Js.jsstring;
  doctors : list Doctor;
  selectedDoctor : option Doctor;
  loading : bool }.

Definition setMessages (st : state) (m : list Message.row) : state :=
  {| user := user st; messages := m; newMessage := newMessage st;
     doctors := doctors st; selectedDoctor := selectedDoctor st;
     loading := loading st |}.

Definition setNewMessage (st : state) (s : Js.jsstring) : state :=
  {| user := user st; messages := messages st; newMessage := s;
     doctors := doctors st; selectedDoctor := selectedDoctor st;
     loading := loading st |}.

(** [col === x?.id]: a column value is never [undefined]. *)
Definition strictEq (col : uuid) (x : option uuid) : bool :=
  match x with
  | Some v => col =? v
  | None => false
  end.

(** The test of the subscription callback, on the [user] and
    [selectedDoctor] it closed over. *)
Definition inConversation (user_ : option uuid) (selectedDoctor_ : option Doctor)
           (newMsg : Message.row) : bool :=
  (strictEq (Message.sender_id newMsg) user_
   && strictEq (Message.receiver_id newMsg) (option_map id selectedDoctor_))
  || (strictEq (Message.sender_id newMsg) (option_map id selectedDoctor_)
      && strictEq (Message.receiver_id newMsg) user_).

(** [subscribeToMessages], run in the render whose state is [st], installs
    the INSERT callback returned here.  The callback receives [payload.new]
    and updates the message list of the state current at delivery
    ([setMessages((prev) => [...prev, newMsg])]). *)
Definition subscribeToMessages (st : state) : Message.row -> state -> state :=
  fun newMsg cur =>
    if inConversation (user st) (selectedDoctor st) newMsg
    then setMessages cur (messages cur ++ [newMsg])
    else cur.


Inductive toast := ToastError (error : Sql.outcome).

(** The object handed to [supabase.from('messages').insert]: [sender_id] is
    [user?.id], absent when there is no user. *)
Record insertPayload := {
  sender_id : option uuid;
  receiver_id : uuid;
  content : text }.

(** The INSERT the payload becomes: an absent [sender_id] is sent as NULL,
    for which [auth.uid() = sender_id] is not true; the other columns take
    their defaults. *)
Definition insert (db : database) (uid : option uuid) (p : insertPayload)
           (gen_random_uuid : uuid) (now : timestamptz)
  : Sql.outcome * database :=
  match sender_id p with
  | None => (Sql.RlsViolation, db)
  | Some s =>
      Sql.insert_message db uid
        {| Message.id := gen_random_uuid; Message.sender_id := s;
           Message.receiver_id := receiver_id p; Message.content := content p;
           Message.attachment_url := None; Message.symptom_reference := None;
           Message.read := Some false; Message.created_at := now |}
  end.

(** [if (!newMessage.trim() || !selectedDoctor) return;] then the insert;
    on success the input is cleared, on an error the toast is shown.  The
    two tests of the guard are made here one after the other. *)
Definition handleSend (st : state) (db : database)
           (gen_random_uuid : uuid) (now : timestamptz)
  : state * database * option toast :=
  match selectedDoctor st with
  | None => (st, db, None)
  | Some selectedDoctor_ =>
      if Js.falsy (Js.trim (newMessage st)) then (st, db, None)
      else
        match insert db (user st)
                {| sender_id := user st;
                   receiver_id := id selectedDoctor_;
                   content := Js.trim (newMessage st) |}
                gen_random_uuid now with
        | (Sql.Ok, db') => (setNewMessage st [], db', None)
        | (err, db') => (st, db', Some (ToastError err))
        end
  end.

(** The row filter of [fetchMessages]: two [.or(...)] filters on one
    request, which the API combines with AND:
    [(sender_id = user OR receiver_id = user)
     AND (sender_id = doctor OR receiver_id = doctor)]. *)
Definition fetchMessagesFilter (user_ doctor_ : uuid) (m : Message.row) : bool :=
  ((Message.sender_id m =? user_) || (Message.receiver_id m =? user_))
  && ((Message.sender_id m =? doctor_) || (Message.receiver_id m =? doctor_)).

(** [fetchMessages], on the answer of its request. *)
Definition fetchMessages (answer : Api.response Message.row) (st : state)
  : state :=
  match selectedDoctor st with
  | None => st
  | Some _ =>
      match Api.error answer with
      | Some _ => st
      | None => setMessages st (match Api.data answer with
                                | Some rows => rows
                                | None => []
                                end)
      end
  end.

(** The request itself, oldest message first
    ([.order('created_at', { ascending: true })]); without a user the
    filter value is no uuid and the request fails. *)
Definition fetchMessagesFrom (db : database) (st : state) : state :=
  fetchMessages
    (match user st, selectedDoctor st with
     | Some u, Some d =>
         Api.answered
           (Api.order_by
              (fun a b => Message.created_at a <=? Message.created_at b)
              (filter (fetchMessagesFilter u (id d))
                      (Sql.select_messages db (user st))))
     | _, _ => Api.failed (Js.lit "invalid input syntax for type uuid")
     end)
    st.






End Chat.

(* ===================================================================== *)
(** ** The two dashboards' redirects *)
(* ===================================================================== *)

Module Dashboards.

(** What [useAuth] hands to a page. *)
Record useAuth := {
  user : option uuid;
  userRole : option Js.jsstring;
  loading : bool }.

(** [userRole === 'doctor'] and the like. *)
Definition roleIs (a : useAuth) (r : string) : bool :=
  match userRole a with
  | Some v => Sql.text_eqb v (Js.lit r)
  | None => false
  end.

(** The effect of [Dashboard]: where it navigates, if anywhere. *)
Definition Dashboard (a : useAuth) : option string :=
  if negb (loading a) && match user a with None => true | Some _ => false end
  then Some "/auth"%string
  else if negb (loading a) && roleIs a "doctor"
       then Some "/doctor"%string
       else None.

(** The first effect of [DoctorDashboard]. *)
Definition DoctorDashboard (a : useAuth) : option string :=
  if negb (loading a) && match user a with None => true | Some _ => false end
  then Some "/auth"%string
  else if negb (loading a) && roleIs a "patient"
       then Some "/dashboard"%string
       else None.

(** The condition of its second effect: whether [fetchPatients] runs. *)
Definition fetchesPatients (a : useAuth) : bool :=
  match user a with Some _ => true | None => false end && roleIs a "doctor".

End Dashboards.


(* ===================================================================== *)
(** ** The doctor's view of a patient's timeline *)
(* ===================================================================== *)

Module PatientTimeline.

(** [{ [key: string]: DoctorNote[] }]: an object read and written by
    symptom id only. *)
Definition notesBySymptom := uuid -> option (list DoctorNote.row).

Definition noNotes : notesBySymptom := fun _ => None.

Definition setKey (o : notesBySymptom) (k : uuid) (v : list DoctorNote.row)
  : notesBySymptom :=
  fun k' => if k' =? k then Some v else o k'.

(** The body of [notesData.forEach]:
    [if (!groupedNotes[k]) groupedNotes[k] = []; groupedNotes[k].push(note)]
    (an array, even empty, is truthy). *)
Definition pushNote (groupedNotes : notesBySymptom) (note : DoctorNote.row)
  : notesBySymptom :=
  let k := DoctorNote.symptom_id note in
  let o := match groupedNotes k with
           | None => setKey groupedNotes k []
           | Some _ => groupedNotes
           end in
  match o k with
  | Some l => setKey o k (l ++ [note])
  | None => o
  end.

Definition groupNotes (notesData : list DoctorNote.row) : notesBySymptom :=
  fold_left pushNote notesData noNotes.

Record state := {
  symptoms : list Symptom.row;
  notes : notesBySymptom;
  loading : bool;
  addingNote : option uuid;
  noteText : Js.jsstring;
  progressStatus : Js.jsstring }.

Definition setLoading (st : state) (b : bool) : state :=
  {| symptoms := symptoms st; notes := notes st; loading := b;
     addingNote := addingNote st; noteText := noteText st;
     progressStatus := progressStatus st |}.

(** [fetchData], on the answers of its two requests; the second request is
    built from the ids of the symptoms the first returned, and is only
    sent when there are any.  A request's error is thrown, logged, and
    leaves the lists alone; [loading] is cleared in every case. *)
Definition fetchData (symptomsAnswer : Api.response Symptom.row)
           (notesAnswer : list uuid -> Api.response DoctorNote.row)
           (st : state) : state :=
  match Api.error symptomsAnswer with
  | Some _ => setLoading st false
  | None =>
      match Api.data symptomsAnswer with
      | Some (s :: l) =>
          let symptomsData := s :: l in
          let symptomIds := map Symptom.id symptomsData in
          match Api.error (notesAnswer symptomIds) with
          | Some _ => setLoading st false
          | None =>
              {| symptoms := symptomsData;
                 notes := match Api.data (notesAnswer symptomIds) with
                          | Some notesData => groupNotes notesData
                          | None => noNotes
                          end;
                 loading := false;
                 addingNote := addingNote st; noteText := noteText st;
                 progressStatus := progressStatus st |}
          end
      | Some [] | None =>
          {| symptoms := []; notes := notes st; loading := false;
             addingNote := addingNote st; noteText := noteText st;
             progressStatus := progressStatus st |}
      end
  end.

(** [fetchData] against the database, for the view of patient [patientId]
    opened by [user]. *)
Definition fetchDataFrom (db : database) (user : option uuid) (patientId : uuid)
           (st : state) : state :=
  fetchData (Api.symptomsOf db user patientId) (Api.notesOn db user) st.

Inductive toast := NoteAdded | ToastError (error : Sql.outcome).

(** The object handed to [supabase.from('doctor_notes').insert]. *)
Record insertPayload := {
  symptom_id : uuid;
  doctor_id : option uuid;
  note : text;
  progress_status : Js.jsstring }.

(** The INSERT the payload becomes: an absent [doctor_id] is sent as NULL,
    for which [auth.uid() = doctor_id] is not true; key and creation time
    take their defaults. *)
Definition insert (db : database) (uid : option uuid) (p : insertPayload)
           (gen_random_uuid : uuid) (now : timestamptz)
  : Sql.outcome * database :=
  match doctor_id p with
  | None => (Sql.RlsViolation, db)
  | Some d =>
      Sql.insert_doctor_note db uid
        {| DoctorNote.id := gen_random_uuid;
           DoctorNote.symptom_id := symptom_id p;
           DoctorNote.doctor_id := d; DoctorNote.note := note p;
           DoctorNote.progress_status := Some (progress_status p);
           DoctorNote.created_at := now |}
  end.

(** [handleAddNote(symptomId)]; the [fetchData()] it ends with on success
    is run to completion. *)
Definition handleAddNote (user : option uuid) (patientId : uuid)
           (symptomId : uuid) (st : state) (db : database)
           (gen_random_uuid : uuid) (now : timestamptz)
  : state * database * option toast :=
  if Js.falsy (Js.trim (noteText st)) then (st, db, None)
  else
    match insert db user
            {| symptom_id := symptomId; doctor_id := user;
               note := Js.trim (noteText st);
               progress_status := progressStatus st |}
            gen_random_uuid now with
    | (Sql.Ok, db') =>
        (fetchDataFrom db' user patientId
           {| symptoms := symptoms st; notes := notes st; loading := loading st;
              addingNote := None; noteText := [];
              progressStatus := Js.lit "stable" |},
         db', Some NoteAdded)
    | (err, db') => (st, db', Some (ToastError err))
    end.

End PatientTimeline.


(* ===================================================================== *)
(** ** The patient's timeline and the photo store *)
(* ===================================================================== *)

Module JsArray.

(** [s.split(sep)] for a separator of one code unit: the pieces between
    the separators, at least one piece, possibly empty ones. *)
Fixpoint split (sep : N) (s : Js.jsstring) : list Js.jsstring :=
  match s with
  | [] => [[]]
  | c :: s' =>
      if c =? sep then [] :: split sep s'
      else match split sep s' with
           | piece :: pieces => (c :: piece) :: pieces
           | [] => [[c]]
           end
  end.

(** [a.pop()]: the last element, [undefined] for an empty array. *)
Fixpoint pop {A} (a : list A) : option A :=
  match a with
  | [] => None
  | [x] => Some x
  | _ :: a' => pop a'
  end.

(** A template literal prints a missing value as [undefined]. *)
Definition template (x : option Js.jsstring) : Js.jsstring :=
  match x with
  | Some s => s
  | None => Js.lit "undefined"
  end.

End JsArray.

Module Storage.

(** The two columns of [storage.objects] the policies read. *)
Record object := {
  bucket_id : text;
  name : text }.

Section Policies.

(** [auth.uid()::text], and [storage.foldername], a function of the
    platform. *)
Variable uuid_text : uuid -> text.
Variable foldername : text -> list text.

(** [auth.uid()::text = (storage.foldername(name))[1]]; NULL, hence not
    true, without identity or without a folder. *)
Definition own_folder (uid : option uuid) (o : object) : bool :=
  match uid, foldername (name o) with
  | Some u, first :: _ => Sql.text_eqb (uuid_text u) first
  | _, _ => false
  end.

Definition Users_can_upload_their_own_symptom_photos
           (uid : option uuid) (o : object) : bool :=
  Sql.text_eqb (bucket_id o) (Js.lit "symptom-photos") && own_folder uid o.

Definition Users_can_view_symptom_photos
           (uid : option uuid) (o : object) : bool :=
  Sql.text_eqb (bucket_id o) (Js.lit "symptom-photos").

Definition Users_can_update_their_own_symptom_photos
           (uid : option uuid) (o : object) : bool :=
  Sql.text_eqb (bucket_id o) (Js.lit "symptom-photos") && own_folder uid o.

Definition Users_can_delete_their_own_symptom_photos
           (uid : option uuid) (o : object) : bool :=
  Sql.text_eqb (bucket_id o) (Js.lit "symptom-photos") && own_folder uid o.

End Policies.

(** What the platform documents of [storage.foldername]: the segments of
    the path without the last one, the file's name. *)
Definition folders (path : text) : list text :=
  removelast (JsArray.split 47 path).

Definition foldernameAsDocumented (foldername : text -> list text) : Prop :=
  forall path, path <> [] -> foldername path = folders path.

End Storage.

Module Timeline.

Record File := { name : Js.jsstring }.

Record form := {
  title : Js.jsstring;
  description : Js.jsstring;
  severity : Js.jsstring;
  affected_area : Js.jsstring;
  duration : Js.jsstring;
  photo : option File }.

Definition emptyForm : form :=
  {| title := []; description := []; severity := Js.lit "mild";
     affected_area := []; duration := []; photo := None |}.

Record state := {
  symptoms : list Symptom.row;
  loading : bool;
  dialogOpen : bool;
  uploading : bool;
  formData : form }.

Definition setUploading (st : state) (b : bool) : state :=
  {| symptoms := symptoms st; loading := loading st;
     dialogOpen := dialogOpen st; uploading := b; formData := formData st |}.

(** [fetchSymptoms], on the answer of its request. *)
Definition fetchSymptoms (answer : Api.response Symptom.row) (st : state)
  : state :=
  match Api.error answer with
  | Some _ =>
      {| symptoms := symptoms st; loading := false;
         dialogOpen := dialogOpen st; uploading := uploading st;
         formData := formData st |}
  | None =>
      {| symptoms := match Api.data answer with
                     | Some rows => rows
                     | None => []
                     end;
         loading := false;
         dialogOpen := dialogOpen st; uploading := uploading st;
         formData := formData st |}
  end.

(** The request itself, [.eq('patient_id', user?.id)]: without a user the
    filter value is no uuid and the request fails. *)
Definition fetchSymptomsFrom (db : database) (user : option uuid) (st : state)
  : state :=
  fetchSymptoms
    (match user with
     | Some u => Api.symptomsOf db user u
     | None => Api.failed (Js.lit "invalid input syntax for type uuid")
     end)
    st.

(** What [handleSubmit] catches: a statement the database refused, or an
    upload the photo store refused or failed. *)
Inductive failure :=
| Refused (error : Sql.outcome)
| UploadFailed (message : text).

Inductive toast := SymptomAdded | ToastError (error : failure).

(** The object handed to [supabase.from('symptoms').insert]. *)
Record insertPayload := {
  patient_id : option uuid;
  payload_title : Js.jsstring;
  payload_description : Js.jsstring;
  payload_severity : Js.jsstring;
  payload_affected_area : Js.jsstring;
  payload_duration : Js.jsstring;
  photo_url : option Js.jsstring }.

(** The INSERT the payload becomes; an absent [patient_id] is sent as
    NULL, for which [auth.uid() = patient_id] is not true. *)
Definition insert (db : database) (uid : option uuid) (p : insertPayload)
           (gen_random_uuid : uuid) (now : timestamptz)
  : Sql.outcome * database :=
  match patient_id p with
  | None => (Sql.RlsViolation, db)
  | Some u =>
      Sql.insert_symptom db uid
        {| Symptom.id := gen_random_uuid; Symptom.patient_id := u;
           Symptom.title := payload_title p;
           Symptom.description := Some (payload_description p);
           Symptom.photo_url := photo_url p;
           Symptom.severity := Some (payload_severity p);
           Symptom.affected_area := Some (payload_affected_area p);
           Symptom.duration := Some (payload_duration p);
           Symptom.created_at := now; Symptom.updated_at := now |}
  end.

Section WithStorage.

Variable uuid_text : uuid -> text.
Variable foldername : text -> list text.
Variable getPublicUrl : Js.jsstring -> Js.jsstring.

(** [`${user?.id}/${Date.now()}.${fileExt}`] with
    [fileExt = file.name.split('.').pop()]; [stamp] is [Date.now()] as the
    template prints it. *)
Definition fileName (user : option uuid) (stamp : Js.jsstring) (file : File)
  : Js.jsstring :=
  let fileExt := JsArray.pop (JsArray.split 46 (name file)) in
  JsArray.template (option_map uuid_text user) ++ [47] ++ stamp ++ [46]
    ++ JsArray.template fileExt.

(** [handlePhotoUpload]: the upload is an INSERT into the bucket under the
    user's identity, refused unless the upload policy holds;
    [serviceError] is whatever else the store may answer.  An error is
    thrown, otherwise the public URL of the path is returned. *)
Definition handlePhotoUpload (user : option uuid) (stamp : Js.jsstring)
           (serviceError : option text) (file : File)
  : failure + Js.jsstring :=
  let path := fileName user stamp file in
  if Storage.Users_can_upload_their_own_symptom_photos uuid_text foldername user
       {| Storage.bucket_id := Js.lit "symptom-photos"; Storage.name := path |}
  then match serviceError with
       | Some message => inl (UploadFailed message)
       | None => inr (getPublicUrl path)
       end
  else inl (Refused Sql.RlsViolation).

(** [handleSubmit]; [uploading] is set on entry and cleared in [finally];
    the [fetchSymptoms()] it ends with on success is run to completion. *)
Definition handleSubmit (user : option uuid) (st : state) (db : database)
           (stamp : Js.jsstring) (serviceError : option text)
           (gen_random_uuid : uuid) (now : timestamptz)
  : state * database * option toast :=
  match match photo (formData st) with
        | Some file =>
            match handlePhotoUpload user stamp serviceError file with
            | inl e => inl e
            | inr publicUrl => inr (Some publicUrl)
            end
        | None => inr None
        end with
  | inl e => (setUploading st false, db, Some (ToastError e))
  | inr photoUrl =>
      match insert db user
              {| patient_id := user;
                 payload_title := title (formData st);
                 payload_description := description (formData st);
                 payload_severity := severity (formData st);
                 payload_affected_area := affected_area (formData st);
                 payload_duration := duration (formData st);
                 photo_url := photoUrl |}
              gen_random_uuid now with
      | (Sql.Ok, db') =>
          (fetchSymptomsFrom db' user
             {| symptoms := symptoms st; loading := loading st;
                dialogOpen := false; uploading := false;
                formData := emptyForm |},
           db', Some SymptomAdded)
      | (err, db') =>
          (setUploading st false, db', Some (ToastError (Refused err)))
      end
  end.

End WithStorage.

End Timeline.


(* ===================================================================== *)
(** ** Vocabulary of the statements *)
(* ===================================================================== *)

(** A grant of role [R] to identity [I]. *)
Definition RoleGrant (db : database) (I : uuid) (R : app_role) : Prop :=
  exists g, In g (user_roles db) /\ UserRole.user_id g = I /\ UserRole.role g = R.

(** [t] occurs in [s] as a contiguous run of code units. *)
Definition Substring (t s : Js.jsstring) : Prop :=
  exists pre post, s = pre ++ t ++ post.

(** The entry's name, its description or one of its keywords contains the
    query, case being ignored: both sides are compared in lower case. *)
Definition ContainsIgnoringCase (toLowerCase : Js.jsstring -> Js.jsstring)
           (term : Js.jsstring) (e : SymptomFinder.SymptomInfo) : Prop :=
  Substring (toLowerCase term) (toLowerCase (SymptomFinder.name e))
  \/ Substring (toLowerCase term) (toLowerCase (SymptomFinder.description e))
  \/ exists keyword, In keyword (SymptomFinder.keywords e)
                     /\ Substring (toLowerCase term) (toLowerCase keyword).

(** The message belongs to the conversation open in the view: between the
    user and the selected doctor, in either direction. *)
Definition OpenConversation (st : Chat.state) (m : Message.row) : Prop :=
  exists u d, Chat.user st = Some u /\ Chat.selectedDoctor st = Some d
              /\ ((Message.sender_id m = u /\ Message.receiver_id m = Chat.id d)
                  \/ (Message.sender_id m = Chat.id d /\ Message.receiver_id m = u)).


(** An assignment of doctor [D] to patient [P]. *)
Definition Assigned (db : database) (P D : uuid) : Prop :=
  exists a, In a (patient_doctor_assignments db)
            /\ Assignment.patient_id a = P /\ Assignment.doctor_id a = D.


(* ===================================================================== *)
(** ** Sample rows and databases *)
(* ===================================================================== *)

Module Sample.

Definition alice : uuid := 1.
Definition bob : uuid := 2.
Definition carol : uuid := 3.

(** Alice's symptom. *)
Definition rash : Symptom.row :=
  {| Symptom.id := 100; Symptom.patient_id := alice;
     Symptom.title := Js.lit "Rash"; Symptom.description := None;
     Symptom.photo_url := None; Symptom.severity := Some (Js.lit "mild");
     Symptom.affected_area := Some (Js.lit "arm"); Symptom.duration := None;
     Symptom.created_at := 5; Symptom.updated_at := 5 |}.

(** A symptom Bob logged for himself. *)
Definition cough : Symptom.row :=
  {| Symptom.id := 101; Symptom.patient_id := bob;
     Symptom.title := Js.lit "Cough"; Symptom.description := None;
     Symptom.photo_url := None; Symptom.severity := None;
     Symptom.affected_area := None; Symptom.duration := None;
     Symptom.created_at := 6; Symptom.updated_at := 6 |}.

Definition bob_doctor : UserRole.row :=
  {| UserRole.id := 10; UserRole.user_id := bob; UserRole.role := doctor |}.

Definition bob_patient : UserRole.row :=
  {| UserRole.id := 11; UserRole.user_id := bob; UserRole.role := patient |}.

Definition alice_patient : UserRole.row :=
  {| UserRole.id := 12; UserRole.user_id := alice; UserRole.role := patient |}.

Definition alice_bob : Assignment.row :=
  {| Assignment.id := 50; Assignment.patient_id := alice;
     Assignment.doctor_id := bob; Assignment.assigned_at := 7 |}.

(** Bob holds both roles; nobody is assigned to anybody. *)
Definition unassigned : database :=
  {| auth_users := [alice; bob; carol]; profiles := [];
     user_roles := [alice_patient; bob_doctor; bob_patient];
     symptoms := [rash; cough]; doctor_notes := []; messages := [];
     patient_doctor_assignments := [] |}.

(** The same, with Bob assigned to Alice. *)
Definition assigned : database := Sql.set_assignments unassigned [alice_bob].

(** A note by Bob on Alice's symptom. *)
Definition bobs_note : DoctorNote.row :=
  {| DoctorNote.id := 200; DoctorNote.symptom_id := 100;
     DoctorNote.doctor_id := bob; DoctorNote.note := Js.lit "Keep it dry.";
     DoctorNote.progress_status := Some (Js.lit "stable");
     DoctorNote.created_at := 8 |}.

(** Alice writes to Bob, Bob answers. *)
Definition hello : Message.row :=
  {| Message.id := 300; Message.sender_id := alice; Message.receiver_id := bob;
     Message.content := Js.lit "Hello"; Message.attachment_url := None;
     Message.symptom_reference := None; Message.read := Some false;
     Message.created_at := 9 |}.

Definition answer : Message.row :=
  {| Message.id := 301; Message.sender_id := bob; Message.receiver_id := alice;
     Message.content := Js.lit "Hi"; Message.attachment_url := None;
     Message.symptom_reference := None; Message.read := Some false;
     Message.created_at := 10 |}.

Definition chatting : database := Sql.set_messages assigned [hello; answer].

(** [UPDATE messages SET read = true WHERE id = 300] *)
Definition is_hello (m : Message.row) : bool := Message.id m =? 300.

Definition mark_read (m : Message.row) : Message.row :=
  {| Message.id := Message.id m; Message.sender_id := Message.sender_id m;
     Message.receiver_id := Message.receiver_id m;
     Message.content := Message.content m;
     Message.attachment_url := Message.attachment_url m;
     Message.symptom_reference := Message.symptom_reference m;
     Message.read := Some true; Message.created_at := Message.created_at m |}.

(** [UPDATE messages SET sender_id = carol, content = 'Bye',
     attachment_url = 'x', symptom_reference = 100, created_at = 0
     WHERE id = 300] *)
Definition overwrite (m : Message.row) : Message.row :=
  {| Message.id := Message.id m; Message.sender_id := carol;
     Message.receiver_id := Message.receiver_id m;
     Message.content := Js.lit "Bye";
     Message.attachment_url := Some (Js.lit "x");
     Message.symptom_reference := Some 100;
     Message.read := Message.read m; Message.created_at := 0 |}.

(** Dana has just signed up: the identity exists, nothing else does. *)
Definition dana : uuid := 4.

Definition fresh : database :=
  {| auth_users := [dana]; profiles := []; user_roles := [];
     symptoms := []; doctor_notes := []; messages := [];
     patient_doctor_assignments := [] |}.

Definition dana_signed_up : Auth.signUpResponse :=
  {| Auth.error := None; Auth.user := Some dana; Auth.session := Some dana |}.

Definition danas_profile : Profile.row :=
  {| Profile.id := dana; Profile.full_name := Js.lit "Dana";
     Profile.role := patient; Profile.created_at := 1; Profile.updated_at := 1 |}.

Definition danas_grant : UserRole.row :=
  {| UserRole.id := 20; UserRole.user_id := dana; UserRole.role := patient |}.

(** Alice's chat view, open on her conversation with Bob. *)
Definition dr_bob : Chat.Doctor :=
  {| Chat.id := bob; Chat.full_name := Js.lit "Dr Bob" |}.

Definition alices_chat : Chat.state :=
  {| Chat.user := Some alice; Chat.messages := [hello];
     Chat.newMessage := Js.lit "  Thanks! ";
     Chat.doctors := [dr_bob]; Chat.selectedDoctor := Some dr_bob;
     Chat.loading := false |}.

Definition thanks : Message.row :=
  {| Message.id := 302; Message.sender_id := alice; Message.receiver_id := bob;
     Message.content := Js.lit "Thanks!"; Message.attachment_url := None;
     Message.symptom_reference := None; Message.read := Some false;
     Message.created_at := 11 |}.

(** A second doctor, Carol, also assigned to Alice; Bob's note on Alice's
    rash is on file, and Alice has sent Bob a message about the rash. *)
Definition carol_doctor : UserRole.row :=
  {| UserRole.id := 13; UserRole.user_id := carol; UserRole.role := doctor |}.

Definition alice_carol : Assignment.row :=
  {| Assignment.id := 51; Assignment.patient_id := alice;
     Assignment.doctor_id := carol; Assignment.assigned_at := 7 |}.

Definition look : Message.row :=
  {| Message.id := 303; Message.sender_id := alice; Message.receiver_id := bob;
     Message.content := Js.lit "Look at this"; Message.attachment_url := None;
     Message.symptom_reference := Some 100; Message.read := Some false;
     Message.created_at := 12 |}.

Definition clinic : database :=
  {| auth_users := [alice; bob; carol]; profiles := [];
     user_roles := [alice_patient; bob_doctor; carol_doctor];
     symptoms := [rash; cough]; doctor_notes := [bobs_note];
     messages := [hello; look];
     patient_doctor_assignments := [alice_bob; alice_carol] |}.

(** A symptom Alice is about to log. *)
Definition fever : Symptom.row :=
  {| Symptom.id := 102; Symptom.patient_id := alice;
     Symptom.title := Js.lit "Fever"; Symptom.description := Some [];
     Symptom.photo_url := None; Symptom.severity := Some (Js.lit "moderate");
     Symptom.affected_area := Some []; Symptom.duration := Some (Js.lit "2 days");
     Symptom.created_at := 13; Symptom.updated_at := 13 |}.

(** [UPDATE symptoms SET patient_id = bob WHERE id = 100] and
    [UPDATE symptoms SET severity = 'severe', updated_at = 0 WHERE id = 100] *)
Definition is_rash (r : Symptom.row) : bool := Symptom.id r =? 100.

Definition give_to_bob (r : Symptom.row) : Symptom.row :=
  {| Symptom.id := Symptom.id r; Symptom.patient_id := bob;
     Symptom.title := Symptom.title r; Symptom.description := Symptom.description r;
     Symptom.photo_url := Symptom.photo_url r; Symptom.severity := Symptom.severity r;
     Symptom.affected_area := Symptom.affected_area r;
     Symptom.duration := Symptom.duration r;
     Symptom.created_at := Symptom.created_at r;
     Symptom.updated_at := Symptom.updated_at r |}.

Definition worsen (r : Symptom.row) : Symptom.row :=
  {| Symptom.id := Symptom.id r; Symptom.patient_id := Symptom.patient_id r;
     Symptom.title := Symptom.title r; Symptom.description := Symptom.description r;
     Symptom.photo_url := Symptom.photo_url r;
     Symptom.severity := Some (Js.lit "severe");
     Symptom.affected_area := Symptom.affected_area r;
     Symptom.duration := Symptom.duration r;
     Symptom.created_at := Symptom.created_at r;
     Symptom.updated_at := 0 |}.

(** Bob's view of Alice's timeline, a note being typed under her rash. *)
Definition bobs_view : PatientTimeline.state :=
  {| PatientTimeline.symptoms := [rash];
     PatientTimeline.notes := PatientTimeline.noNotes;
     PatientTimeline.loading := false;
     PatientTimeline.addingNote := Some 100;
     PatientTimeline.noteText := Js.lit " Keep it dry. ";
     PatientTimeline.progressStatus := Js.lit "stable" |}.

(** The text of the sample identities, and Alice's form with a photo. *)
Definition uuid_text (u : uuid) : text :=
  Js.lit "00000000-0000-4000-8000-00000000000" ++ [48 + u].

Definition public_url (path : Js.jsstring) : Js.jsstring :=
  Js.lit "https://store.example/object/public/symptom-photos/" ++ path.

Definition alices_timeline : Timeline.state :=
  {| Timeline.symptoms := [rash]; Timeline.loading := false;
     Timeline.dialogOpen := true; Timeline.uploading := false;
     Timeline.formData :=
       {| Timeline.title := Js.lit "Fever"; Timeline.description := [];
          Timeline.severity := Js.lit "moderate";
          Timeline.affected_area := [];
          Timeline.duration := Js.lit "2 days";
          Timeline.photo := Some {| Timeline.name := Js.lit "holiday.snap.JPG" |} |} |}.

(** Carol writes to Alice, whom she neither treats nor is treated by. *)
Definition carols_hello : Message.row :=
  {| Message.id := 304; Message.sender_id := carol;
     Message.receiver_id := alice; Message.content := Js.lit "Hello Alice";
     Message.attachment_url := None; Message.symptom_reference := None;
     Message.read := Some false; Message.created_at := 14 |}.

(** Carol tries to file Bob's note in his name, Alice tries to grant
    herself the doctor role, then Bob files his note himself. *)
Definition three_requests : list (option uuid * Sql.statement) :=
  [(Some carol, Sql.InsertDoctorNote bobs_note);
   (Some alice,
    Sql.InsertUserRole
      {| UserRole.id := 22; UserRole.user_id := alice; UserRole.role := doctor |});
   (Some bob, Sql.InsertDoctorNote bobs_note)].

(** [UPDATE profiles SET role = 'doctor', updated_at = 0 WHERE id = dana] *)
Definition is_dana (p : Profile.row) : bool := Profile.id p =? dana.

Definition become_doctor (p : Profile.row) : Profile.row :=
  {| Profile.id := Profile.id p; Profile.full_name := Profile.full_name p;
     Profile.role := doctor; Profile.created_at := Profile.created_at p;
     Profile.updated_at := 0 |}.





End Sample.


(* ===================================================================== *)
(** * Properties *)
(* ===================================================================== *)

(** ** Auxiliary facts *)

Lemma uid_eq_true (u c : uuid) : Rls.uid_eq (Some u) c = true <-> u = c.
Proof. simpl. apply N.eqb_eq. Qed.

Lemma uid_eq_false (u c : uuid) : Rls.uid_eq (Some u) c = false <-> u <> c.
Proof. simpl. apply N.eqb_neq. Qed.

Lemma app_role_eqb_true (a b : app_role) : app_role_eqb a b = true <-> a = b.
Proof. destruct a, b; simpl; split; congruence. Qed.

Lemma mem_In (x : uuid) (l : list uuid) : Sql.mem x l = true <-> In x l.
Proof.
  unfold Sql.mem. rewrite existsb_exists. split.
  - intros [y [Hy Heq]]. apply N.eqb_eq in Heq. now subst.
  - intros H. exists x. split; [assumption | apply N.eqb_refl].
Qed.

Lemma has_role_RoleGrant db I R :
  Rls.has_role db (Some I) R = true <-> RoleGrant db I R.
Proof.
  unfold Rls.has_role, RoleGrant. rewrite existsb_exists.
  split; intros [g [Hin H]]; exists g; split; try assumption.
  - apply andb_true_iff in H. destruct H as [Hu Hr].
    apply uid_eq_true in Hu. apply app_role_eqb_true in Hr. now subst.
  - destruct H as [Hu Hr]. apply andb_true_iff. split.
    + apply uid_eq_true. now symmetry.
    + now apply app_role_eqb_true.
Qed.

(** The requester sees every assignment row that names him as doctor, so
    the sub-select of the doctor path misses none of them. *)
Lemma assignment_exists_Assigned db P D :
  existsb (fun a => (Assignment.patient_id a =? P)
                    && Rls.uid_eq (Some D) (Assignment.doctor_id a))
          (Rls.visible_assignments db (Some D)) = true
  <-> Assigned db P D.
Proof.
  unfold Assigned, Rls.visible_assignments. rewrite existsb_exists.
  split.
  - intros [a [Hin H]]. apply filter_In in Hin. destruct Hin as [Hin _].
    exists a. split; [assumption |].
    apply andb_true_iff in H. destruct H as [Hp Hd].
    apply N.eqb_eq in Hp. apply uid_eq_true in Hd. now subst.
  - intros [a [Hin [Hp Hd]]]. exists a.
    assert (Hu : Rls.uid_eq (Some D) (Assignment.doctor_id a) = true)
      by (apply uid_eq_true; now symmetry).
    split.
    + apply filter_In. split; [assumption |].
      unfold Rls.permitted. cbn [existsb Rls.assignments_policies].
      unfold Rls.Users_can_view_their_assignments.
      rewrite Hu. now rewrite orb_true_r.
    + apply andb_true_iff. split; [now apply N.eqb_eq | exact Hu].
Qed.

(** The doctor path of the symptoms SELECT predicate. *)
Lemma doctor_view_iff db D S :
  Rls.Doctors_can_view_assigned_patients_symptoms db (Some D) S = true
  <-> RoleGrant db D doctor /\ Assigned db (Symptom.patient_id S) D.
Proof.
  unfold Rls.Doctors_can_view_assigned_patients_symptoms.
  rewrite andb_true_iff, has_role_RoleGrant, assignment_exists_Assigned.
  tauto.
Qed.

Lemma symptoms_select_iff db U S :
  Rls.permitted (Rls.symptoms_policies Rls.SELECT) db (Some U) S = true
  <-> U = Symptom.patient_id S
      \/ (RoleGrant db U doctor /\ Assigned db (Symptom.patient_id S) U).
Proof.
  unfold Rls.permitted. cbn [existsb Rls.symptoms_policies].
  rewrite orb_false_r, orb_true_iff, doctor_view_iff.
  unfold Rls.Patients_can_view_their_own_symptoms. rewrite uid_eq_true.
  tauto.
Qed.

Lemma symptoms_update_iff db U S :
  Rls.permitted (Rls.symptoms_policies Rls.UPDATE) db (Some U) S = true
  <-> U = Symptom.patient_id S.
Proof.
  unfold Rls.permitted. cbn [existsb Rls.symptoms_policies].
  rewrite orb_false_r. apply uid_eq_true.
Qed.

Lemma symptoms_delete_iff db U S :
  Rls.permitted (Rls.symptoms_policies Rls.DELETE) db (Some U) S = true
  <-> U = Symptom.patient_id S.
Proof.
  unfold Rls.permitted. cbn [existsb Rls.symptoms_policies].
  rewrite orb_false_r. apply uid_eq_true.
Qed.

Lemma not_Assigned_after_removal db P D :
  ~ Assigned (Sql.remove_assignment P D db) P D.
Proof.
  intros [a [Hin [Hp Hd]]]. unfold Sql.remove_assignment in Hin. simpl in Hin.
  apply filter_In in Hin. destruct Hin as [_ Hf].
  apply negb_true_iff, andb_false_iff in Hf.
  destruct Hf as [Hf | Hf]; apply N.eqb_neq in Hf; contradiction.
Qed.

(* --------------------------------------------------------------------- *)
(** ** The authorization predicate *)
(* --------------------------------------------------------------------- *)

(** C3.  [has_role(I, R)] is true exactly when [user_roles] holds a row for
    the pair (I, R); and two states of the table that hold the same rows
    for that pair give the same answer, whatever other rows, for [I] or
    for anybody else, either of them holds. *)
Theorem has_role_iff_grant :
  forall (db : database) (I : uuid) (R : app_role),
    (Rls.has_role db (Some I) R = true <-> RoleGrant db I R)
    /\ (forall db' : database,
           (forall g, UserRole.user_id g = I -> UserRole.role g = R ->
                      (In g (user_roles db) <-> In g (user_roles db'))) ->
           Rls.has_role db' (Some I) R = Rls.has_role db (Some I) R).
Proof.
  intros db I R. split.
  - apply has_role_RoleGrant.
  - intros db' Hsame.
    assert (Hiff : RoleGrant db' I R <-> RoleGrant db I R).
    { split; intros [g [Hin [Hu Hr]]]; exists g;
        (split; [apply (Hsame g Hu Hr); exact Hin | split; assumption]). }
    rewrite <- !has_role_RoleGrant in Hiff.
    destruct (Rls.has_role db' (Some I) R), (Rls.has_role db (Some I) R);
      try reflexivity; destruct Hiff as [H1 H2];
      [ discriminate (H1 eq_refl) | discriminate (H2 eq_refl) ].
Qed.

(** C3 at work: Bob's doctor grant is found among his and Alice's other
    grants, and dropping those other grants does not change the answer. *)
Lemma has_role_iff_grant_witness :
  Rls.has_role Sample.unassigned (Some Sample.bob) doctor = true
  /\ Rls.has_role (Sql.set_user_roles Sample.unassigned [Sample.bob_doctor])
                  (Some Sample.bob) doctor
     = Rls.has_role Sample.unassigned (Some Sample.bob) doctor.
Proof.
  split.
  - apply (proj1 (has_role_iff_grant Sample.unassigned Sample.bob doctor)).
    exists Sample.bob_doctor. simpl. auto.
  - apply (proj2 (has_role_iff_grant Sample.unassigned Sample.bob doctor)).
    intros g Hu Hr. simpl. split.
    + intros [H | [H | [H | []]]]; subst g; try discriminate; now left.
    + intros [H | []]. subst g. right. now left.
Defined.

(* --------------------------------------------------------------------- *)
(** ** Symptoms *)
(* --------------------------------------------------------------------- *)

(** C2, as the policies have it.  For a requester [D] who is not the
    symptom's owner, the SELECT predicate on a symptom of patient [P]
    holds exactly when [D] holds the doctor role and an assignment (P, D)
    exists; and once that assignment is removed, [D]'s SELECT returns no
    symptom of [P]. *)
Theorem doctor_select_iff_assigned :
  forall (db : database) (D : uuid) (S : Symptom.row),
    D <> Symptom.patient_id S ->
    (Rls.permitted (Rls.symptoms_policies Rls.SELECT) db (Some D) S = true
     <-> Assigned db (Symptom.patient_id S) D /\ RoleGrant db D doctor)
    /\ (~ Assigned db (Symptom.patient_id S) D ->
        Rls.permitted (Rls.symptoms_policies Rls.SELECT) db (Some D) S = false)
    /\ ~ In S (Sql.select_symptoms
                 (Sql.remove_assignment (Symptom.patient_id S) D db) (Some D)).
Proof.
  intros db D S Hne. split; [| split].
  - rewrite symptoms_select_iff. tauto.
  - intros Hno. apply not_true_is_false. rewrite symptoms_select_iff. tauto.
  - intros Hin. unfold Sql.select_symptoms in Hin.
    apply filter_In in Hin. destruct Hin as [_ Hp].
    apply symptoms_select_iff in Hp. destruct Hp as [Hp | [_ Hp]].
    + contradiction.
    + exact (not_Assigned_after_removal db _ _ Hp).
Qed.

Lemma doctor_select_iff_assigned_witness :
  Sample.bob <> Symptom.patient_id Sample.rash
  /\ Rls.permitted (Rls.symptoms_policies Rls.SELECT) Sample.assigned
                   (Some Sample.bob) Sample.rash = true
  /\ ~ In Sample.rash
         (Sql.select_symptoms
            (Sql.remove_assignment Sample.alice Sample.bob Sample.assigned)
            (Some Sample.bob)).
Proof.
  assert (Hne : Sample.bob <> Symptom.patient_id Sample.rash) by discriminate.
  destruct (doctor_select_iff_assigned Sample.assigned Sample.bob Sample.rash Hne)
    as [Hiff [_ Hgone]].
  split; [exact Hne | split].
  - apply Hiff. split.
    + exists Sample.alice_bob. simpl. auto.
    + exists Sample.bob_doctor. simpl. auto.
  - exact Hgone.
Defined.

(** C2 as stated fails when the doctor is the symptom's owner: Bob holds
    the doctor role, no assignment exists at all, and he still selects the
    symptom he logged himself. *)
Lemma doctor_select_own_symptom_unassigned :
  RoleGrant Sample.unassigned Sample.bob doctor
  /\ ~ Assigned Sample.unassigned (Symptom.patient_id Sample.cough) Sample.bob
  /\ Rls.permitted (Rls.symptoms_policies Rls.SELECT) Sample.unassigned
                   (Some Sample.bob) Sample.cough = true
  /\ Sql.select_symptoms Sample.unassigned (Some Sample.bob) = [Sample.cough].
Proof.
  split; [| split; [| split]].
  - exists Sample.bob_doctor. simpl. auto.
  - intros [a [[] _]].
  - reflexivity.
  - reflexivity.
Qed.

(** C4, as the policies have it.  The owner passes the SELECT, UPDATE and
    DELETE predicates of a symptom, whatever roles are granted.  On a
    symptom of somebody else, UPDATE and DELETE refuse the requester,
    whatever roles are granted, and SELECT lets the requester through
    exactly on the doctor path: doctor role and an assignment to the
    owner. *)
Theorem patient_symptom_access :
  forall (db : database) (P : uuid) (S : Symptom.row),
    (Symptom.patient_id S = P ->
     Rls.permitted (Rls.symptoms_policies Rls.SELECT) db (Some P) S = true
     /\ Rls.permitted (Rls.symptoms_policies Rls.UPDATE) db (Some P) S = true
     /\ Rls.permitted (Rls.symptoms_policies Rls.DELETE) db (Some P) S = true)
    /\ (Symptom.patient_id S <> P ->
        Rls.permitted (Rls.symptoms_policies Rls.UPDATE) db (Some P) S = false
        /\ Rls.permitted (Rls.symptoms_policies Rls.DELETE) db (Some P) S = false
        /\ (Rls.permitted (Rls.symptoms_policies Rls.SELECT) db (Some P) S = true
            <-> RoleGrant db P doctor /\ Assigned db (Symptom.patient_id S) P)).
Proof.
  intros db P S. split.
  - intros Hown. symmetry in Hown. split; [| split].
    + apply symptoms_select_iff. now left.
    + now apply symptoms_update_iff.
    + now apply symptoms_delete_iff.
  - intros Hother. split; [| split].
    + apply not_true_is_false. rewrite symptoms_update_iff. congruence.
    + apply not_true_is_false. rewrite symptoms_delete_iff. congruence.
    + rewrite symptoms_select_iff. split.
      * intros [H | H]; [congruence | exact H].
      * intros H. now right.
Qed.

Lemma patient_symptom_access_witness :
  (Rls.permitted (Rls.symptoms_policies Rls.SELECT) Sample.unassigned
                 (Some Sample.alice) Sample.rash = true
   /\ Rls.permitted (Rls.symptoms_policies Rls.UPDATE) Sample.unassigned
                    (Some Sample.alice) Sample.rash = true
   /\ Rls.permitted (Rls.symptoms_policies Rls.DELETE) Sample.unassigned
                    (Some Sample.alice) Sample.rash = true)
  /\ Rls.permitted (Rls.symptoms_policies Rls.UPDATE) Sample.unassigned
                   (Some Sample.alice) Sample.cough = false.
Proof.
  split.
  - apply (proj1 (patient_symptom_access Sample.unassigned Sample.alice Sample.rash)).
    reflexivity.
  - apply (proj2 (patient_symptom_access Sample.unassigned Sample.alice Sample.cough)).
    discriminate.
Defined.

(** C4 as stated fails for SELECT: Bob holds the patient role and the
    doctor role and is assigned to Alice; the symptom is Alice's, and the
    SELECT predicate lets Bob through. *)
Lemma other_patients_symptom_selected :
  RoleGrant Sample.assigned Sample.bob patient
  /\ Symptom.patient_id Sample.rash <> Sample.bob
  /\ Rls.permitted (Rls.symptoms_policies Rls.SELECT) Sample.assigned
                   (Some Sample.bob) Sample.rash = true.
Proof.
  split; [| split].
  - exists Sample.bob_patient. simpl. auto.
  - discriminate.
  - reflexivity.
Qed.

(* --------------------------------------------------------------------- *)
(** ** Doctor notes *)
(* --------------------------------------------------------------------- *)

Lemma doctor_notes_insert_iff db D r :
  Rls.permitted (Rls.doctor_notes_policies Rls.INSERT) db (Some D) r = true
  <-> RoleGrant db D doctor /\ DoctorNote.doctor_id r = D.
Proof.
  unfold Rls.permitted. cbn [existsb Rls.doctor_notes_policies].
  rewrite orb_false_r. unfold Rls.Doctors_can_insert_notes.
  rewrite andb_true_iff, has_role_RoleGrant, uid_eq_true.
  intuition congruence.
Qed.

Lemma insert_doctor_note_cases db uid r :
  (Sql.insert_doctor_note db uid r
   = (Sql.Ok, Sql.set_doctor_notes db (doctor_notes db ++ [r]))
   /\ Rls.permitted (Rls.doctor_notes_policies Rls.INSERT) db uid r = true
   /\ Sql.doctor_notes_constraints db r = true)
  \/ (Sql.insert_doctor_note db uid r = (Sql.RlsViolation, db)
      /\ Rls.permitted (Rls.doctor_notes_policies Rls.INSERT) db uid r = false)
  \/ (Sql.insert_doctor_note db uid r = (Sql.ConstraintViolation, db)
      /\ Sql.doctor_notes_constraints db r = false).
Proof.
  unfold Sql.insert_doctor_note.
  destruct (Rls.permitted (Rls.doctor_notes_policies Rls.INSERT) db uid r);
    simpl; [| tauto].
  destruct (Sql.doctor_notes_constraints db r); simpl; tauto.
Qed.

(** C1, as the policy has it.  Let the note refer to an existing symptom
    [S] and satisfy the table's other constraints (fresh key, known
    doctor, admissible progress status).  Then its insert by [D] succeeds
    exactly when [D] holds the doctor role and is the doctor the note
    names; assignments play no part in the decision.  A successful insert
    appends the note; a refused one leaves the database, and so the
    doctor_notes table, as it was. *)
Theorem doctor_note_insert_iff_named_doctor :
  forall (db : database) (D : uuid) (S : Symptom.row) (r : DoctorNote.row),
    In S (symptoms db) ->
    DoctorNote.symptom_id r = Symptom.id S ->
    ~ In (DoctorNote.id r) (map DoctorNote.id (doctor_notes db)) ->
    In (DoctorNote.doctor_id r) (auth_users db) ->
    Sql.progress_status_check (DoctorNote.progress_status r) = true ->
    (fst (Sql.insert_doctor_note db (Some D) r) = Sql.Ok
     <-> RoleGrant db D doctor /\ DoctorNote.doctor_id r = D)
    /\ (forall t : list Assignment.row,
           fst (Sql.insert_doctor_note (Sql.set_assignments db t) (Some D) r)
           = fst (Sql.insert_doctor_note db (Some D) r))
    /\ (fst (Sql.insert_doctor_note db (Some D) r) = Sql.Ok ->
        doctor_notes (snd (Sql.insert_doctor_note db (Some D) r))
        = doctor_notes db ++ [r])
    /\ (fst (Sql.insert_doctor_note db (Some D) r) <> Sql.Ok ->
        snd (Sql.insert_doctor_note db (Some D) r) = db).
Proof.
  intros db D S r HS Hsym Hfresh Hdoc Hprog.
  assert (Hcons : forall t, Sql.doctor_notes_constraints
                              (Sql.set_assignments db t) r = true).
  { intros t. unfold Sql.doctor_notes_constraints. simpl.
    rewrite Hprog, andb_true_r.
    apply andb_true_iff; split; [apply andb_true_iff; split |].
    - apply negb_true_iff, not_true_is_false. now rewrite mem_In.
    - apply mem_In. rewrite Hsym. now apply in_map.
    - now apply mem_In. }
  assert (Hcons0 : Sql.doctor_notes_constraints db r = true) by
    (exact (Hcons (patient_doctor_assignments db))).
  split; [| split; [| split]].
  - rewrite <- doctor_notes_insert_iff.
    destruct (insert_doctor_note_cases db (Some D) r)
      as [[E [Hp _]] | [[E Hp] | [E Hc]]]; rewrite E; cbn [fst].
    + tauto.
    + rewrite Hp. split; discriminate.
    + congruence.
  - intros t. unfold Sql.insert_doctor_note.
    rewrite (Hcons t), Hcons0. simpl.
    unfold Rls.permitted. cbn [existsb Rls.doctor_notes_policies].
    unfold Rls.Doctors_can_insert_notes, Rls.has_role. simpl.
    now destruct (existsb _ (user_roles db) && _).
  - destruct (insert_doctor_note_cases db (Some D) r)
      as [[E _] | [[E _] | [E _]]]; rewrite E; simpl;
      [reflexivity | discriminate | discriminate].
  - destruct (insert_doctor_note_cases db (Some D) r)
      as [[E _] | [[E _] | [E _]]]; rewrite E; simpl;
      [congruence | reflexivity | reflexivity].
Qed.

Lemma doctor_note_insert_iff_named_doctor_witness :
  fst (Sql.insert_doctor_note Sample.assigned (Some Sample.bob) Sample.bobs_note)
  = Sql.Ok
  /\ doctor_notes
       (snd (Sql.insert_doctor_note Sample.assigned (Some Sample.bob)
               Sample.bobs_note))
     = [Sample.bobs_note].
Proof.
  assert (HS : In Sample.rash (symptoms Sample.assigned)) by (simpl; auto).
  assert (Hfresh : ~ In (DoctorNote.id Sample.bobs_note)
                        (map DoctorNote.id (doctor_notes Sample.assigned)))
    by (simpl; tauto).
  assert (Hdoc : In (DoctorNote.doctor_id Sample.bobs_note)
                    (auth_users Sample.assigned)) by (simpl; auto).
  destruct (doctor_note_insert_iff_named_doctor
              Sample.assigned Sample.bob Sample.rash Sample.bobs_note
              HS eq_refl Hfresh Hdoc eq_refl) as [Hiff [_ [Happ _]]].
  assert (Hok : fst (Sql.insert_doctor_note Sample.assigned (Some Sample.bob)
                       Sample.bobs_note) = Sql.Ok).
  { apply Hiff. split; [| reflexivity].
    exists Sample.bob_doctor. simpl. auto. }
  split; [exact Hok | exact (Happ Hok)].
Defined.

(** C1 as stated fails: Bob holds the doctor role, no assignment links him
    to Alice, and his note on Alice's symptom is inserted all the same. *)
Lemma doctor_note_inserted_without_assignment :
  In Sample.rash (symptoms Sample.unassigned)
  /\ DoctorNote.symptom_id Sample.bobs_note = Symptom.id Sample.rash
  /\ ~ Assigned Sample.unassigned (Symptom.patient_id Sample.rash) Sample.bob
  /\ Sql.insert_doctor_note Sample.unassigned (Some Sample.bob) Sample.bobs_note
     = (Sql.Ok, Sql.set_doctor_notes Sample.unassigned [Sample.bobs_note]).
Proof.
  split; [simpl; auto | split; [reflexivity | split]].
  - intros [a [[] _]].
  - reflexivity.
Qed.

(* --------------------------------------------------------------------- *)
(** ** Messages *)
(* --------------------------------------------------------------------- *)

Lemma messages_select_iff db U m :
  Rls.permitted (Rls.messages_policies Rls.SELECT) db (Some U) m = true
  <-> Message.sender_id m = U \/ Message.receiver_id m = U.
Proof.
  unfold Rls.permitted. cbn [existsb Rls.messages_policies].
  rewrite orb_false_r. unfold Rls.Users_can_view_their_own_messages.
  rewrite orb_true_iff, !uid_eq_true. intuition congruence.
Qed.

Lemma messages_update_iff db U m :
  Rls.permitted (Rls.messages_policies Rls.UPDATE) db (Some U) m = true
  <-> Message.receiver_id m = U.
Proof.
  unfold Rls.permitted. cbn [existsb Rls.messages_policies].
  rewrite orb_false_r. unfold Rls.Users_can_update_their_received_messages.
  rewrite uid_eq_true. intuition congruence.
Qed.

(** C5.  A SELECT on messages by [U] returns the rows of the table in which
    [U] is sender or receiver, each as often and in the order the table
    holds it, and nothing else; and a third party [T], neither sender nor
    receiver of any row of a conversation, is returned none of that
    conversation's rows. *)
Theorem messages_select_exact :
  forall (db : database) (U : uuid),
    Sql.select_messages db (Some U)
    = filter (fun m => (Message.sender_id m =? U) || (Message.receiver_id m =? U))
             (messages db)
    /\ (forall m, In m (Sql.select_messages db (Some U))
                  <-> In m (messages db)
                      /\ (Message.sender_id m = U \/ Message.receiver_id m = U))
    /\ (forall (T : uuid) (conversation : list Message.row),
           (forall m, In m conversation ->
                      Message.sender_id m <> T /\ Message.receiver_id m <> T) ->
           forall m, In m conversation ->
                     ~ In m (Sql.select_messages db (Some T))).
Proof.
  intros db U. split; [| split].
  - unfold Sql.select_messages. apply filter_ext. intros m.
    unfold Rls.permitted. cbn [existsb Rls.messages_policies].
    unfold Rls.Users_can_view_their_own_messages. simpl.
    now rewrite orb_false_r, (N.eqb_sym U), (N.eqb_sym U).
  - intros m. unfold Sql.select_messages.
    now rewrite filter_In, messages_select_iff.
  - intros T conversation Hthird m Hm Hin. unfold Sql.select_messages in Hin.
    apply filter_In in Hin. destruct Hin as [_ Hp].
    apply messages_select_iff in Hp. destruct (Hthird m Hm). tauto.
Qed.

(** C5 at work: Carol takes no part in the exchange between Alice and Bob
    and is returned neither of its rows (indeed no row at all), while Alice
    is returned both. *)
Lemma messages_select_exact_witness :
  ~ In Sample.hello (Sql.select_messages Sample.chatting (Some Sample.carol))
  /\ Sql.select_messages Sample.chatting (Some Sample.carol) = []
  /\ Sql.select_messages Sample.chatting (Some Sample.alice)
     = [Sample.hello; Sample.answer].
Proof.
  split; [| split; reflexivity].
  apply (proj2 (proj2 (messages_select_exact Sample.chatting Sample.alice))
           Sample.carol [Sample.hello; Sample.answer]).
  - intros m [H | [H | []]]; subst m; split; discriminate.
  - simpl. auto.
Defined.

(** C6, as the policy has it.  The UPDATE predicate of a message holds for
    [U] exactly when [U] is its receiver.  A successful UPDATE by [U] keeps
    the table's length; a row whose receiver is not [U] is left as it was;
    a row that did change had [U] as receiver, still has, and is otherwise
    whatever the statement's SET list made of it: no column other than
    receiver_id is protected. *)
Theorem message_update_by_receiver :
  forall (db : database) (U : uuid),
    (forall M, Rls.permitted (Rls.messages_policies Rls.UPDATE) db (Some U) M = true
               <-> Message.receiver_id M = U)
    /\ (forall wher set db',
           Sql.update_messages db (Some U) wher set = (Sql.Ok, db') ->
           length (messages db') = length (messages db)
           /\ forall i old new,
               nth_error (messages db) i = Some old ->
               nth_error (messages db') i = Some new ->
               (Message.receiver_id old <> U -> new = old)
               /\ (new <> old ->
                   Message.receiver_id old = U
                   /\ Message.receiver_id new = U
                   /\ new = set old)).
Proof.
  intros db U. split; [intros M; apply messages_update_iff |].
  intros wher set db' Hupd. unfold Sql.update_messages in Hupd.
  destruct (forallb _ (map set _)) eqn:Hcheck; [| discriminate].
  destruct (forallb (Sql.messages_references db) _ && _); [| discriminate].
  simpl in Hupd. injection Hupd as Hdb. subst db'. simpl.
  split; [apply length_map |].
  intros i old new Hold Hnew.
  rewrite nth_error_map, Hold in Hnew. simpl in Hnew.
  injection Hnew as Hnew.
  destruct (Sql.update_target db (Some U) wher old) eqn:Htarget.
  - assert (Hrecv : Message.receiver_id old = U).
    { unfold Sql.update_target in Htarget.
      apply andb_true_iff in Htarget. destruct Htarget as [Htarget _].
      apply andb_true_iff in Htarget. destruct Htarget as [_ Htarget].
      now apply messages_update_iff in Htarget. }
    assert (Hrecv' : Message.receiver_id (set old) = U).
    { rewrite forallb_forall in Hcheck.
      assert (Hw : In (set old)
                      (map set (filter (Sql.update_target db (Some U) wher)
                                       (messages db)))).
      { apply in_map, filter_In. split; [| exact Htarget].
        eapply nth_error_In; eassumption. }
      apply Hcheck, andb_true_iff in Hw. destruct Hw as [Hw _].
      now apply messages_update_iff in Hw. }
    subst new. split; [intros; contradiction | intros _; auto].
  - subst new. split; [reflexivity | intros H; now contradiction H].
Qed.

(** C6 at work: Bob, receiver of Alice's message, marks it as read; Alice's
    own attempt on the same row changes nothing. *)
Lemma message_update_by_receiver_witness :
  Sql.update_messages Sample.chatting (Some Sample.bob)
                      Sample.is_hello Sample.mark_read
  = (Sql.Ok, Sql.set_messages Sample.chatting
               [Sample.mark_read Sample.hello; Sample.answer])
  /\ length [Sample.mark_read Sample.hello; Sample.answer]
     = length (messages Sample.chatting)
  /\ Sql.update_messages Sample.chatting (Some Sample.alice)
                         Sample.is_hello Sample.mark_read
     = (Sql.Ok, Sample.chatting).
Proof.
  assert (E : Sql.update_messages Sample.chatting (Some Sample.bob)
                Sample.is_hello Sample.mark_read
              = (Sql.Ok, Sql.set_messages Sample.chatting
                           [Sample.mark_read Sample.hello; Sample.answer]))
    by reflexivity.
  split; [exact E | split; [| reflexivity]].
  exact (proj1 (proj2 (message_update_by_receiver Sample.chatting Sample.bob)
                  Sample.is_hello Sample.mark_read _ E)).
Defined.

(** C6 as stated fails: Bob, receiver of Alice's message, rewrites its
    sender, content, attachment, symptom reference and creation time in
    one UPDATE that succeeds; the read flag is the one thing he leaves
    alone. *)
Lemma receiver_rewrites_message :
  Message.receiver_id Sample.hello = Sample.bob
  /\ Sql.update_messages Sample.chatting (Some Sample.bob)
                         Sample.is_hello Sample.overwrite
     = (Sql.Ok, Sql.set_messages Sample.chatting
                  [Sample.overwrite Sample.hello; Sample.answer])
  /\ Message.read (Sample.overwrite Sample.hello) = Message.read Sample.hello
  /\ Message.sender_id (Sample.overwrite Sample.hello)
     <> Message.sender_id Sample.hello
  /\ Message.content (Sample.overwrite Sample.hello)
     <> Message.content Sample.hello
  /\ Message.attachment_url (Sample.overwrite Sample.hello)
     <> Message.attachment_url Sample.hello
  /\ Message.symptom_reference (Sample.overwrite Sample.hello)
     <> Message.symptom_reference Sample.hello
  /\ Message.created_at (Sample.overwrite Sample.hello)
     <> Message.created_at Sample.hello.
Proof.
  repeat split; try reflexivity; discriminate.
Qed.

(* --------------------------------------------------------------------- *)
(** ** Sign-up *)
(* --------------------------------------------------------------------- *)

(** No INSERT policy is declared on user_roles: every insert a requester
    sends is refused, whoever the requester and whatever the row. *)
Lemma insert_user_role_refused db uid r :
  Sql.insert_user_role db uid r = (Sql.RlsViolation, db).
Proof. reflexivity. Qed.

(** Hence the sign-up branch never adds a grant. *)
Lemma handleAuth_user_roles db resp fullName role gen now :
  user_roles (fst (Auth.handleAuth db resp fullName role gen now))
  = user_roles db.
Proof.
  unfold Auth.handleAuth.
  destruct (Auth.error resp); [reflexivity |].
  destruct (Auth.user resp); [| reflexivity].
  cbn [fst]. rewrite insert_user_role_refused. cbn [snd].
  unfold Sql.insert_profile.
  destruct (negb (Rls.permitted _ _ _ _)); [reflexivity |].
  destruct (negb (Sql.profiles_constraints _ _)); reflexivity.
Qed.

(** C7 on the code.  Dana signs up as a patient and her requests run under
    her new identity.  The profile insert passes its policy and creates
    her profile; the user_roles insert is refused by row-level security;
    the view reports success all the same, and Dana ends up holding no
    role. *)
Theorem signup_creates_profile_but_no_grant :
  Sql.insert_profile Sample.fresh (Some Sample.dana) Sample.danas_profile
  = (Sql.Ok, Sql.set_profiles Sample.fresh [Sample.danas_profile])
  /\ Sql.insert_user_role (Sql.set_profiles Sample.fresh [Sample.danas_profile])
                          (Some Sample.dana) Sample.danas_grant
     = (Sql.RlsViolation, Sql.set_profiles Sample.fresh [Sample.danas_profile])
  /\ Auth.handleAuth Sample.fresh Sample.dana_signed_up (Js.lit "Dana") patient 20 1
     = (Sql.set_profiles Sample.fresh [Sample.danas_profile],
        [Auth.ToastAccountCreated; Auth.Navigate "/dashboard"])
  /\ user_roles (fst (Auth.handleAuth Sample.fresh Sample.dana_signed_up
                        (Js.lit "Dana") patient 20 1)) = []
  /\ Rls.has_role (fst (Auth.handleAuth Sample.fresh Sample.dana_signed_up
                          (Js.lit "Dana") patient 20 1))
                  (Some Sample.dana) patient = false.
Proof. repeat split. Qed.

(* --------------------------------------------------------------------- *)
(** ** Symptom lookup *)
(* --------------------------------------------------------------------- *)

Lemma startsWith_prefix (s t : Js.jsstring) :
  Js.startsWith s t = true <-> exists post, s = t ++ post.
Proof.
  revert s. induction t as [| b t IH]; intros s.
  - destruct s; simpl; split; eauto.
  - destruct s as [| a s]; simpl.
    + split; [discriminate | intros [post H]; discriminate].
    + rewrite andb_true_iff, N.eqb_eq, IH. split.
      * intros [-> [post ->]]. now exists post.
      * intros [post H]. injection H as -> ->. eauto.
Qed.

Lemma includes_Substring (s t : Js.jsstring) :
  Js.includes s t = true <-> Substring t s.
Proof.
  unfold Substring. induction s as [| a s IH].
  - cbn [Js.includes]. rewrite orb_false_r, startsWith_prefix. split.
    + intros [post H]. now exists [], post.
    + intros [pre [post H]]. destruct pre; [| discriminate].
      now exists post.
  - cbn [Js.includes]. rewrite orb_true_iff, startsWith_prefix, IH. split.
    + intros [[post H] | [pre [post H]]].
      * now exists [], post.
      * exists (a :: pre), post. simpl. now f_equal.
    + intros [[| a' pre] [post H]].
      * left. now exists post.
      * right. injection H as _ H. now exists pre, post.
Qed.

Lemma matchesTerm_ContainsIgnoringCase toLowerCase term e :
  SymptomFinder.matchesTerm toLowerCase (toLowerCase term) e = true
  <-> ContainsIgnoringCase toLowerCase term e.
Proof.
  unfold SymptomFinder.matchesTerm, ContainsIgnoringCase.
  rewrite !orb_true_iff, !includes_Substring, existsb_exists.
  split.
  - intros [[H | H] | [k [Hk H]]]; auto.
    right. right. exists k. now rewrite <- includes_Substring.
  - intros [H | [H | [k [Hk H]]]]; auto.
    right. exists k. now rewrite includes_Substring.
Qed.

Lemma trimStart_nil (s : Js.jsstring) :
  Js.trimStart s = [] <-> forallb Js.isWhiteSpace s = true.
Proof.
  induction s as [| c s IH]; simpl; [tauto |].
  destruct (Js.isWhiteSpace c); simpl; [exact IH |].
  split; discriminate.
Qed.

Lemma trimStart_blank_or_not (s : Js.jsstring) :
  forallb Js.isWhiteSpace s = false -> forallb Js.isWhiteSpace (Js.trimStart s) = false.
Proof.
  induction s as [| c s IH]; simpl; [discriminate |].
  destruct (Js.isWhiteSpace c) eqn:E; simpl; [exact IH |].
  intros _. now rewrite E.
Qed.

Lemma forallb_rev {A} (f : A -> bool) (l : list A) :
  forallb f (rev l) = forallb f l.
Proof.
  induction l as [| a l IH]; simpl; [reflexivity |].
  rewrite forallb_app, IH. simpl. rewrite andb_true_r. apply andb_comm.
Qed.

(** [trim] leaves nothing exactly of the strings made of white space only. *)
Lemma trim_blank (s : Js.jsstring) :
  Js.falsy (Js.trim s) = forallb Js.isWhiteSpace s.
Proof.
  destruct (forallb Js.isWhiteSpace s) eqn:E.
  - apply trimStart_nil in E. unfold Js.trim, Js.trimEnd. now rewrite E.
  - apply trimStart_blank_or_not in E.
    rewrite <- forallb_rev in E. apply trimStart_blank_or_not in E.
    rewrite <- forallb_rev in E. unfold Js.trim, Js.trimEnd.
    destruct (rev (Js.trimStart (rev (Js.trimStart s)))); [discriminate | reflexivity].
Qed.

Lemma existsb_ext_in {A} (f g : A -> bool) (l : list A) :
  (forall a, In a l -> f a = g a) -> existsb f l = existsb g l.
Proof.
  induction l as [| a l IH]; simpl; intros H; [reflexivity |].
  rewrite (H a), IH; auto.
Qed.

(** Every string of the reference list lies below U+00C0. *)
Lemma symptomDatabase_belowC0 e :
  In e SymptomFinder.symptomDatabase ->
  Js.belowC0 (SymptomFinder.name e) = true
  /\ Js.belowC0 (SymptomFinder.description e) = true
  /\ forall k, In k (SymptomFinder.keywords e) -> Js.belowC0 k = true.
Proof.
  assert (H : forallb
                (fun e => Js.belowC0 (SymptomFinder.name e)
                          && Js.belowC0 (SymptomFinder.description e)
                          && forallb Js.belowC0 (SymptomFinder.keywords e))
                SymptomFinder.symptomDatabase = true) by (vm_compute; reflexivity).
  rewrite forallb_forall in H. intros Hin. apply H in Hin.
  apply andb_true_iff in Hin. destruct Hin as [Hin Hk].
  apply andb_true_iff in Hin. destruct Hin as [Hn Hd].
  rewrite forallb_forall in Hk. auto.
Qed.

(** On a query below U+00C0 the search is the one computed with the
    code-unit-wise lower-casing. *)
Lemma handleSearch_basic_latin toLowerCase term st :
  Js.lowersBasicLatin toLowerCase ->
  Js.belowC0 term = true ->
  SymptomFinder.handleSearch toLowerCase term st
  = SymptomFinder.handleSearch (map Js.lowerUnit) term st.
Proof.
  intros Hlow Hterm. unfold SymptomFinder.handleSearch.
  destruct (Js.falsy (Js.trim term)); [reflexivity |].
  f_equal. rewrite (Hlow term Hterm). apply filter_ext_in. intros e He.
  destruct (symptomDatabase_belowC0 e He) as [Hn [Hd Hk]].
  unfold SymptomFinder.matchesTerm. rewrite (Hlow _ Hn), (Hlow _ Hd).
  f_equal. apply existsb_ext_in. intros k Hin. now rewrite (Hlow _ (Hk k Hin)).
Qed.

(** C8.  Let [toLowerCase] lower-case strings below U+00C0 code unit by
    code unit.  The reference list has 8 entries.  A blank query (empty, or
    white space only) yields the list itself, unchanged and in order.  Any
    other query yields exactly the entries whose name, description or some
    keyword contains it, case being ignored.  The query "itchy" yields
    exactly the entries having the keyword "itchy": the one named "Rash".
    The query "RASH" yields the entry named "Rash". *)
Theorem symptom_lookup_filter :
  forall toLowerCase : Js.jsstring -> Js.jsstring,
    Js.lowersBasicLatin toLowerCase ->
    forall st : SymptomFinder.state,
      length SymptomFinder.symptomDatabase = 8%nat
      /\ SymptomFinder.filteredSymptoms
           (SymptomFinder.handleSearch toLowerCase [] st)
         = SymptomFinder.symptomDatabase
      /\ (forall term,
             forallb Js.isWhiteSpace term = true ->
             SymptomFinder.filteredSymptoms
               (SymptomFinder.handleSearch toLowerCase term st)
             = SymptomFinder.symptomDatabase)
      /\ (forall term,
             forallb Js.isWhiteSpace term = false ->
             forall e,
               In e (SymptomFinder.filteredSymptoms
                       (SymptomFinder.handleSearch toLowerCase term st))
               <-> In e SymptomFinder.symptomDatabase
                   /\ ContainsIgnoringCase toLowerCase term e)
      /\ SymptomFinder.filteredSymptoms
           (SymptomFinder.handleSearch toLowerCase (Js.lit "itchy") st)
         = filter (fun e => existsb (Sql.text_eqb (Js.lit "itchy"))
                                    (SymptomFinder.keywords e))
                  SymptomFinder.symptomDatabase
      /\ map SymptomFinder.name
             (SymptomFinder.filteredSymptoms
                (SymptomFinder.handleSearch toLowerCase (Js.lit "itchy") st))
         = [Js.lit "Rash"]
      /\ In (Js.lit "Rash")
            (map SymptomFinder.name
                 (SymptomFinder.filteredSymptoms
                    (SymptomFinder.handleSearch toLowerCase (Js.lit "RASH") st))).
Proof.
  intros toLowerCase Hlow st.
  assert (Hblank : forall term,
             forallb Js.isWhiteSpace term = true ->
             SymptomFinder.filteredSymptoms
               (SymptomFinder.handleSearch toLowerCase term st)
             = SymptomFinder.symptomDatabase).
  { intros term Hws. unfold SymptomFinder.handleSearch.
    now rewrite trim_blank, Hws. }
  split; [reflexivity |].
  split; [now apply Hblank |].
  split; [exact Hblank |].
  split; [| split; [| split]].
  - intros term Hws e. unfold SymptomFinder.handleSearch.
    rewrite trim_blank, Hws. cbn [SymptomFinder.filteredSymptoms].
    now rewrite filter_In, matchesTerm_ContainsIgnoringCase.
  - rewrite (handleSearch_basic_latin _ _ _ Hlow) by reflexivity.
    vm_compute. reflexivity.
  - rewrite (handleSearch_basic_latin _ _ _ Hlow) by reflexivity.
    vm_compute. reflexivity.
  - rewrite (handleSearch_basic_latin _ _ _ Hlow) by reflexivity.
    vm_compute. left. reflexivity.
Qed.

Lemma symptom_lookup_filter_witness :
  map SymptomFinder.name
      (SymptomFinder.filteredSymptoms
         (SymptomFinder.handleSearch (map Js.lowerUnit) (Js.lit "itchy")
                                     SymptomFinder.initial))
  = [Js.lit "Rash"].
Proof.
  exact (proj1 (proj2 (proj2 (proj2 (proj2 (proj2
           (symptom_lookup_filter (map Js.lowerUnit) (fun s _ => eq_refl)
                                  SymptomFinder.initial))))))).
Defined.

(* --------------------------------------------------------------------- *)
(** ** Chat view *)
(* --------------------------------------------------------------------- *)

Lemma strictEq_true (col : uuid) (x : option uuid) :
  Chat.strictEq col x = true <-> x = Some col.
Proof.
  destruct x as [v |]; simpl.
  - rewrite N.eqb_eq. split; congruence.
  - split; discriminate.
Qed.

Lemma inConversation_OpenConversation st m :
  Chat.inConversation (Chat.user st) (Chat.selectedDoctor st) m = true
  <-> OpenConversation st m.
Proof.
  unfold Chat.inConversation, OpenConversation.
  rewrite orb_true_iff, !andb_true_iff, !strictEq_true.
  destruct (Chat.user st) as [u |], (Chat.selectedDoctor st) as [d |]; simpl.
  - split.
    + intros [[H1 H2] | [H1 H2]]; exists u, d;
        injection H1 as H1; injection H2 as H2; auto.
    + intros [u' [d' [Hu [Hd H]]]].
      injection Hu as <-. injection Hd as <-.
      destruct H as [[H1 H2] | [H1 H2]]; [left | right]; split; congruence.
  - split; [intros [[_ H] | [H _]]; discriminate
           | intros [u' [d' [_ [H _]]]]; discriminate].
  - split; [intros [[H _] | [_ H]]; discriminate
           | intros [u' [d' [H _]]]; discriminate].
  - split; [intros [[H _] | [_ H]]; discriminate
           | intros [u' [d' [H _]]]; discriminate].
Qed.





Lemma chat_insert_cases db uid p gen now :
  (exists s,
      Chat.sender_id p = Some s
      /\ Chat.insert db uid p gen now
         = (Sql.Ok,
            Sql.set_messages db
              (messages db
               ++ [ {| Message.id := gen; Message.sender_id := s;
                       Message.receiver_id := Chat.receiver_id p;
                       Message.content := Chat.content p;
                       Message.attachment_url := None;
                       Message.symptom_reference := None;
                       Message.read := Some false;
                       Message.created_at := now |} ])))
  \/ (fst (Chat.insert db uid p gen now) <> Sql.Ok
      /\ snd (Chat.insert db uid p gen now) = db).
Proof.
  unfold Chat.insert. destruct (Chat.sender_id p) as [s |].
  - unfold Sql.insert_message.
    destruct (negb (Rls.permitted _ _ _ _)).
    + right. split; [discriminate | reflexivity].
    + destruct (negb (Sql.messages_constraints _ _)).
      * right. split; [discriminate | reflexivity].
      * left. exists s. split; reflexivity.
  - right. split; [discriminate | reflexivity].
Qed.

(** C10.  [handleSend] leaves every table but messages alone, and the
    messages table either as it was or with one row appended.  A row is
    appended only if the trimmed input is not empty and a doctor is
    selected; the row's content is the trimmed input, hence not empty, its
    sender the user and its receiver the selected doctor.  With an empty
    trimmed input nothing is sent: database and view stay as they were and
    no error is shown. *)
Theorem handleSend_inserts_trimmed :
  forall (st : Chat.state) (db : database) (gen : uuid) (now : timestamptz),
    let st' := fst (fst (Chat.handleSend st db gen now)) in
    let db' := snd (fst (Chat.handleSend st db gen now)) in
    let shown := snd (Chat.handleSend st db gen now) in
    db' = Sql.set_messages db (messages db')
    /\ (messages db' = messages db
        \/ exists row d,
            messages db' = messages db ++ [row]
            /\ Js.trim (Chat.newMessage st) <> []
            /\ Chat.selectedDoctor st = Some d
            /\ Message.content row = Js.trim (Chat.newMessage st)
            /\ Message.content row <> []
            /\ Chat.user st = Some (Message.sender_id row)
            /\ Message.receiver_id row = Chat.id d)
    /\ (Js.trim (Chat.newMessage st) = [] ->
        db' = db /\ st' = st /\ shown = None)
    /\ (Chat.selectedDoctor st = None ->
        db' = db /\ st' = st /\ shown = None).
Proof.
  intros st db gen now. cbv zeta.
  assert (Hid : db = Sql.set_messages db (messages db)) by (now destruct db).
  unfold Chat.handleSend.
  destruct (Chat.selectedDoctor st) as [d |] eqn:Hd.
  2:{ cbn [fst snd]. repeat split; auto; discriminate. }
  destruct (Js.trim (Chat.newMessage st)) as [| c rest] eqn:Htrim.
  { cbn [Js.falsy fst snd]. repeat split; auto; discriminate. }
  cbn [Js.falsy].
  destruct (chat_insert_cases db (Chat.user st)
              {| Chat.sender_id := Chat.user st;
                 Chat.receiver_id := Chat.id d;
                 Chat.content := c :: rest |} gen now)
    as [[s [Hs E]] | [Hfail Hsame]].
  - rewrite E. cbn [fst snd]. simpl in Hs.
    split; [reflexivity |].
    split; [| split; intros; discriminate].
    right. eexists _, d. simpl.
    repeat split; try reflexivity; try discriminate. exact Hs.
  - destruct (Chat.insert db (Chat.user st) _ gen now) as [[| |] db1];
      cbn [fst snd] in *; subst db1;
      try (now contradiction Hfail);
      (split; [exact Hid | split; [now left | split; intros; discriminate]]).
Qed.

(** C10 at work: Alice sends ["  Thanks! "] to Bob; the row stored carries
    ["Thanks!"], and the input is cleared. *)
Lemma handleSend_inserts_trimmed_witness :
  Chat.handleSend Sample.alices_chat Sample.chatting 302 11
  = (Chat.setNewMessage Sample.alices_chat [],
     Sql.set_messages Sample.chatting
                      [Sample.hello; Sample.answer; Sample.thanks],
     None)
  /\ snd (fst (Chat.handleSend Sample.alices_chat Sample.chatting 302 11))
     = Sql.set_messages Sample.chatting
         (messages
            (snd (fst (Chat.handleSend Sample.alices_chat Sample.chatting 302 11)))).
Proof.
  split; [reflexivity |].
  exact (proj1 (handleSend_inserts_trimmed Sample.alices_chat Sample.chatting 302 11)).
Defined.

(* ===================================================================== *)
(** * Further properties of the policies and statements *)
(* ===================================================================== *)

(** ** Notes: who reads them *)

Lemma owned_symptom_visible db U s :
  In s (symptoms db) -> Symptom.patient_id s = U ->
  In s (Rls.visible_symptoms db (Some U)).
Proof.
  intros Hin Hown. unfold Rls.visible_symptoms. apply filter_In.
  split; [assumption |]. apply symptoms_select_iff. left. now symmetry.
Qed.

Lemma doctor_notes_select_iff db U n :
  Rls.permitted (Rls.doctor_notes_policies Rls.SELECT) db (Some U) n = true
  <-> DoctorNote.doctor_id n = U
      \/ exists s, In s (symptoms db)
                   /\ Symptom.id s = DoctorNote.symptom_id n
                   /\ Symptom.patient_id s = U.
Proof.
  unfold Rls.permitted. cbn [existsb Rls.doctor_notes_policies].
  rewrite orb_false_r, orb_true_iff.
  unfold Rls.Doctors_can_view_their_own_notes,
    Rls.Patients_can_view_notes_on_their_symptoms.
  rewrite uid_eq_true, existsb_exists. split.
  - intros [H | [s [Hs H]]]; [left; now symmetry | right].
    unfold Rls.visible_symptoms in Hs. apply filter_In in Hs.
    apply andb_true_iff in H. destruct H as [Hid Hown].
    apply N.eqb_eq in Hid. apply uid_eq_true in Hown.
    exists s. intuition.
  - intros [H | [s [Hs [Hid Hown]]]]; [left; now symmetry | right].
    exists s. split; [now apply owned_symptom_visible |].
    apply andb_true_iff. split; [now apply N.eqb_eq |].
    apply uid_eq_true. now symmetry.
Qed.

Lemma select_doctor_notes_In db U n :
  In n (Sql.select_doctor_notes db (Some U))
  <-> In n (doctor_notes db)
      /\ (DoctorNote.doctor_id n = U
          \/ exists s, In s (symptoms db)
                       /\ Symptom.id s = DoctorNote.symptom_id n
                       /\ Symptom.patient_id s = U).
Proof.
  unfold Sql.select_doctor_notes.
  now rewrite filter_In, doctor_notes_select_iff.
Qed.

(** X1.  A SELECT on doctor_notes returns to [U] exactly the notes [U]
    wrote and the notes on symptoms [U] owns.  Roles and assignments play
    no part: a doctor assigned to the patient is not shown a colleague's
    note. *)
Theorem doctor_notes_select_exact :
  forall (db : database) (U : uuid),
    (forall n, In n (Sql.select_doctor_notes db (Some U))
               <-> In n (doctor_notes db)
                   /\ (DoctorNote.doctor_id n = U
                       \/ exists s, In s (symptoms db)
                                    /\ Symptom.id s = DoctorNote.symptom_id n
                                    /\ Symptom.patient_id s = U))
    /\ (forall (grants : list UserRole.row) (links : list Assignment.row),
           Sql.select_doctor_notes
             (Sql.set_user_roles (Sql.set_assignments db links) grants) (Some U)
           = Sql.select_doctor_notes db (Some U)).
Proof.
  intros db U. split.
  - intros n. apply select_doctor_notes_In.
  - intros grants links. unfold Sql.select_doctor_notes.
    cbn [doctor_notes Sql.set_user_roles Sql.set_assignments].
    apply filter_ext_in. intros n _.
    destruct (Rls.permitted _ db (Some U) n) eqn:E.
    + apply doctor_notes_select_iff. apply doctor_notes_select_iff in E. exact E.
    + apply not_true_is_false. intros E'.
      apply doctor_notes_select_iff in E'. cbn [symptoms Sql.set_user_roles
        Sql.set_assignments] in E'.
      apply doctor_notes_select_iff in E'. congruence.
Qed.

(** X2.  A note that was inserted is returned to its author and to the
    owner of the symptom it is about, and to nobody else. *)
Theorem inserted_note_readers :
  forall (db db' : database) (D : uuid) (r : DoctorNote.row),
    Sql.insert_doctor_note db (Some D) r = (Sql.Ok, db') ->
    In r (Sql.select_doctor_notes db' (Some D))
    /\ (exists s, In s (symptoms db') /\ Symptom.id s = DoctorNote.symptom_id r
                  /\ In r (Sql.select_doctor_notes db'
                             (Some (Symptom.patient_id s))))
    /\ (forall U, In r (Sql.select_doctor_notes db' (Some U)) ->
                  U = D \/ exists s, In s (symptoms db')
                                     /\ Symptom.id s = DoctorNote.symptom_id r
                                     /\ Symptom.patient_id s = U).
Proof.
  intros db db' D r Hins.
  destruct (insert_doctor_note_cases db (Some D) r)
    as [[E [Hp Hc]] | [[E _] | [E _]]]; rewrite E in Hins;
    try discriminate.
  injection Hins as <-.
  apply doctor_notes_insert_iff in Hp. destruct Hp as [_ Hdoc].
  assert (Hin : In r (doctor_notes
                        (Sql.set_doctor_notes db (doctor_notes db ++ [r]))))
    by (simpl; apply in_or_app; right; now left).
  pose proof (select_doctor_notes_In
                (Sql.set_doctor_notes db (doctor_notes db ++ [r]))) as Hsel.
  split; [| split].
  - apply (Hsel D). auto.
  - unfold Sql.doctor_notes_constraints in Hc.
    apply andb_true_iff in Hc. destruct Hc as [Hc _].
    apply andb_true_iff in Hc. destruct Hc as [Hc _].
    apply andb_true_iff in Hc. destruct Hc as [_ Hsym].
    apply mem_In, in_map_iff in Hsym. destruct Hsym as [s [Hid Hs]].
    exists s. split; [exact Hs | split; [exact Hid |]].
    apply (Hsel (Symptom.patient_id s)). split; [exact Hin |].
    right. exists s. auto.
  - intros U HU. apply (Hsel U) in HU. destruct HU as [_ [H | H]].
    + left. congruence.
    + now right.
Qed.

Lemma inserted_note_readers_witness :
  In Sample.bobs_note
     (Sql.select_doctor_notes
        (Sql.set_doctor_notes Sample.unassigned [Sample.bobs_note])
        (Some Sample.bob))
  /\ ~ In Sample.bobs_note
         (Sql.select_doctor_notes
            (Sql.set_doctor_notes Sample.unassigned [Sample.bobs_note])
            (Some Sample.carol)).
Proof.
  destruct (inserted_note_readers Sample.unassigned _ Sample.bob Sample.bobs_note
              eq_refl) as [Hauthor [_ Honly]].
  split; [exact Hauthor |].
  intros H. apply Honly in H. destruct H as [H | [s [Hs [_ Hown]]]].
  - discriminate.
  - simpl in Hs. destruct Hs as [<- | [<- | []]]; discriminate.
Defined.

(** X1 at work: Carol, a doctor assigned to Alice, is not shown Bob's note
    on Alice's symptom; Alice and Bob are. *)
Lemma doctor_notes_select_exact_witness :
  ~ In Sample.bobs_note (Sql.select_doctor_notes Sample.clinic (Some Sample.carol))
  /\ Sql.select_doctor_notes Sample.clinic (Some Sample.alice) = [Sample.bobs_note]
  /\ Sql.select_doctor_notes Sample.clinic (Some Sample.bob) = [Sample.bobs_note].
Proof.
  split; [| split; reflexivity].
  intros H.
  apply (proj1 (doctor_notes_select_exact Sample.clinic Sample.carol)) in H.
  destruct H as [_ [H | [s [Hs [_ Hown]]]]].
  - discriminate.
  - simpl in Hs. destruct Hs as [<- | [<- | []]]; discriminate.
Defined.

(** ** Assignments *)

Lemma assignments_insert_iff db U r :
  Rls.permitted (Rls.assignments_policies Rls.INSERT) db (Some U) r = true
  <-> Assignment.patient_id r = U.
Proof.
  unfold Rls.permitted. cbn [existsb Rls.assignments_policies].
  rewrite orb_false_r. unfold Rls.Patients_can_create_assignments.
  rewrite uid_eq_true. intuition congruence.
Qed.

Lemma insert_assignment_cases db uid r :
  (Sql.insert_assignment db uid r
   = (Sql.Ok, Sql.set_assignments db (patient_doctor_assignments db ++ [r]))
   /\ Rls.permitted (Rls.assignments_policies Rls.INSERT) db uid r = true
   /\ Sql.assignments_constraints db r = true)
  \/ (Sql.insert_assignment db uid r = (Sql.RlsViolation, db)
      /\ Rls.permitted (Rls.assignments_policies Rls.INSERT) db uid r = false)
  \/ (Sql.insert_assignment db uid r = (Sql.ConstraintViolation, db)
      /\ Sql.assignments_constraints db r = false).
Proof.
  unfold Sql.insert_assignment.
  destruct (Rls.permitted (Rls.assignments_policies Rls.INSERT) db uid r);
    simpl; [| tauto].
  destruct (Sql.assignments_constraints db r); simpl; tauto.
Qed.

Lemma Assigned_pair_exists db P D :
  existsb (fun a => (Assignment.patient_id a =? P) && (Assignment.doctor_id a =? D))
          (patient_doctor_assignments db) = true
  <-> Assigned db P D.
Proof.
  unfold Assigned. rewrite existsb_exists.
  split; intros [a [Hin H]]; exists a; split; try assumption.
  - apply andb_true_iff in H. destruct H as [Hp Hd].
    apply N.eqb_eq in Hp. apply N.eqb_eq in Hd. auto.
  - destruct H as [Hp Hd]. apply andb_true_iff.
    split; now apply N.eqb_eq.
Qed.

(** X3.  An assignment row that names two known identities, carries a
    fresh key and a pair not yet assigned is inserted exactly when the
    requester is the patient it names: the doctor named is neither asked
    nor required to hold the doctor role, and a doctor cannot assign
    himself to a patient.  Once the pair is assigned, no further row for
    the same pair gets in, whoever asks. *)
Theorem assignment_insert_by_patient :
  forall (db : database) (U : uuid) (r : Assignment.row),
    ~ In (Assignment.id r) (map Assignment.id (patient_doctor_assignments db)) ->
    In (Assignment.patient_id r) (auth_users db) ->
    In (Assignment.doctor_id r) (auth_users db) ->
    ~ Assigned db (Assignment.patient_id r) (Assignment.doctor_id r) ->
    (fst (Sql.insert_assignment db (Some U) r) = Sql.Ok
     <-> Assignment.patient_id r = U)
    /\ (forall grants : list UserRole.row,
           fst (Sql.insert_assignment (Sql.set_user_roles db grants) (Some U) r)
           = fst (Sql.insert_assignment db (Some U) r))
    /\ (fst (Sql.insert_assignment db (Some U) r) <> Sql.Ok ->
        snd (Sql.insert_assignment db (Some U) r) = db)
    /\ (fst (Sql.insert_assignment db (Some U) r) = Sql.Ok ->
        forall (V : option uuid) (r2 : Assignment.row),
          Assignment.patient_id r2 = Assignment.patient_id r ->
          Assignment.doctor_id r2 = Assignment.doctor_id r ->
          fst (Sql.insert_assignment
                 (snd (Sql.insert_assignment db (Some U) r)) V r2) <> Sql.Ok).
Proof.
  intros db U r Hfresh Hpat Hdoc Hnew.
  assert (Hcons : forall grants,
             Sql.assignments_constraints (Sql.set_user_roles db grants) r = true).
  { intros grants. unfold Sql.assignments_constraints.
    cbn [patient_doctor_assignments auth_users Sql.set_user_roles].
    repeat (apply andb_true_iff; split).
    - apply negb_true_iff, not_true_is_false. now rewrite mem_In.
    - now apply mem_In.
    - now apply mem_In.
    - apply negb_true_iff, not_true_is_false.
      now rewrite (Assigned_pair_exists db). }
  assert (Hcons0 : Sql.assignments_constraints db r = true).
  { rewrite <- (Hcons (user_roles db)). now destruct db. }
  split; [| split; [| split]].
  - rewrite <- assignments_insert_iff with (db := db).
    destruct (insert_assignment_cases db (Some U) r)
      as [[E [Hp _]] | [[E Hp] | [E Hc]]]; rewrite E; cbn [fst].
    + tauto.
    + rewrite Hp. split; discriminate.
    + congruence.
  - intros grants. unfold Sql.insert_assignment.
    rewrite (Hcons grants), Hcons0.
    unfold Rls.permitted. cbn [existsb Rls.assignments_policies].
    unfold Rls.Patients_can_create_assignments.
    now destruct (Rls.uid_eq (Some U) (Assignment.patient_id r) || false).
  - destruct (insert_assignment_cases db (Some U) r)
      as [[E _] | [[E _] | [E _]]]; rewrite E; cbn [fst snd];
      [congruence | reflexivity | reflexivity].
  - destruct (insert_assignment_cases db (Some U) r)
      as [[E _] | [[E _] | [E _]]]; rewrite E; cbn [fst snd];
      try discriminate.
    intros _ V r2 Hp2 Hd2.
    destruct (insert_assignment_cases
                (Sql.set_assignments db (patient_doctor_assignments db ++ [r]))
                V r2) as [[_ [_ Hc]] | [[E2 _] | [E2 _]]].
    + exfalso. unfold Sql.assignments_constraints in Hc.
      apply andb_true_iff in Hc. destruct Hc as [_ Hc].
      apply negb_true_iff in Hc.
      assert (Hyes : Assigned
                       (Sql.set_assignments db (patient_doctor_assignments db ++ [r]))
                       (Assignment.patient_id r2) (Assignment.doctor_id r2)).
      { exists r. simpl. split; [apply in_or_app; right; now left | auto]. }
      apply Assigned_pair_exists in Hyes. congruence.
    + rewrite E2. discriminate.
    + rewrite E2. discriminate.
Qed.

Lemma assignment_insert_by_patient_witness :
  fst (Sql.insert_assignment Sample.unassigned (Some Sample.alice) Sample.alice_bob)
  = Sql.Ok
  /\ fst (Sql.insert_assignment Sample.unassigned (Some Sample.bob) Sample.alice_bob)
     <> Sql.Ok.
Proof.
  assert (Hfresh : ~ In (Assignment.id Sample.alice_bob)
                        (map Assignment.id
                             (patient_doctor_assignments Sample.unassigned)))
    by (simpl; tauto).
  assert (Hpat : In (Assignment.patient_id Sample.alice_bob)
                    (auth_users Sample.unassigned)) by (simpl; auto).
  assert (Hdoc : In (Assignment.doctor_id Sample.alice_bob)
                    (auth_users Sample.unassigned)) by (simpl; auto).
  assert (Hnew : ~ Assigned Sample.unassigned
                     (Assignment.patient_id Sample.alice_bob)
                     (Assignment.doctor_id Sample.alice_bob))
    by (intros [a [[] _]]).
  split.
  - apply (proj1 (assignment_insert_by_patient Sample.unassigned Sample.alice
                    Sample.alice_bob Hfresh Hpat Hdoc Hnew)). reflexivity.
  - intros H.
    apply (proj1 (assignment_insert_by_patient Sample.unassigned Sample.bob
                    Sample.alice_bob Hfresh Hpat Hdoc Hnew)) in H.
    discriminate.
Defined.

(** X4.  Let patient [P] succeed in inserting the assignment (P, D), [D]
    being somebody else.  Before the insert [D] selects none of [P]'s
    symptoms; after it, a [D] who holds the doctor role selects every one
    of them. *)
Theorem assignment_opens_symptoms :
  forall (db db' : database) (P : uuid) (r : Assignment.row),
    Sql.insert_assignment db (Some P) r = (Sql.Ok, db') ->
    Assignment.doctor_id r <> P ->
    (forall S, In S (Sql.select_symptoms db (Some (Assignment.doctor_id r))) ->
               Symptom.patient_id S <> P)
    /\ (RoleGrant db (Assignment.doctor_id r) doctor ->
        forall S, In S (symptoms db) -> Symptom.patient_id S = P ->
                  In S (Sql.select_symptoms db' (Some (Assignment.doctor_id r)))).
Proof.
  intros db db' P r Hins Hne.
  destruct (insert_assignment_cases db (Some P) r)
    as [[E [Hp Hc]] | [[E _] | [E _]]]; rewrite E in Hins; try discriminate.
  injection Hins as <-. apply assignments_insert_iff in Hp.
  assert (Hno : ~ Assigned db P (Assignment.doctor_id r)).
  { unfold Sql.assignments_constraints in Hc.
    apply andb_true_iff in Hc. destruct Hc as [_ Hc].
    apply negb_true_iff in Hc. rewrite Hp in Hc.
    intros H. apply Assigned_pair_exists in H. congruence. }
  split.
  - intros S HS Hown. unfold Sql.select_symptoms, Rls.visible_symptoms in HS.
    apply filter_In in HS. destruct HS as [_ HS].
    apply symptoms_select_iff in HS. destruct HS as [HS | [_ HS]].
    + congruence.
    + rewrite Hown in HS. contradiction.
  - intros Hrole S HS Hown. unfold Sql.select_symptoms, Rls.visible_symptoms.
    apply filter_In. split; [exact HS |].
    apply symptoms_select_iff. right. split.
    + exact Hrole.
    + exists r. simpl. split; [apply in_or_app; right; now left |].
      split; congruence.
Qed.

Lemma assignment_opens_symptoms_witness :
  In Sample.rash
     (Sql.select_symptoms
        (Sql.set_assignments Sample.unassigned [Sample.alice_bob])
        (Some Sample.bob))
  /\ Sql.select_symptoms Sample.unassigned (Some Sample.bob) = [Sample.cough].
Proof.
  split; [| reflexivity].
  assert (Hne : Assignment.doctor_id Sample.alice_bob <> Sample.alice)
    by discriminate.
  apply (proj2 (assignment_opens_symptoms Sample.unassigned _ Sample.alice
                  Sample.alice_bob eq_refl Hne)).
  - exists Sample.bob_doctor. simpl. auto.
  - simpl. auto.
  - reflexivity.
Defined.

(** ** Symptoms: insert, update, delete *)

Lemma symptoms_insert_iff db U r :
  Rls.permitted (Rls.symptoms_policies Rls.INSERT) db (Some U) r = true
  <-> Symptom.patient_id r = U.
Proof.
  unfold Rls.permitted. cbn [existsb Rls.symptoms_policies].
  rewrite orb_false_r. unfold Rls.Patients_can_insert_their_own_symptoms.
  rewrite uid_eq_true. intuition congruence.
Qed.

Lemma insert_symptom_cases db uid r :
  (Sql.insert_symptom db uid r
   = (Sql.Ok, Sql.set_symptoms db (symptoms db ++ [r]))
   /\ Rls.permitted (Rls.symptoms_policies Rls.INSERT) db uid r = true
   /\ Sql.symptoms_constraints db r = true)
  \/ (Sql.insert_symptom db uid r = (Sql.RlsViolation, db)
      /\ Rls.permitted (Rls.symptoms_policies Rls.INSERT) db uid r = false)
  \/ (Sql.insert_symptom db uid r = (Sql.ConstraintViolation, db)
      /\ Sql.symptoms_constraints db r = false).
Proof.
  unfold Sql.insert_symptom.
  destruct (Rls.permitted (Rls.symptoms_policies Rls.INSERT) db uid r);
    simpl; [| tauto].
  destruct (Sql.symptoms_constraints db r); simpl; tauto.
Qed.

(** X5.  A symptom row with a fresh key, a known patient and an admissible
    severity is inserted exactly when the requester is the patient it
    names; nobody logs a symptom for somebody else.  Once inserted it is
    returned to its owner, and besides the owner only to holders of the
    doctor role assigned to the owner. *)
Theorem symptom_insert_by_owner :
  forall (db : database) (U : uuid) (r : Symptom.row),
    ~ In (Symptom.id r) (map Symptom.id (symptoms db)) ->
    In (Symptom.patient_id r) (auth_users db) ->
    Sql.severity_check (Symptom.severity r) = true ->
    (fst (Sql.insert_symptom db (Some U) r) = Sql.Ok
     <-> Symptom.patient_id r = U)
    /\ (fst (Sql.insert_symptom db (Some U) r) <> Sql.Ok ->
        snd (Sql.insert_symptom db (Some U) r) = db)
    /\ (fst (Sql.insert_symptom db (Some U) r) = Sql.Ok ->
        In r (Sql.select_symptoms (snd (Sql.insert_symptom db (Some U) r))
                                  (Some U))
        /\ forall V,
            In r (Sql.select_symptoms (snd (Sql.insert_symptom db (Some U) r))
                                      (Some V)) ->
            V = U \/ (RoleGrant db V doctor /\ Assigned db U V)).
Proof.
  intros db U r Hfresh Hpat Hsev.
  assert (Hcons : Sql.symptoms_constraints db r = true).
  { unfold Sql.symptoms_constraints. rewrite Hsev, andb_true_r.
    apply andb_true_iff. split.
    - apply negb_true_iff, not_true_is_false. now rewrite mem_In.
    - now apply mem_In. }
  destruct (insert_symptom_cases db (Some U) r)
    as [[E [Hp _]] | [[E Hp] | [E Hc]]]; [| | congruence];
    rewrite E; cbn [fst snd].
  - apply symptoms_insert_iff in Hp.
    split; [tauto | split; [congruence |]]. intros _. split.
    + apply owned_symptom_visible; [| exact Hp].
      simpl. apply in_or_app. right. now left.
    + intros V HV. unfold Sql.select_symptoms, Rls.visible_symptoms in HV.
      apply filter_In in HV. destruct HV as [_ HV].
      apply symptoms_select_iff in HV. rewrite Hp in HV.
      destruct HV as [HV | HV]; [now left | now right].
  - split; [| split; [reflexivity | discriminate]].
    rewrite <- (symptoms_insert_iff db), Hp. split; discriminate.
Qed.

Lemma symptom_insert_by_owner_witness :
  fst (Sql.insert_symptom Sample.clinic (Some Sample.alice) Sample.fever) = Sql.Ok
  /\ fst (Sql.insert_symptom Sample.clinic (Some Sample.bob) Sample.fever)
     <> Sql.Ok.
Proof.
  assert (Hfresh : ~ In (Symptom.id Sample.fever)
                        (map Symptom.id (symptoms Sample.clinic))).
  { simpl. intros [H | [H | []]]; discriminate. }
  assert (Hpat : In (Symptom.patient_id Sample.fever)
                    (auth_users Sample.clinic)) by (simpl; auto).
  split.
  - apply (proj1 (symptom_insert_by_owner Sample.clinic Sample.alice Sample.fever
                    Hfresh Hpat eq_refl)). reflexivity.
  - intros H.
    apply (proj1 (symptom_insert_by_owner Sample.clinic Sample.bob Sample.fever
                    Hfresh Hpat eq_refl)) in H. discriminate.
Defined.

Lemma symptoms_target_owner c db U wher r :
  c = Rls.UPDATE \/ c = Rls.DELETE ->
  Sql.symptoms_target c db (Some U) wher r = true ->
  Symptom.patient_id r = U.
Proof.
  intros Hc H. unfold Sql.symptoms_target in H.
  apply andb_true_iff in H. destruct H as [H _].
  apply andb_true_iff in H. destruct H as [_ H].
  destruct Hc; subst c.
  - now apply symptoms_update_iff in H.
  - now apply symptoms_delete_iff in H.
Qed.

(** X6.  A successful UPDATE of symptoms by [U] keeps the table's length
    and every other table; it leaves alone each row [U] does not own, be
    it one [U] may select as assigned doctor; a row it changes was [U]'s
    and still is ([U] cannot hand a symptom to another patient), and its
    updated_at is the time of the statement, whatever the SET list
    assigned to that column. *)
Theorem symptom_update_by_owner :
  forall (db db' : database) (U : uuid)
         (wher : Symptom.row -> bool) (set : Symptom.row -> Symptom.row)
         (now : timestamptz),
    Sql.update_symptoms db (Some U) wher set now = (Sql.Ok, db') ->
    db' = Sql.set_symptoms db (symptoms db')
    /\ length (symptoms db') = length (symptoms db)
    /\ forall i old new,
        nth_error (symptoms db) i = Some old ->
        nth_error (symptoms db') i = Some new ->
        (Symptom.patient_id old <> U -> new = old)
        /\ (new <> old ->
            Symptom.patient_id old = U
            /\ Symptom.patient_id new = U
            /\ Symptom.updated_at new = now
            /\ new = Sql.update_symptoms_updated_at now (set old)).
Proof.
  intros db db' U wher set now Hupd. unfold Sql.update_symptoms in Hupd.
  destruct (forallb _ (map _ _)) eqn:Hcheck; [| discriminate].
  cbn [negb] in Hupd.
  match type of Hupd with
  | (if negb ?c then _ else _) = _ => destruct c; [| discriminate]
  end.
  cbn [negb] in Hupd. injection Hupd as Hdb. subst db'.
  split; [reflexivity |]. simpl.
  split; [apply length_map |].
  intros i old new Hold Hnew.
  rewrite nth_error_map, Hold in Hnew. simpl in Hnew.
  injection Hnew as Hnew.
  destruct (Sql.symptoms_target Rls.UPDATE db (Some U) wher old) eqn:Htarget.
  - assert (Hown : Symptom.patient_id old = U)
      by (eapply symptoms_target_owner; eauto).
    assert (Hown' : Symptom.patient_id
                      (Sql.update_symptoms_updated_at now (set old)) = U).
    { rewrite forallb_forall in Hcheck.
      assert (Hw : In (Sql.update_symptoms_updated_at now (set old))
                      (map (fun r => Sql.update_symptoms_updated_at now (set r))
                           (filter (Sql.symptoms_target Rls.UPDATE db (Some U) wher)
                                   (symptoms db)))).
      { apply in_map_iff. exists old. split; [reflexivity |].
        apply filter_In. split; [| exact Htarget].
        eapply nth_error_In; eassumption. }
      apply Hcheck, andb_true_iff in Hw. destruct Hw as [Hw _].
      now apply symptoms_update_iff in Hw. }
    subst new. split; [intros; contradiction |]. intros _. auto.
  - subst new. split; [reflexivity | intros H; now contradiction H].
Qed.

(** X6 at work: Alice raises the severity of her rash and tries to reset
    updated_at to 0; the row is stamped with the statement's time, 20.
    Her attempt to hand the row to Bob is refused. *)
Lemma symptom_update_by_owner_witness :
  (exists new, nth_error (symptoms (snd (Sql.update_symptoms Sample.clinic
                                          (Some Sample.alice) Sample.is_rash
                                          Sample.worsen 20))) 0 = Some new
               /\ Symptom.updated_at new = 20
               /\ Symptom.patient_id new = Sample.alice)
  /\ Sql.update_symptoms Sample.clinic (Some Sample.alice) Sample.is_rash
                         Sample.give_to_bob 20
     = (Sql.RlsViolation, Sample.clinic).
Proof.
  split; [| reflexivity].
  destruct (symptom_update_by_owner Sample.clinic _ Sample.alice Sample.is_rash
              Sample.worsen 20 eq_refl) as [_ [_ H]].
  eexists. split; [reflexivity |].
  destruct (H 0%nat Sample.rash _ eq_refl eq_refl) as [_ H'].
  destruct H' as [_ [Hown [Hstamp _]]]; [discriminate |].
  split; assumption.
Defined.






(** ** Requesters without identity, and the role table *)

Lemma has_role_unauthenticated db R : Rls.has_role db None R = false.
Proof.
  unfold Rls.has_role. induction (user_roles db) as [| g l IH]; simpl; auto.
Qed.

Lemma existsb_false {A} (f : A -> bool) (l : list A) :
  (forall a, In a l -> f a = false) -> existsb f l = false.
Proof.
  induction l as [| a l IH]; simpl; intros H; [reflexivity |].
  rewrite (H a), IH; auto.
Qed.

Lemma map_untouched {A} (target : A -> bool) (f : A -> A) (l : list A) :
  (forall a, In a l -> target a = false) ->
  map (fun a => if target a then f a else a) l = l.
Proof.
  induction l as [| a l IH]; simpl; intros H; [reflexivity |].
  rewrite (H a), IH; auto.
Qed.

Lemma filter_untouched {A} (target : A -> bool) (l : list A) :
  (forall a, In a l -> target a = false) ->
  filter (fun a => negb (target a)) l = l.
Proof.
  induction l as [| a l IH]; simpl; intros H; [reflexivity |].
  rewrite (H a), IH; simpl; auto.
Qed.

Lemma filter_none {A} (target : A -> bool) (l : list A) :
  (forall a, In a l -> target a = false) -> filter target l = [].
Proof.
  induction l as [| a l IH]; simpl; intros H; [reflexivity |].
  rewrite (H a), IH; auto.
Qed.

Lemma permitted_unauthenticated :
  forall (db : database) (c : Rls.command),
    (forall r, Rls.permitted (Rls.profiles_policies c) db None r = false)
    /\ (forall r, Rls.permitted (Rls.user_roles_policies c) db None r = false)
    /\ (forall r, Rls.permitted (Rls.symptoms_policies c) db None r = false)
    /\ (forall r, Rls.permitted (Rls.doctor_notes_policies c) db None r = false)
    /\ (forall r, Rls.permitted (Rls.messages_policies c) db None r = false)
    /\ (forall r, Rls.permitted (Rls.assignments_policies c) db None r = false).
Proof.
  intros db c.
  assert (Hnotes : forall r,
             Rls.Patients_can_view_notes_on_their_symptoms db None r = false).
  { intros r. unfold Rls.Patients_can_view_notes_on_their_symptoms.
    apply existsb_false. intros s _. apply andb_false_r. }
  repeat split; intros r; destruct c; unfold Rls.permitted; simpl;
    try reflexivity;
    unfold Rls.Doctors_can_view_assigned_patients_symptoms,
      Rls.Doctors_can_insert_notes;
    rewrite ?has_role_unauthenticated, ?Hnotes; reflexivity.
Qed.

Lemma set_symptoms_same db : Sql.set_symptoms db (symptoms db) = db.
Proof. now destruct db. Qed.

Lemma set_messages_same db : Sql.set_messages db (messages db) = db.
Proof. now destruct db. Qed.

Lemma set_user_roles_same db : Sql.set_user_roles db (user_roles db) = db.
Proof. now destruct db. Qed.

Lemma clear_no_reference m : Sql.clear_symptom_reference [] m = m.
Proof.
  unfold Sql.clear_symptom_reference.
  now destruct (Message.symptom_reference m).
Qed.

(** No UPDATE or DELETE policy exists on user_roles: no row is ever a
    target. *)
Lemma user_roles_never_target c db uid wher r :
  c = Rls.UPDATE \/ c = Rls.DELETE ->
  Sql.user_roles_target c db uid wher r = false.
Proof.
  intros [-> | ->]; unfold Sql.user_roles_target, Rls.permitted; simpl;
    now rewrite andb_false_r.
Qed.

Lemma update_user_roles_nothing db uid wher set :
  snd (Sql.update_user_roles db uid wher set) = db.
Proof.
  unfold Sql.update_user_roles.
  rewrite (map_untouched _ set (user_roles db))
    by (intros; apply user_roles_never_target; auto).
  repeat match goal with
         | |- snd (if ?c then _ else _) = _ => destruct c; cbn [snd]
         end; try reflexivity.
  apply set_user_roles_same.
Qed.

Lemma delete_user_roles_nothing db uid wher :
  snd (Sql.delete_user_roles db uid wher) = db.
Proof.
  unfold Sql.delete_user_roles. cbn [snd].
  rewrite filter_untouched
    by (intros; apply user_roles_never_target; auto).
  apply set_user_roles_same.
Qed.

Lemma update_symptoms_no_target db uid wher set now :
  (forall r, Sql.symptoms_target Rls.UPDATE db uid wher r = false) ->
  snd (Sql.update_symptoms db uid wher set now) = db.
Proof.
  intros H. unfold Sql.update_symptoms.
  rewrite (map_untouched _ _ (symptoms db)) by (intros; apply H).
  repeat match goal with
         | |- snd (if ?c then _ else _) = _ => destruct c; cbn [snd]
         end; try reflexivity.
  apply set_symptoms_same.
Qed.

Lemma update_profiles_no_target db uid wher set now :
  (forall r, Sql.profiles_target db uid wher r = false) ->
  snd (Sql.update_profiles db uid wher set now) = db.
Proof.
  intros H. unfold Sql.update_profiles.
  rewrite (map_untouched _ _ (profiles db)) by (intros; apply H).
  repeat match goal with
         | |- snd (if ?c then _ else _) = _ => destruct c; cbn [snd]
         end; try reflexivity.
  now destruct db.
Qed.

Lemma update_messages_no_target db uid wher set :
  (forall r, Sql.update_target db uid wher r = false) ->
  snd (Sql.update_messages db uid wher set) = db.
Proof.
  intros H. unfold Sql.update_messages.
  rewrite (map_untouched _ _ (messages db)) by (intros; apply H).
  repeat match goal with
         | |- snd (if ?c then _ else _) = _ => destruct c; cbn [snd]
         end; try reflexivity.
  apply set_messages_same.
Qed.

Lemma delete_symptoms_no_target db uid wher :
  (forall r, Sql.symptoms_target Rls.DELETE db uid wher r = false) ->
  snd (Sql.delete_symptoms db uid wher) = db.
Proof.
  intros H. unfold Sql.delete_symptoms. cbn [snd].
  rewrite (filter_none (Sql.symptoms_target Rls.DELETE db uid wher)
                       (symptoms db)) by (intros; apply H).
  rewrite (filter_untouched (Sql.symptoms_target Rls.DELETE db uid wher)
                            (symptoms db)) by (intros; apply H).
  cbn [map].
  rewrite (filter_untouched (fun n => Sql.mem (DoctorNote.symptom_id n) []))
    by reflexivity.
  rewrite (map_ext _ (fun m => m) clear_no_reference), map_id.
  now destruct db.
Qed.

(** X8.  A requester without identity ([auth.uid()] NULL) holds no role,
    passes no policy of any of the six tables for any command, is returned
    no row of any of them, and changes nothing: whatever statement is
    sent, the database stays as it was. *)
Theorem unauthenticated_requester_locked_out :
  forall (db : database),
    (forall R, Rls.has_role db None R = false)
    /\ (forall c : Rls.command,
           (forall r, Rls.permitted (Rls.profiles_policies c) db None r = false)
           /\ (forall r, Rls.permitted (Rls.user_roles_policies c) db None r = false)
           /\ (forall r, Rls.permitted (Rls.symptoms_policies c) db None r = false)
           /\ (forall r, Rls.permitted (Rls.doctor_notes_policies c) db None r = false)
           /\ (forall r, Rls.permitted (Rls.messages_policies c) db None r = false)
           /\ (forall r, Rls.permitted (Rls.assignments_policies c) db None r = false))
    /\ (Sql.select_profiles db None = []
        /\ Sql.select_user_roles db None = []
        /\ Sql.select_symptoms db None = []
        /\ Sql.select_doctor_notes db None = []
        /\ Sql.select_messages db None = []
        /\ Sql.select_assignments db None = [])
    /\ (forall s : Sql.statement, snd (Sql.execute db None s) = db).
Proof.
  intros db.
  pose proof (permitted_unauthenticated db) as Hp.
  split; [apply has_role_unauthenticated |].
  split; [exact Hp |].
  split.
  - destruct (Hp Rls.SELECT) as [H1 [H2 [H3 [H4 [H5 H6]]]]].
    repeat split; apply filter_none; auto.
  - intros s. destruct s; cbn [Sql.execute].
    + unfold Sql.insert_profile.
      now rewrite (proj1 (Hp Rls.INSERT)).
    + now rewrite insert_user_role_refused.
    + unfold Sql.insert_symptom.
      now rewrite (proj1 (proj2 (proj2 (Hp Rls.INSERT)))).
    + unfold Sql.insert_doctor_note.
      now rewrite (proj1 (proj2 (proj2 (proj2 (Hp Rls.INSERT))))).
    + unfold Sql.insert_message.
      now rewrite (proj1 (proj2 (proj2 (proj2 (proj2 (Hp Rls.INSERT)))))).
    + unfold Sql.insert_assignment.
      now rewrite (proj2 (proj2 (proj2 (proj2 (proj2 (Hp Rls.INSERT)))))).
    + apply update_profiles_no_target. intros r. unfold Sql.profiles_target.
      now rewrite (proj1 (Hp Rls.SELECT)).
    + apply update_symptoms_no_target. intros r. unfold Sql.symptoms_target.
      now rewrite (proj1 (proj2 (proj2 (Hp Rls.SELECT)))).
    + apply update_messages_no_target. intros r. unfold Sql.update_target.
      now rewrite (proj1 (proj2 (proj2 (proj2 (proj2 (Hp Rls.SELECT)))))).
    + apply update_user_roles_nothing.
    + apply delete_symptoms_no_target. intros r. unfold Sql.symptoms_target.
      now rewrite (proj1 (proj2 (proj2 (Hp Rls.SELECT)))).
    + apply delete_user_roles_nothing.
Qed.

Lemma execute_user_roles db uid s :
  user_roles (snd (Sql.execute db uid s)) = user_roles db.
Proof.
  destruct s; cbn [Sql.execute].
  - unfold Sql.insert_profile.
    repeat match goal with
           | |- context [if ?c then _ else _] => destruct c
           end; reflexivity.
  - now rewrite insert_user_role_refused.
  - unfold Sql.insert_symptom.
    repeat match goal with
           | |- context [if ?c then _ else _] => destruct c
           end; reflexivity.
  - unfold Sql.insert_doctor_note.
    repeat match goal with
           | |- context [if ?c then _ else _] => destruct c
           end; reflexivity.
  - unfold Sql.insert_message.
    repeat match goal with
           | |- context [if ?c then _ else _] => destruct c
           end; reflexivity.
  - unfold Sql.insert_assignment.
    repeat match goal with
           | |- context [if ?c then _ else _] => destruct c
           end; reflexivity.
  - unfold Sql.update_profiles.
    repeat match goal with
           | |- user_roles (snd (if ?c then _ else _)) = _ => destruct c
           end; reflexivity.
  - unfold Sql.update_symptoms.
    repeat match goal with
           | |- user_roles (snd (if ?c then _ else _)) = _ => destruct c
           end; reflexivity.
  - unfold Sql.update_messages.
    repeat match goal with
           | |- user_roles (snd (if ?c then _ else _)) = _ => destruct c
           end; reflexivity.
  - now rewrite update_user_roles_nothing.
  - reflexivity.
  - now rewrite delete_user_roles_nothing.
Qed.

Lemma has_role_user_roles db db' uid R :
  user_roles db' = user_roles db ->
  Rls.has_role db' uid R = Rls.has_role db uid R.
Proof. intros H. unfold Rls.has_role. now rewrite H. Qed.

Lemma run_user_roles db script :
  user_roles (Sql.run db script) = user_roles db.
Proof.
  unfold Sql.run. revert db.
  induction script as [| [uid s] script IH]; intros db; simpl; [reflexivity |].
  rewrite IH. apply execute_user_roles.
Qed.

Lemma execute_doctor_notes_without_role db uid s n :
  (forall R, Rls.has_role db uid R = false) ->
  In n (doctor_notes (snd (Sql.execute db uid s))) -> In n (doctor_notes db).
Proof.
  intros Hrole. destruct s; cbn [Sql.execute].
  - unfold Sql.insert_profile.
    repeat match goal with
           | |- context [if ?c then _ else _] => destruct c
           end; auto.
  - now rewrite insert_user_role_refused.
  - unfold Sql.insert_symptom.
    repeat match goal with
           | |- context [if ?c then _ else _] => destruct c
           end; auto.
  - unfold Sql.insert_doctor_note, Rls.permitted.
    cbn [existsb Rls.doctor_notes_policies].
    unfold Rls.Doctors_can_insert_notes. rewrite Hrole. simpl. auto.
  - unfold Sql.insert_message.
    repeat match goal with
           | |- context [if ?c then _ else _] => destruct c
           end; auto.
  - unfold Sql.insert_assignment.
    repeat match goal with
           | |- context [if ?c then _ else _] => destruct c
           end; auto.
  - unfold Sql.update_profiles.
    repeat match goal with
           | |- In _ (doctor_notes (snd (if ?c then _ else _))) -> _ => destruct c
           end; auto.
  - unfold Sql.update_symptoms.
    repeat match goal with
           | |- In _ (doctor_notes (snd (if ?c then _ else _))) -> _ => destruct c
           end; auto.
  - unfold Sql.update_messages.
    repeat match goal with
           | |- In _ (doctor_notes (snd (if ?c then _ else _))) -> _ => destruct c
           end; auto.
  - now rewrite update_user_roles_nothing.
  - cbn [snd Sql.delete_symptoms doctor_notes]. intros H.
    apply filter_In in H. tauto.
  - now rewrite delete_user_roles_nothing.
Qed.

(** X9.  None of the statements changes user_roles, whoever sends it:
    after any script the table, and with it every [has_role] answer, is
    what it was.  In particular, while the table is empty, no script adds
    a doctor note. *)
Theorem role_grants_beyond_requesters :
  forall (db : database) (script : list (option uuid * Sql.statement)),
    user_roles (Sql.run db script) = user_roles db
    /\ (forall uid R,
           Rls.has_role (Sql.run db script) uid R = Rls.has_role db uid R)
    /\ (user_roles db = [] ->
        forall n, In n (doctor_notes (Sql.run db script)) ->
                  In n (doctor_notes db)).
Proof.
  intros db script.
  split; [apply run_user_roles |].
  split; [intros uid R; apply has_role_user_roles, run_user_roles |].
  unfold Sql.run. revert db.
  induction script as [| [uid s] script IH]; intros db Hempty n; simpl;
    [auto |].
  intros Hin. apply IH in Hin.
  - eapply execute_doctor_notes_without_role; [| exact Hin].
    intros R. unfold Rls.has_role. now rewrite Hempty.
  - now rewrite execute_user_roles.
Qed.

(** X9 at work: after Dana's sign-up, Dana trying to grant herself the
    doctor role and then to file a note leaves roles and notes empty. *)
Lemma role_grants_beyond_requesters_witness :
  user_roles
    (Sql.run Sample.fresh
             [(Some Sample.dana,
               Sql.InsertUserRole
                 {| UserRole.id := 21; UserRole.user_id := Sample.dana;
                    UserRole.role := doctor |});
              (Some Sample.dana,
               Sql.InsertDoctorNote Sample.bobs_note)]) = []
  /\ forall n,
      ~ In n (doctor_notes
                (Sql.run Sample.fresh
                   [(Some Sample.dana,
                     Sql.InsertUserRole
                       {| UserRole.id := 21; UserRole.user_id := Sample.dana;
                          UserRole.role := doctor |});
                    (Some Sample.dana,
                     Sql.InsertDoctorNote Sample.bobs_note)])).
Proof.
  split.
  - exact (proj1 (role_grants_beyond_requesters Sample.fresh _)).
  - intros n Hn.
    exact (proj2 (proj2 (role_grants_beyond_requesters Sample.fresh _))
             eq_refl n Hn).
Defined.

(** ** Signing up and signing in *)

Lemma insert_profile_cases db uid r :
  (Sql.insert_profile db uid r = (Sql.Ok, Sql.set_profiles db (profiles db ++ [r]))
   /\ Rls.permitted (Rls.profiles_policies Rls.INSERT) db uid r = true
   /\ Sql.profiles_constraints db r = true)
  \/ (Sql.insert_profile db uid r = (Sql.RlsViolation, db)
      /\ Rls.permitted (Rls.profiles_policies Rls.INSERT) db uid r = false)
  \/ (Sql.insert_profile db uid r = (Sql.ConstraintViolation, db)
      /\ Sql.profiles_constraints db r = false).
Proof.
  unfold Sql.insert_profile.
  destruct (Rls.permitted (Rls.profiles_policies Rls.INSERT) db uid r);
    simpl; [| tauto].
  destruct (Sql.profiles_constraints db r); simpl; tauto.
Qed.

Lemma profiles_insert_permitted db uid r :
  Rls.permitted (Rls.profiles_policies Rls.INSERT) db uid r = true
  <-> uid = Some (Profile.id r).
Proof.
  unfold Rls.permitted. cbn [existsb Rls.profiles_policies].
  rewrite orb_false_r. unfold Rls.Users_can_insert_their_own_profile.
  destruct uid as [u |]; simpl.
  - rewrite N.eqb_eq. split; congruence.
  - split; discriminate.
Qed.

Lemma profiles_constraints_iff db r :
  Sql.profiles_constraints db r = true
  <-> ~ In (Profile.id r) (map Profile.id (profiles db))
      /\ In (Profile.id r) (auth_users db).
Proof.
  unfold Sql.profiles_constraints.
  rewrite andb_true_iff, negb_true_iff, <- not_true_iff_false, !mem_In.
  tauto.
Qed.

Lemma app_one_neq {A} (l : list A) (x : A) : l <> l ++ [x].
Proof.
  intros H. apply (f_equal (@length A)) in H.
  rewrite length_app in H. simpl in H. lia.
Qed.

Lemma set_profiles_same db : Sql.set_profiles db (profiles db) = db.
Proof. now destruct db. Qed.

(** X10.  The sign-up branch, case by case.  A sign-up the provider
    refused shows the provider's message (a stock one when it is empty)
    and touches nothing.  A sign-up that returned a user always shows
    "Account created!" and navigates by the role ticked, and never adds a
    role grant; it adds the profile exactly when the requests run as the
    new identity, the identity is known and has no profile yet, and
    otherwise leaves the database as it was: without a session, for one,
    success is reported and nothing has been stored. *)
Theorem signup_outcomes :
  forall (db : database) (resp : Auth.signUpResponse) (fullName : text)
         (role : app_role) (gen : uuid) (now : timestamptz),
    (forall e, Auth.error resp = Some e ->
               Auth.handleAuth db resp fullName role gen now
               = (db, [Auth.ToastError (match e with
                                        | [] => Js.lit "An error occurred"
                                        | _ :: _ => e
                                        end)]))
    /\ (forall u, Auth.error resp = None -> Auth.user resp = Some u ->
          snd (Auth.handleAuth db resp fullName role gen now)
          = [Auth.ToastAccountCreated;
             Auth.Navigate (match role with
                            | doctor => "/doctor"
                            | patient => "/dashboard"
                            end)]
          /\ user_roles (fst (Auth.handleAuth db resp fullName role gen now))
             = user_roles db
          /\ ((Auth.session resp = Some u /\ In u (auth_users db)
               /\ ~ In u (map Profile.id (profiles db))) ->
              fst (Auth.handleAuth db resp fullName role gen now)
              = Sql.set_profiles db
                  (profiles db
                   ++ [ {| Profile.id := u; Profile.full_name := fullName;
                           Profile.role := role; Profile.created_at := now;
                           Profile.updated_at := now |} ]))
          /\ (~ (Auth.session resp = Some u /\ In u (auth_users db)
                 /\ ~ In u (map Profile.id (profiles db))) ->
              fst (Auth.handleAuth db resp fullName role gen now) = db)).
Proof.
  intros db resp fullName role gen now. split.
  - intros e He. unfold Auth.handleAuth. rewrite He. now destruct e.
  - intros u He Hu. unfold Auth.handleAuth. rewrite He, Hu. cbn [fst snd].
    rewrite insert_user_role_refused. cbn [snd].
    set (row := {| Profile.id := u; Profile.full_name := fullName;
                   Profile.role := role; Profile.created_at := now;
                   Profile.updated_at := now |}).
    split; [reflexivity |].
    destruct (insert_profile_cases db (Auth.session resp) row)
      as [[E [Hp Hc]] | [[E Hp] | [E Hc]]]; rewrite E; cbn [snd].
    + apply profiles_insert_permitted in Hp.
      apply profiles_constraints_iff in Hc. simpl in Hp, Hc.
      split; [reflexivity |]. split; [reflexivity |]. tauto.
    + split; [reflexivity |]. split; [| reflexivity].
      intros [Hs _]. exfalso.
      assert (Hyes : Rls.permitted (Rls.profiles_policies Rls.INSERT) db
                                   (Auth.session resp) row = true)
        by (now apply profiles_insert_permitted).
      congruence.
    + split; [reflexivity |]. split; [| reflexivity].
      intros [_ Hc']. exfalso.
      assert (Hyes : Sql.profiles_constraints db row = true)
        by (apply profiles_constraints_iff; simpl; tauto).
      congruence.
Qed.

(** X10 at work: the provider returned Dana's identity but opened no
    session (as when e-mail confirmation is pending): the view announces
    the account and moves on, and nothing has been stored. *)
Lemma signup_outcomes_witness :
  Auth.handleAuth Sample.fresh
    {| Auth.error := None; Auth.user := Some Sample.dana; Auth.session := None |}
    (Js.lit "Dana") doctor 20 1
  = (Sample.fresh, [Auth.ToastAccountCreated; Auth.Navigate "/doctor"]).
Proof.
  destruct (proj2 (signup_outcomes Sample.fresh
                     {| Auth.error := None; Auth.user := Some Sample.dana;
                        Auth.session := None |}
                     (Js.lit "Dana") doctor 20 1) Sample.dana eq_refl eq_refl)
    as [Hui [_ [_ Hdb]]].
  rewrite (surjective_pairing (Auth.handleAuth _ _ _ _ _ _)).
  rewrite Hui, Hdb; [reflexivity |].
  intros [H _]. discriminate.
Defined.

Lemma filter_within {A} (f g : A -> bool) (l : list A) :
  (forall a, f a = true -> g a = true) ->
  filter f (filter g l) = filter f l.
Proof.
  intros H. induction l as [| a l IH]; simpl; [reflexivity |].
  destruct (f a) eqn:Ef.
  - rewrite (H a Ef). simpl. now rewrite Ef, IH.
  - destruct (g a); simpl; now rewrite ?Ef, IH.
Qed.

Lemma own_profiles_by_id db u :
  filter (fun p => Profile.id p =? u) (Sql.select_profiles db (Some u))
  = filter (fun p => Profile.id p =? u) (profiles db).
Proof.
  unfold Sql.select_profiles. apply filter_within. intros p Hp.
  unfold Rls.permitted. cbn [existsb Rls.profiles_policies].
  unfold Rls.Users_can_view_their_own_profile. simpl.
  now rewrite N.eqb_sym, Hp.
Qed.

Lemma filter_by_key_absent (l : list Profile.row) u :
  ~ In u (map Profile.id l) -> filter (fun p => Profile.id p =? u) l = [].
Proof.
  intros H. apply filter_none. intros p Hp. apply N.eqb_neq. intros E.
  apply H. rewrite <- E. now apply in_map.
Qed.

Lemma filter_by_key_unique (l : list Profile.row) u :
  NoDup (map Profile.id l) ->
  filter (fun p => Profile.id p =? u) l = []
  \/ exists p, In p l /\ Profile.id p = u
               /\ filter (fun p => Profile.id p =? u) l = [p].
Proof.
  induction l as [| q l IH]; simpl; intros Hnd; [now left |].
  inversion Hnd as [| ? ? Hq Hnd']; subst.
  destruct (Profile.id q =? u) eqn:E.
  - apply N.eqb_eq in E. right. exists q. split; [now left | split; [exact E |]].
    rewrite filter_by_key_absent; [reflexivity | now rewrite <- E].
  - destruct (IH Hnd') as [H | [p [Hp [Hid H]]]]; [now left |].
    right. exists p. auto.
Qed.

(** X11.  Signing in, with one profile per identity at most: the view goes
    to the doctor dashboard exactly when the requester's own profile
    exists and says doctor; in every other case, a missing profile
    included, it goes to the patient dashboard.  Role grants are not
    looked at. *)
Theorem login_follows_profile :
  forall (db : database) (resp : Auth.signInResponse) (u : uuid),
    Auth.error resp = None -> Auth.user resp = Some u ->
    Auth.session resp = Some u ->
    NoDup (map Profile.id (profiles db)) ->
    (Auth.handleAuthLogin db resp = [Auth.Navigate "/doctor"]
     <-> exists p, In p (profiles db) /\ Profile.id p = u
                   /\ Profile.role p = doctor)
    /\ (Auth.handleAuthLogin db resp = [Auth.Navigate "/doctor"]
        \/ Auth.handleAuthLogin db resp = [Auth.Navigate "/dashboard"])
    /\ (forall grants,
           Auth.handleAuthLogin (Sql.set_user_roles db grants) resp
           = Auth.handleAuthLogin db resp).
Proof.
  intros db resp u He Hu Hs Hnd.
  assert (Hrun : forall d, profiles d = profiles db ->
             Auth.handleAuthLogin d resp
             = [Auth.Navigate
                  (match option_map Profile.role
                           (Auth.single (filter (fun p => Profile.id p =? u)
                                                (profiles db))) with
                   | Some doctor => "/doctor"
                   | _ => "/dashboard"
                   end)]).
  { intros d Hd. unfold Auth.handleAuthLogin.
    now rewrite He, Hu, Hs, own_profiles_by_id, Hd. }
  split; [| split].
  - rewrite (Hrun db eq_refl).
    destruct (filter_by_key_unique (profiles db) u Hnd)
      as [E | [p [Hp [Hid E]]]]; rewrite E; simpl.
    + split; [discriminate |]. intros [p [Hp [Hid _]]]. exfalso.
      assert (Hin : In p (filter (fun p => Profile.id p =? u) (profiles db)))
        by (apply filter_In; split; [exact Hp | now apply N.eqb_eq]).
      now rewrite E in Hin.
    + split.
      * intros H. exists p. split; [exact Hp | split; [exact Hid |]].
        destruct (Profile.role p); [discriminate | reflexivity].
      * intros [q [Hq [Hqid Hrole]]].
        assert (Hin : In q (filter (fun p => Profile.id p =? u) (profiles db)))
          by (apply filter_In; split; [exact Hq | now apply N.eqb_eq]).
        rewrite E in Hin. destruct Hin as [<- | []]. now rewrite Hrole.
  - rewrite (Hrun db eq_refl).
    destruct (option_map _ _) as [[|] |]; auto.
  - intros grants. rewrite (Hrun db eq_refl). now apply Hrun.
Qed.

Lemma login_follows_profile_witness :
  Auth.handleAuthLogin
    (Sql.set_profiles Sample.fresh [Sample.danas_profile]) Sample.dana_signed_up
  = [Auth.Navigate "/dashboard"].
Proof.
  assert (Hnd : NoDup (map Profile.id
                           (profiles (Sql.set_profiles Sample.fresh
                                        [Sample.danas_profile])))).
  { simpl. constructor; [tauto | constructor]. }
  destruct (login_follows_profile _ Sample.dana_signed_up Sample.dana
              eq_refl eq_refl eq_refl Hnd) as [Hiff [[H | H] _]].
  - apply Hiff in H. destruct H as [p [Hp [_ Hrole]]].
    simpl in Hp. destruct Hp as [<- | []]. discriminate.
  - exact H.
Defined.

(** X12.  A new identity that signs up with a session and then signs in
    lands on the dashboard of the role ticked at sign-up, while holding
    no role as far as [has_role] goes. *)
Theorem signup_then_login :
  forall (db : database) (resp : Auth.signUpResponse) (u : uuid)
         (fullName : text) (role : app_role) (gen : uuid) (now : timestamptz),
    Auth.error resp = None -> Auth.user resp = Some u ->
    Auth.session resp = Some u ->
    In u (auth_users db) ->
    ~ In u (map Profile.id (profiles db)) ->
    ~ RoleGrant db u role ->
    Auth.handleAuthLogin
      (fst (Auth.handleAuth db resp fullName role gen now)) resp
    = [Auth.Navigate (match role with
                      | doctor => "/doctor"
                      | patient => "/dashboard"
                      end)]
    /\ Rls.has_role (fst (Auth.handleAuth db resp fullName role gen now))
                    (Some u) role = false.
Proof.
  intros db resp u fullName role gen now He Hu Hs Hknown Hnew Hnone.
  assert (Hdb : fst (Auth.handleAuth db resp fullName role gen now)
                = Sql.set_profiles db
                    (profiles db
                     ++ [ {| Profile.id := u; Profile.full_name := fullName;
                             Profile.role := role; Profile.created_at := now;
                             Profile.updated_at := now |} ])).
  { unfold Auth.handleAuth. rewrite He, Hu, Hs. cbn [fst].
    rewrite insert_user_role_refused. cbn [snd].
    destruct (insert_profile_cases db (Some u)
                {| Profile.id := u; Profile.full_name := fullName;
                   Profile.role := role; Profile.created_at := now;
                   Profile.updated_at := now |})
      as [[E _] | [[_ Hp] | [_ Hc]]].
    - now rewrite E.
    - exfalso.
      assert (Hyes : Rls.permitted (Rls.profiles_policies Rls.INSERT) db (Some u)
                       {| Profile.id := u; Profile.full_name := fullName;
                          Profile.role := role; Profile.created_at := now;
                          Profile.updated_at := now |} = true)
        by (now apply profiles_insert_permitted).
      congruence.
    - exfalso.
      assert (Hyes : Sql.profiles_constraints db
                       {| Profile.id := u; Profile.full_name := fullName;
                          Profile.role := role; Profile.created_at := now;
                          Profile.updated_at := now |} = true)
        by (apply profiles_constraints_iff; simpl; tauto).
      congruence. }
  rewrite Hdb. split.
  - unfold Auth.handleAuthLogin. rewrite He, Hu, Hs, own_profiles_by_id.
    cbn [profiles Sql.set_profiles].
    rewrite filter_app, filter_by_key_absent by exact Hnew.
    simpl. rewrite N.eqb_refl. simpl. now destruct role.
  - apply not_true_is_false. intros H. apply has_role_RoleGrant in H.
    apply Hnone. exact H.
Qed.

Lemma signup_then_login_witness :
  Auth.handleAuthLogin
    (fst (Auth.handleAuth Sample.fresh Sample.dana_signed_up (Js.lit "Dana")
            doctor 20 1))
    Sample.dana_signed_up
  = [Auth.Navigate "/doctor"]
  /\ Rls.has_role
       (fst (Auth.handleAuth Sample.fresh Sample.dana_signed_up (Js.lit "Dana")
               doctor 20 1))
       (Some Sample.dana) doctor = false.
Proof.
  apply (signup_then_login Sample.fresh Sample.dana_signed_up Sample.dana);
    try reflexivity.
  - simpl. auto.
  - simpl. tauto.
  - intros [g [[] _]].
Defined.

(* ===================================================================== *)
(** * Properties of the doctor's timeline view *)
(* ===================================================================== *)

Lemma place_In {A} (leb : A -> A -> bool) (x y : A) (l : list A) :
  In y (Api.place leb x l) <-> y = x \/ In y l.
Proof.
  induction l as [| z l IH]; simpl.
  - intuition.
  - destruct (leb x z); simpl; [intuition |]. rewrite IH. intuition.
Qed.

Lemma order_by_In {A} (leb : A -> A -> bool) (y : A) (l : list A) :
  In y (Api.order_by leb l) <-> In y l.
Proof.
  induction l as [| x l IH]; simpl; [tauto |].
  rewrite place_In, IH. intuition.
Qed.

Lemma order_by_nil {A} (leb : A -> A -> bool) (l : list A) :
  Api.order_by leb l = [] -> l = [].
Proof.
  destruct l as [| x l]; [reflexivity |]. simpl. intros H. exfalso.
  assert (Hin : In x (Api.place leb x (Api.order_by leb l)))
    by (apply place_In; now left).
  now rewrite H in Hin.
Qed.

Lemma pushNote_lookup o n k :
  PatientTimeline.pushNote o n k
  = if k =? DoctorNote.symptom_id n
    then Some (match o (DoctorNote.symptom_id n) with
               | Some l => l
               | None => []
               end ++ [n])
    else o k.
Proof.
  unfold PatientTimeline.pushNote.
  destruct (o (DoctorNote.symptom_id n)) as [l |] eqn:E.
  - rewrite E. unfold PatientTimeline.setKey. reflexivity.
  - unfold PatientTimeline.setKey.
    rewrite (N.eqb_refl (DoctorNote.symptom_id n)).
    destruct (k =? DoctorNote.symptom_id n); reflexivity.
Qed.

Lemma fold_pushNote l : forall o k,
  fold_left PatientTimeline.pushNote l o k
  = match filter (fun n => DoctorNote.symptom_id n =? k) l with
    | [] => o k
    | f => Some (match o k with Some l0 => l0 | None => [] end ++ f)
    end.
Proof.
  induction l as [| n l IH]; intros o k; simpl; [reflexivity |].
  rewrite IH, pushNote_lookup, (N.eqb_sym k).
  destruct (DoctorNote.symptom_id n =? k) eqn:E.
  - apply N.eqb_eq in E. subst k.
    destruct (filter _ l); simpl; [reflexivity |].
    now rewrite <- app_assoc.
  - reflexivity.
Qed.

Lemma groupNotes_lookup notesData k :
  PatientTimeline.groupNotes notesData k
  = match filter (fun n => DoctorNote.symptom_id n =? k) notesData with
    | [] => None
    | f => Some f
    end.
Proof.
  unfold PatientTimeline.groupNotes. rewrite fold_pushNote.
  now destruct (filter _ notesData).
Qed.

Lemma groupNotes_In notesData k n :
  (exists l, PatientTimeline.groupNotes notesData k = Some l /\ In n l)
  <-> In n notesData /\ DoctorNote.symptom_id n = k.
Proof.
  rewrite groupNotes_lookup. split.
  - intros [l [Hl Hin]].
    destruct (filter _ notesData) as [| a f] eqn:E; [discriminate |].
    injection Hl as <-. rewrite <- E in Hin. apply filter_In in Hin.
    now rewrite N.eqb_eq in Hin.
  - intros [Hin Hk].
    assert (Hf : In n (filter (fun n => DoctorNote.symptom_id n =? k) notesData))
      by (apply filter_In; now rewrite N.eqb_eq).
    destruct (filter _ notesData) as [| a f]; [contradiction |].
    eauto.
Qed.

(** X13.  The grouping [fetchData] builds: under a symptom id stand the
    fetched notes on that symptom, all of them, in the order they were
    fetched, and none else; an id no fetched note refers to has no entry,
    so no entry is an empty list. *)
Theorem notes_grouped_by_symptom :
  forall (notesData : list DoctorNote.row) (k : uuid),
    (PatientTimeline.groupNotes notesData k
     = match filter (fun n => DoctorNote.symptom_id n =? k) notesData with
       | [] => None
       | f => Some f
       end)
    /\ PatientTimeline.groupNotes notesData k <> Some []
    /\ (PatientTimeline.groupNotes notesData k = None
        <-> forall n, In n notesData -> DoctorNote.symptom_id n <> k)
    /\ (forall n, In n notesData ->
                  exists l, PatientTimeline.groupNotes notesData
                              (DoctorNote.symptom_id n) = Some l
                            /\ In n l).
Proof.
  intros notesData k. split; [apply groupNotes_lookup |].
  split; [| split].
  - rewrite groupNotes_lookup.
    destruct (filter _ notesData); discriminate.
  - rewrite groupNotes_lookup.
    destruct (filter _ notesData) as [| a f] eqn:E; split.
    + intros _ n Hin Hk.
      assert (Hf : In n (filter (fun n => DoctorNote.symptom_id n =? k) notesData))
        by (apply filter_In; now rewrite N.eqb_eq).
      now rewrite E in Hf.
    + reflexivity.
    + discriminate.
    + intros H. exfalso.
      assert (Hf : In a (filter (fun n => DoctorNote.symptom_id n =? k) notesData))
        by (rewrite E; now left).
      apply filter_In in Hf. destruct Hf as [Hin Hk].
      apply N.eqb_eq in Hk. exact (H a Hin Hk).
  - intros n Hin. apply groupNotes_In. auto.
Qed.

Lemma fetchDataFrom_symptoms db user patientId st S :
  In S (PatientTimeline.symptoms
          (PatientTimeline.fetchDataFrom db user patientId st))
  <-> In S (Sql.select_symptoms db user) /\ Symptom.patient_id S = patientId.
Proof.
  unfold PatientTimeline.fetchDataFrom, PatientTimeline.fetchData,
    Api.symptomsOf, Api.notesOn, Api.answered.
  cbn [Api.error Api.data].
  assert (HL : In S (Api.order_by
                       (fun a b => Symptom.created_at b <=? Symptom.created_at a)
                       (filter (fun r => Symptom.patient_id r =? patientId)
                               (Sql.select_symptoms db user)))
               <-> In S (Sql.select_symptoms db user)
                   /\ Symptom.patient_id S = patientId).
  { rewrite order_by_In, filter_In, N.eqb_eq. tauto. }
  rewrite <- HL. destruct (Api.order_by _ _); simpl; tauto.
Qed.

Lemma fetchDataFrom_notes db user patientId st S n :
  In S (PatientTimeline.symptoms
          (PatientTimeline.fetchDataFrom db user patientId st)) ->
  (exists l, PatientTimeline.notes
               (PatientTimeline.fetchDataFrom db user patientId st)
               (Symptom.id S) = Some l /\ In n l)
  <-> In n (Sql.select_doctor_notes db user)
      /\ DoctorNote.symptom_id n = Symptom.id S.
Proof.
  unfold PatientTimeline.fetchDataFrom, PatientTimeline.fetchData,
    Api.symptomsOf, Api.notesOn, Api.answered.
  cbn [Api.error Api.data].
  destruct (Api.order_by _ (filter _ (Sql.select_symptoms db user)))
    as [| s0 l0] eqn:E; cbn [PatientTimeline.symptoms PatientTimeline.notes];
    [contradiction |].
  intros HS. rewrite groupNotes_In, order_by_In, filter_In, mem_In.
  split; [tauto |]. intros [Hn Hk]. split; [| exact Hk].
  split; [exact Hn |]. rewrite Hk. now apply in_map.
Qed.

(** X14.  What the doctor's timeline holds once [fetchData] has run against
    the database: the symptoms of the patient that the requester may
    select, and under each of them the notes on it that the requester may
    select; [loading] is cleared.  When no symptom comes back the notes
    are not fetched at all and the previous grouping stays in the state. *)
Theorem timeline_holds_what_is_visible :
  forall (db : database) (user : option uuid) (patientId : uuid)
         (st : PatientTimeline.state),
    PatientTimeline.loading
      (PatientTimeline.fetchDataFrom db user patientId st) = false
    /\ (forall S,
           In S (PatientTimeline.symptoms
                   (PatientTimeline.fetchDataFrom db user patientId st))
           <-> In S (Sql.select_symptoms db user)
               /\ Symptom.patient_id S = patientId)
    /\ (forall S n,
           In S (PatientTimeline.symptoms
                   (PatientTimeline.fetchDataFrom db user patientId st)) ->
           (exists l, PatientTimeline.notes
                        (PatientTimeline.fetchDataFrom db user patientId st)
                        (Symptom.id S) = Some l /\ In n l)
           <-> In n (Sql.select_doctor_notes db user)
               /\ DoctorNote.symptom_id n = Symptom.id S)
    /\ (PatientTimeline.symptoms
          (PatientTimeline.fetchDataFrom db user patientId st) = [] ->
        PatientTimeline.notes
          (PatientTimeline.fetchDataFrom db user patientId st)
        = PatientTimeline.notes st).
Proof.
  intros db user patientId st.
  split; [| split; [| split]].
  - unfold PatientTimeline.fetchDataFrom, PatientTimeline.fetchData,
      Api.symptomsOf, Api.notesOn, Api.answered.
    cbn [Api.error Api.data]. now destruct (Api.order_by _ _).
  - intros S. apply fetchDataFrom_symptoms.
  - intros S n. apply fetchDataFrom_notes.
  - unfold PatientTimeline.fetchDataFrom, PatientTimeline.fetchData,
      Api.symptomsOf, Api.notesOn, Api.answered.
    cbn [Api.error Api.data].
    destruct (Api.order_by _ _); [reflexivity | discriminate].
Qed.

(** X14 at work: in the clinic Bob's timeline of Alice shows her rash with
    his note under it; Carol's shows the rash with no entry for it. *)
Lemma timeline_holds_what_is_visible_witness :
  (exists l, PatientTimeline.notes
               (PatientTimeline.fetchDataFrom Sample.clinic (Some Sample.bob)
                  Sample.alice Sample.bobs_view)
               (Symptom.id Sample.rash) = Some l
             /\ In Sample.bobs_note l)
  /\ PatientTimeline.notes
       (PatientTimeline.fetchDataFrom Sample.clinic (Some Sample.carol)
          Sample.alice Sample.bobs_view)
       (Symptom.id Sample.rash) = None.
Proof.
  split; [| reflexivity].
  destruct (timeline_holds_what_is_visible Sample.clinic (Some Sample.bob)
              Sample.alice Sample.bobs_view) as [_ [Hs [Hn _]]].
  apply (Hn Sample.rash Sample.bobs_note).
  - apply Hs. split; [| reflexivity]. simpl. auto.
  - split; [| reflexivity]. simpl. auto.
Defined.

Lemma falsy_nil (s : Js.jsstring) : Js.falsy s = true <-> s = [].
Proof. destruct s; simpl; split; congruence. Qed.

(** X15.  [handleAddNote].  With a blank note text nothing happens.
    Otherwise: if the user holds the doctor role and the row meets the
    table's constraints, the note is stored with the trimmed text, the
    user as its doctor and the chosen progress status, the form is reset,
    "Note added" is shown, and the refreshed timeline has the note under
    its symptom wherever that symptom is shown; if there is no user, or
    the user does not hold the doctor role, the insert is refused, the
    error is shown, and database and form, the text typed included, stay
    as they were. *)
Theorem handleAddNote_outcomes :
  forall (user : option uuid) (patientId symptomId : uuid)
         (st : PatientTimeline.state) (db : database)
         (gen : uuid) (now : timestamptz),
    (Js.trim (PatientTimeline.noteText st) = [] ->
     PatientTimeline.handleAddNote user patientId symptomId st db gen now
     = (st, db, None))
    /\ (Js.trim (PatientTimeline.noteText st) <> [] ->
        (forall D,
            user = Some D ->
            RoleGrant db D doctor ->
            Sql.doctor_notes_constraints db
              {| DoctorNote.id := gen; DoctorNote.symptom_id := symptomId;
                 DoctorNote.doctor_id := D;
                 DoctorNote.note := Js.trim (PatientTimeline.noteText st);
                 DoctorNote.progress_status :=
                   Some (PatientTimeline.progressStatus st);
                 DoctorNote.created_at := now |} = true ->
            exists st',
              PatientTimeline.handleAddNote user patientId symptomId st db gen now
              = (st',
                 Sql.set_doctor_notes db
                   (doctor_notes db
                    ++ [ {| DoctorNote.id := gen;
                            DoctorNote.symptom_id := symptomId;
                            DoctorNote.doctor_id := D;
                            DoctorNote.note :=
                              Js.trim (PatientTimeline.noteText st);
                            DoctorNote.progress_status :=
                              Some (PatientTimeline.progressStatus st);
                            DoctorNote.created_at := now |} ]),
                 Some PatientTimeline.NoteAdded)
              /\ PatientTimeline.addingNote st' = None
              /\ PatientTimeline.noteText st' = []
              /\ PatientTimeline.progressStatus st' = Js.lit "stable"
              /\ (forall S,
                     In S (PatientTimeline.symptoms st') ->
                     Symptom.id S = symptomId ->
                     exists l,
                       PatientTimeline.notes st' symptomId = Some l
                       /\ In {| DoctorNote.id := gen;
                                DoctorNote.symptom_id := symptomId;
                                DoctorNote.doctor_id := D;
                                DoctorNote.note :=
                                  Js.trim (PatientTimeline.noteText st);
                                DoctorNote.progress_status :=
                                  Some (PatientTimeline.progressStatus st);
                                DoctorNote.created_at := now |} l))
        /\ ((forall D, user = Some D -> ~ RoleGrant db D doctor) ->
            PatientTimeline.handleAddNote user patientId symptomId st db gen now
            = (st, db, Some (PatientTimeline.ToastError Sql.RlsViolation)))).
Proof.
  intros user patientId symptomId st db gen now. split.
  - intros Hblank. unfold PatientTimeline.handleAddNote. now rewrite Hblank.
  - intros Htext.
    assert (Hf : Js.falsy (Js.trim (PatientTimeline.noteText st)) = false).
    { apply not_true_is_false. now rewrite falsy_nil. }
    split.
    + intros D HD Hrole Hcons. subst user.
      set (row := {| DoctorNote.id := gen; DoctorNote.symptom_id := symptomId;
                     DoctorNote.doctor_id := D;
                     DoctorNote.note := Js.trim (PatientTimeline.noteText st);
                     DoctorNote.progress_status :=
                       Some (PatientTimeline.progressStatus st);
                     DoctorNote.created_at := now |}) in *.
      assert (E : Sql.insert_doctor_note db (Some D) row
                  = (Sql.Ok, Sql.set_doctor_notes db (doctor_notes db ++ [row]))).
      { destruct (insert_doctor_note_cases db (Some D) row)
          as [[E _] | [[_ Hp] | [_ Hc]]]; [exact E | | congruence].
        exfalso.
        assert (Hyes : Rls.permitted (Rls.doctor_notes_policies Rls.INSERT)
                                     db (Some D) row = true)
          by (apply doctor_notes_insert_iff; split; [exact Hrole | reflexivity]).
        congruence. }
      unfold PatientTimeline.handleAddNote, PatientTimeline.insert.
      rewrite Hf. cbn [PatientTimeline.doctor_id PatientTimeline.symptom_id
                         PatientTimeline.note PatientTimeline.progress_status].
      fold row. rewrite E.
      eexists. split; [reflexivity |].
      split; [| split; [| split]].
      * unfold PatientTimeline.fetchDataFrom, PatientTimeline.fetchData,
          Api.symptomsOf, Api.notesOn, Api.answered.
        cbn [Api.error Api.data]. now destruct (Api.order_by _ _).
      * unfold PatientTimeline.fetchDataFrom, PatientTimeline.fetchData,
          Api.symptomsOf, Api.notesOn, Api.answered.
        cbn [Api.error Api.data]. now destruct (Api.order_by _ _).
      * unfold PatientTimeline.fetchDataFrom, PatientTimeline.fetchData,
          Api.symptomsOf, Api.notesOn, Api.answered.
        cbn [Api.error Api.data]. now destruct (Api.order_by _ _).
      * intros S HS Hid. rewrite <- Hid.
        apply (fetchDataFrom_notes _ _ _ _ S row HS).
        split; [| now rewrite Hid].
        apply select_doctor_notes_In. split; [| now left].
        simpl. apply in_or_app. right. now left.
    + intros Hno. unfold PatientTimeline.handleAddNote, PatientTimeline.insert.
      rewrite Hf. cbn [PatientTimeline.doctor_id].
      destruct user as [D |]; [| reflexivity].
      unfold Sql.insert_doctor_note.
      assert (Hp : Rls.permitted (Rls.doctor_notes_policies Rls.INSERT) db (Some D)
                     {| DoctorNote.id := gen; DoctorNote.symptom_id := symptomId;
                        DoctorNote.doctor_id := D;
                        DoctorNote.note := Js.trim (PatientTimeline.noteText st);
                        DoctorNote.progress_status :=
                          Some (PatientTimeline.progressStatus st);
                        DoctorNote.created_at := now |} = false).
      { apply not_true_is_false. intros H.
        apply doctor_notes_insert_iff in H. destruct H as [H _].
        exact (Hno D eq_refl H). }
      cbn [PatientTimeline.symptom_id PatientTimeline.note
             PatientTimeline.progress_status].
      now rewrite Hp.
Qed.

(** X15 at work: Bob, assigned to Alice, saves [" Keep it dry. "] under her
    rash; the note stored reads ["Keep it dry."] and shows under the rash
    in the refreshed view. *)
Lemma handleAddNote_outcomes_witness :
  exists st',
    PatientTimeline.handleAddNote (Some Sample.bob) Sample.alice 100
      Sample.bobs_view Sample.assigned 200 8
    = (st', Sql.set_doctor_notes Sample.assigned [Sample.bobs_note],
       Some PatientTimeline.NoteAdded)
    /\ PatientTimeline.noteText st' = []
    /\ PatientTimeline.notes st' 100 = Some [Sample.bobs_note].
Proof.
  assert (Htext : Js.trim (PatientTimeline.noteText Sample.bobs_view) <> [])
    by discriminate.
  assert (Hrole : RoleGrant Sample.assigned Sample.bob doctor)
    by (exists Sample.bob_doctor; simpl; auto).
  destruct (proj1 (proj2 (handleAddNote_outcomes (Some Sample.bob) Sample.alice
                            100 Sample.bobs_view Sample.assigned 200 8) Htext)
              Sample.bob eq_refl Hrole eq_refl)
    as [st' [E [_ [Htxt _]]]].
  exists st'. split; [exact E | split; [exact Htxt |]].
  injection E as <-. reflexivity.
Defined.

(* ===================================================================== *)
(** * Properties of the patient's timeline and the photo store *)
(* ===================================================================== *)

Lemma text_eqb_eq (a b : text) : Sql.text_eqb a b = true <-> a = b.
Proof.
  revert b. induction a as [| x a IH]; intros [| y b]; simpl;
    try (split; [discriminate | discriminate]); [tauto |].
  rewrite andb_true_iff, N.eqb_eq, IH. split.
  - intros [-> ->]. reflexivity.
  - intros H. injection H as -> ->. auto.
Qed.

Lemma split_not_nil sep s : JsArray.split sep s <> [].
Proof.
  destruct s as [| c s]; simpl; [discriminate |].
  destruct (c =? sep); [discriminate |].
  destruct (JsArray.split sep s); discriminate.
Qed.

Lemma split_no_separator sep s : ~ In sep s -> JsArray.split sep s = [s].
Proof.
  induction s as [| c s IH]; simpl; intros H; [reflexivity |].
  destruct (c =? sep) eqn:E.
  - apply N.eqb_eq in E. exfalso. apply H. now left.
  - rewrite IH; [reflexivity |]. intros Hin. apply H. now right.
Qed.

Lemma split_first_piece sep a rest :
  ~ In sep a ->
  JsArray.split sep (a ++ sep :: rest) = a :: JsArray.split sep rest.
Proof.
  induction a as [| c a IH]; simpl; intros H.
  - now rewrite N.eqb_refl.
  - destruct (c =? sep) eqn:E.
    + apply N.eqb_eq in E. exfalso. apply H. now left.
    + rewrite IH; [reflexivity |]. intros Hin. apply H. now right.
Qed.

Lemma pop_cons {A} (x : A) (l : list A) :
  l <> [] -> JsArray.pop (x :: l) = JsArray.pop l.
Proof. destruct l; [congruence | reflexivity]. Qed.

Lemma split_last_piece sep pre ext :
  ~ In sep ext ->
  exists first rest,
    JsArray.split sep (pre ++ sep :: ext) = first :: rest
    /\ rest <> [] /\ JsArray.pop rest = Some ext.
Proof.
  intros Hext. induction pre as [| c pre IH]; simpl.
  - rewrite N.eqb_refl, (split_no_separator sep ext Hext).
    exists [], [ext]. repeat split. discriminate.
  - destruct IH as [f [r [E [Hr Hp]]]]. rewrite E.
    destruct (c =? sep).
    + exists [], (f :: r). split; [reflexivity |].
      split; [discriminate |]. now rewrite pop_cons.
    + exists (c :: f), r. auto.
Qed.

Lemma last_separator sep (s : Js.jsstring) :
  ~ In sep s
  \/ exists pre ext, s = pre ++ sep :: ext /\ ~ In sep ext.
Proof.
  induction s as [| c s IH]; [left; tauto |].
  destruct IH as [Hno | [pre [ext [-> Hext]]]].
  - destruct (N.eq_dec c sep) as [-> | Hne].
    + right. exists [], s. auto.
    + left. intros [H | H]; [congruence | contradiction].
  - right. exists (c :: pre), ext. auto.
Qed.

(** X16.  The extension [handlePhotoUpload] takes from a file name,
    [file.name.split('.').pop()], is always defined, contains no dot and
    ends the name: it is what follows the last dot, and for a name
    without any dot it is the whole name. *)
Theorem file_extension_of_name :
  forall (fileName : Js.jsstring),
    exists fileExt,
      JsArray.pop (JsArray.split 46 fileName) = Some fileExt
      /\ ~ In 46 fileExt
      /\ (~ In 46 fileName -> fileExt = fileName)
      /\ (In 46 fileName -> exists pre, fileName = pre ++ 46 :: fileExt).
Proof.
  intros fileName.
  destruct (last_separator 46 fileName) as [Hno | [pre [ext [-> Hext]]]].
  - exists fileName. rewrite (split_no_separator _ _ Hno).
    repeat split; auto. intros H. contradiction.
  - destruct (split_last_piece 46 pre ext Hext) as [f [r [E [Hr Hp]]]].
    exists ext. rewrite E, pop_cons by exact Hr.
    split; [exact Hp | split; [exact Hext | split]].
    + intros Hno. exfalso. apply Hno, in_or_app. right. now left.
    + intros _. now exists pre.
Qed.

Lemma upload_path_folder uuid_text foldername u stamp file :
  Storage.foldernameAsDocumented foldername ->
  ~ In 47 (uuid_text u) ->
  exists more,
    foldername (Timeline.fileName uuid_text (Some u) stamp file)
    = uuid_text u :: more.
Proof.
  intros Hdoc Hslash. unfold Timeline.fileName. cbn [option_map JsArray.template].
  rewrite Hdoc by (destruct (uuid_text u); discriminate).
  unfold Storage.folders. cbn [app].
  rewrite (split_first_piece 47 (uuid_text u) _ Hslash).
  pose proof (split_not_nil 47
                (stamp ++ 46 :: JsArray.template
                                  (JsArray.pop (JsArray.split 46 (Timeline.name file)))))
    as Hne.
  cbn [removelast].
  destruct (JsArray.split 47 _) as [| p ps]; [congruence |]. eauto.
Qed.

(** X17.  The path [handlePhotoUpload] builds lies in the uploader's own
    folder, whatever the file is called: with [storage.foldername] as
    documented and an identity whose text has no slash, the object passes
    the upload, update and delete policies for its uploader, fails them
    for every identity with another text and for a requester without
    identity, and passes the view policy for everybody. *)
Theorem upload_path_in_own_folder :
  forall (uuid_text : uuid -> text) (foldername : text -> list text),
    Storage.foldernameAsDocumented foldername ->
    forall (u : uuid) (stamp : Js.jsstring) (file : Timeline.File),
      ~ In 47 (uuid_text u) ->
      (Storage.Users_can_upload_their_own_symptom_photos uuid_text foldername
         (Some u)
         {| Storage.bucket_id := Js.lit "symptom-photos";
            Storage.name := Timeline.fileName uuid_text (Some u) stamp file |}
       = true
       /\ Storage.Users_can_update_their_own_symptom_photos uuid_text foldername
            (Some u)
            {| Storage.bucket_id := Js.lit "symptom-photos";
               Storage.name := Timeline.fileName uuid_text (Some u) stamp file |}
          = true
       /\ Storage.Users_can_delete_their_own_symptom_photos uuid_text foldername
            (Some u)
            {| Storage.bucket_id := Js.lit "symptom-photos";
               Storage.name := Timeline.fileName uuid_text (Some u) stamp file |}
          = true)
      /\ (forall v,
             uuid_text v <> uuid_text u ->
             Storage.Users_can_upload_their_own_symptom_photos uuid_text foldername
               (Some v)
               {| Storage.bucket_id := Js.lit "symptom-photos";
                  Storage.name := Timeline.fileName uuid_text (Some u) stamp file |}
             = false
             /\ Storage.Users_can_update_their_own_symptom_photos uuid_text
                  foldername (Some v)
                  {| Storage.bucket_id := Js.lit "symptom-photos";
                     Storage.name := Timeline.fileName uuid_text (Some u) stamp file |}
                = false
             /\ Storage.Users_can_delete_their_own_symptom_photos uuid_text
                  foldername (Some v)
                  {| Storage.bucket_id := Js.lit "symptom-photos";
                     Storage.name := Timeline.fileName uuid_text (Some u) stamp file |}
                = false)
      /\ Storage.Users_can_upload_their_own_symptom_photos uuid_text foldername
           None
           {| Storage.bucket_id := Js.lit "symptom-photos";
              Storage.name := Timeline.fileName uuid_text (Some u) stamp file |}
         = false
      /\ (forall w,
             Storage.Users_can_view_symptom_photos w
               {| Storage.bucket_id := Js.lit "symptom-photos";
                  Storage.name := Timeline.fileName uuid_text (Some u) stamp file |}
             = true).
Proof.
  intros uuid_text foldername Hdoc u stamp file Hslash.
  destruct (upload_path_folder uuid_text foldername u stamp file Hdoc Hslash)
    as [more Hfold].
  assert (Hown : forall v,
             Storage.own_folder uuid_text foldername (Some v)
               {| Storage.bucket_id := Js.lit "symptom-photos";
                  Storage.name := Timeline.fileName uuid_text (Some u) stamp file |}
             = Sql.text_eqb (uuid_text v) (uuid_text u)).
  { intros v. unfold Storage.own_folder. cbn [Storage.name]. now rewrite Hfold. }
  assert (Hyes : Sql.text_eqb (uuid_text u) (uuid_text u) = true)
    by (now apply text_eqb_eq).
  unfold Storage.Users_can_upload_their_own_symptom_photos,
    Storage.Users_can_update_their_own_symptom_photos,
    Storage.Users_can_delete_their_own_symptom_photos,
    Storage.Users_can_view_symptom_photos.
  cbn [Storage.bucket_id].
  split; [| split; [| split]].
  - rewrite Hown, Hyes. repeat split.
  - intros v Hv. rewrite Hown.
    assert (Hno : Sql.text_eqb (uuid_text v) (uuid_text u) = false)
      by (apply not_true_is_false; now rewrite text_eqb_eq).
    rewrite Hno, andb_false_r. repeat split.
  - apply andb_false_r.
  - intros w. reflexivity.
Qed.

(** X17 at work: Alice's photo ["holiday.snap.JPG"], uploaded at time
    1700000000000, goes to her folder with the extension ["JPG"]; Bob may
    neither replace nor delete it. *)
Lemma upload_path_in_own_folder_witness :
  Timeline.fileName Sample.uuid_text (Some Sample.alice)
                    (Js.lit "1700000000000")
                    {| Timeline.name := Js.lit "holiday.snap.JPG" |}
  = Js.lit "00000000-0000-4000-8000-000000000001/1700000000000.JPG"
  /\ Storage.Users_can_upload_their_own_symptom_photos Sample.uuid_text
       Storage.folders (Some Sample.alice)
       {| Storage.bucket_id := Js.lit "symptom-photos";
          Storage.name :=
            Timeline.fileName Sample.uuid_text (Some Sample.alice)
              (Js.lit "1700000000000")
              {| Timeline.name := Js.lit "holiday.snap.JPG" |} |} = true
  /\ Storage.Users_can_delete_their_own_symptom_photos Sample.uuid_text
       Storage.folders (Some Sample.bob)
       {| Storage.bucket_id := Js.lit "symptom-photos";
          Storage.name :=
            Timeline.fileName Sample.uuid_text (Some Sample.alice)
              (Js.lit "1700000000000")
              {| Timeline.name := Js.lit "holiday.snap.JPG" |} |} = false.
Proof.
  assert (Hslash : ~ In 47 (Sample.uuid_text Sample.alice)).
  { vm_compute. intuition discriminate. }
  destruct (upload_path_in_own_folder Sample.uuid_text Storage.folders
              (fun path _ => eq_refl) Sample.alice (Js.lit "1700000000000")
              {| Timeline.name := Js.lit "holiday.snap.JPG" |} Hslash)
    as [[Hup _] [Hother _]].
  split; [reflexivity | split; [exact Hup |]].
  apply (Hother Sample.bob). discriminate.
Defined.

Lemma fetchSymptomsFrom_In db u st S :
  In S (Timeline.symptoms (Timeline.fetchSymptomsFrom db (Some u) st))
  <-> In S (symptoms db) /\ Symptom.patient_id S = u.
Proof.
  unfold Timeline.fetchSymptomsFrom, Timeline.fetchSymptoms, Api.symptomsOf,
    Api.answered.
  cbn [Api.error Api.data Timeline.symptoms].
  rewrite order_by_In, filter_In, N.eqb_eq.
  unfold Sql.select_symptoms, Rls.visible_symptoms.
  rewrite filter_In, symptoms_select_iff. intuition.
Qed.

(** X18.  [handleSubmit].  It always ends with [uploading] cleared and
    with a toast: success or an error.  On an error the database and the
    form are as they were.  A photo whose upload fails stops the
    submission before any row is written, and so does a missing user.  On
    success the user exists, exactly one row has been appended to
    symptoms: the user's, carrying the form's fields as typed and the
    public URL of the uploaded photo (no URL without a photo); the dialog
    is closed, the form is reset, and the refreshed list holds the new
    row and only rows of the user. *)
Theorem handleSubmit_outcomes :
  forall (uuid_text : uuid -> text) (foldername : text -> list text)
         (getPublicUrl : Js.jsstring -> Js.jsstring)
         (user : option uuid) (st : Timeline.state) (db : database)
         (stamp : Js.jsstring) (serviceError : option text)
         (gen : uuid) (now : timestamptz),
    Timeline.uploading
      (fst (fst (Timeline.handleSubmit uuid_text foldername getPublicUrl user st
                   db stamp serviceError gen now))) = false
    /\ ((exists e,
            Timeline.handleSubmit uuid_text foldername getPublicUrl user st db
              stamp serviceError gen now
            = (Timeline.setUploading st false, db, Some (Timeline.ToastError e)))
        \/ exists u row st',
            user = Some u
            /\ Timeline.handleSubmit uuid_text foldername getPublicUrl user st db
                 stamp serviceError gen now
               = (st', Sql.set_symptoms db (symptoms db ++ [row]),
                  Some Timeline.SymptomAdded)
            /\ row = {| Symptom.id := gen; Symptom.patient_id := u;
                        Symptom.title := Timeline.title (Timeline.formData st);
                        Symptom.description :=
                          Some (Timeline.description (Timeline.formData st));
                        Symptom.photo_url :=
                          option_map
                            (fun file => getPublicUrl
                                           (Timeline.fileName uuid_text user
                                              stamp file))
                            (Timeline.photo (Timeline.formData st));
                        Symptom.severity :=
                          Some (Timeline.severity (Timeline.formData st));
                        Symptom.affected_area :=
                          Some (Timeline.affected_area (Timeline.formData st));
                        Symptom.duration :=
                          Some (Timeline.duration (Timeline.formData st));
                        Symptom.created_at := now; Symptom.updated_at := now |}
            /\ Timeline.dialogOpen st' = false
            /\ Timeline.formData st' = Timeline.emptyForm
            /\ In row (Timeline.symptoms st')
            /\ forall S, In S (Timeline.symptoms st') ->
                         Symptom.patient_id S = u)
    /\ (forall file message,
           Timeline.photo (Timeline.formData st) = Some file ->
           serviceError = Some message ->
           exists e,
             Timeline.handleSubmit uuid_text foldername getPublicUrl user st db
               stamp serviceError gen now
             = (Timeline.setUploading st false, db, Some (Timeline.ToastError e)))
    /\ (user = None ->
        exists e,
          Timeline.handleSubmit uuid_text foldername getPublicUrl user st db
            stamp serviceError gen now
          = (Timeline.setUploading st false, db, Some (Timeline.ToastError e))).
Proof.
  intros uuid_text foldername getPublicUrl user st db stamp serviceError gen now.
  assert (Hinsert : forall photoUrl,
             (exists err,
                 Timeline.insert db user
                   {| Timeline.patient_id := user;
                      Timeline.payload_title := Timeline.title (Timeline.formData st);
                      Timeline.payload_description :=
                        Timeline.description (Timeline.formData st);
                      Timeline.payload_severity :=
                        Timeline.severity (Timeline.formData st);
                      Timeline.payload_affected_area :=
                        Timeline.affected_area (Timeline.formData st);
                      Timeline.payload_duration :=
                        Timeline.duration (Timeline.formData st);
                      Timeline.photo_url := photoUrl |} gen now = (err, db)
                 /\ err <> Sql.Ok)
             \/ exists u,
                 user = Some u
                 /\ Timeline.insert db user
                      {| Timeline.patient_id := user;
                         Timeline.payload_title :=
                           Timeline.title (Timeline.formData st);
                         Timeline.payload_description :=
                           Timeline.description (Timeline.formData st);
                         Timeline.payload_severity :=
                           Timeline.severity (Timeline.formData st);
                         Timeline.payload_affected_area :=
                           Timeline.affected_area (Timeline.formData st);
                         Timeline.payload_duration :=
                           Timeline.duration (Timeline.formData st);
                         Timeline.photo_url := photoUrl |} gen now
                    = (Sql.Ok,
                       Sql.set_symptoms db
                         (symptoms db
                          ++ [ {| Symptom.id := gen; Symptom.patient_id := u;
                                  Symptom.title :=
                                    Timeline.title (Timeline.formData st);
                                  Symptom.description :=
                                    Some (Timeline.description (Timeline.formData st));
                                  Symptom.photo_url := photoUrl;
                                  Symptom.severity :=
                                    Some (Timeline.severity (Timeline.formData st));
                                  Symptom.affected_area :=
                                    Some (Timeline.affected_area
                                            (Timeline.formData st));
                                  Symptom.duration :=
                                    Some (Timeline.duration (Timeline.formData st));
                                  Symptom.created_at := now;
                                  Symptom.updated_at := now |} ]))).
  { intros photoUrl. unfold Timeline.insert. cbn [Timeline.patient_id].
    destruct user as [u |].
    - match goal with
      | |- context [Sql.insert_symptom db (Some u) ?r] =>
          destruct (insert_symptom_cases db (Some u) r)
            as [[E _] | [[E _] | [E _]]]
      end.
      + right. exists u. split; [reflexivity | exact E].
      + left. eexists. split; [exact E | discriminate].
      + left. eexists. split; [exact E | discriminate].
    - left. eexists. split; [reflexivity | discriminate]. }
  assert (Hrun : forall photoUrl,
             let r := match Timeline.insert db user
                              {| Timeline.patient_id := user;
                                 Timeline.payload_title :=
                                   Timeline.title (Timeline.formData st);
                                 Timeline.payload_description :=
                                   Timeline.description (Timeline.formData st);
                                 Timeline.payload_severity :=
                                   Timeline.severity (Timeline.formData st);
                                 Timeline.payload_affected_area :=
                                   Timeline.affected_area (Timeline.formData st);
                                 Timeline.payload_duration :=
                                   Timeline.duration (Timeline.formData st);
                                 Timeline.photo_url := photoUrl |} gen now with
                      | (Sql.Ok, db') =>
                          (Timeline.fetchSymptomsFrom db' user
                             {| Timeline.symptoms := Timeline.symptoms st;
                                Timeline.loading := Timeline.loading st;
                                Timeline.dialogOpen := false;
                                Timeline.uploading := false;
                                Timeline.formData := Timeline.emptyForm |},
                           db', Some Timeline.SymptomAdded)
                      | (err, db') =>
                          (Timeline.setUploading st false, db',
                           Some (Timeline.ToastError (Timeline.Refused err)))
                      end in
             Timeline.uploading (fst (fst r)) = false
             /\ ((exists e, r = (Timeline.setUploading st false, db,
                                 Some (Timeline.ToastError e)))
                 \/ exists u row st',
                     user = Some u
                     /\ r = (st', Sql.set_symptoms db (symptoms db ++ [row]),
                             Some Timeline.SymptomAdded)
                     /\ row = {| Symptom.id := gen; Symptom.patient_id := u;
                                 Symptom.title :=
                                   Timeline.title (Timeline.formData st);
                                 Symptom.description :=
                                   Some (Timeline.description (Timeline.formData st));
                                 Symptom.photo_url := photoUrl;
                                 Symptom.severity :=
                                   Some (Timeline.severity (Timeline.formData st));
                                 Symptom.affected_area :=
                                   Some (Timeline.affected_area
                                           (Timeline.formData st));
                                 Symptom.duration :=
                                   Some (Timeline.duration (Timeline.formData st));
                                 Symptom.created_at := now;
                                 Symptom.updated_at := now |}
                     /\ Timeline.dialogOpen st' = false
                     /\ Timeline.formData st' = Timeline.emptyForm
                     /\ In row (Timeline.symptoms st')
                     /\ forall S, In S (Timeline.symptoms st') ->
                                  Symptom.patient_id S = u)
             /\ (user = None ->
                 exists e, r = (Timeline.setUploading st false, db,
                                Some (Timeline.ToastError e)))).
  { intros photoUrl.
    destruct (Hinsert photoUrl) as [[err [E Herr]] | [u [Hu E]]]; rewrite E;
      cbv zeta.
    - assert (Hr : (let (o, db') := (err, db) in
                    match o with
                    | Sql.Ok =>
                        (Timeline.fetchSymptomsFrom db' user
                           {| Timeline.symptoms := Timeline.symptoms st;
                              Timeline.loading := Timeline.loading st;
                              Timeline.dialogOpen := false;
                              Timeline.uploading := false;
                              Timeline.formData := Timeline.emptyForm |},
                         db', Some Timeline.SymptomAdded)
                    | _ =>
                        (Timeline.setUploading st false, db',
                         Some (Timeline.ToastError (Timeline.Refused o)))
                    end)
                   = (Timeline.setUploading st false, db,
                      Some (Timeline.ToastError (Timeline.Refused err))))
        by (destruct err; [congruence | reflexivity | reflexivity]).
      rewrite Hr. split; [reflexivity |]. split; [left; eauto | eauto].
    - subst user. split; [reflexivity |]. split; [| discriminate].
      right. eexists u, _, _. split; [reflexivity |].
      split; [reflexivity |]. split; [reflexivity |].
      split; [reflexivity |]. split; [reflexivity |]. split.
      + apply fetchSymptomsFrom_In. split; [| reflexivity].
        simpl. apply in_or_app. right. now left.
      + intros S HS. now apply fetchSymptomsFrom_In in HS. }
  unfold Timeline.handleSubmit.
  destruct (Timeline.photo (Timeline.formData st)) as [file |] eqn:Hphoto.
  - unfold Timeline.handlePhotoUpload.
    destruct (Storage.Users_can_upload_their_own_symptom_photos _ _ _ _).
    + destruct serviceError as [message |].
      * cbn [fst Timeline.uploading Timeline.setUploading].
        split; [reflexivity |]. split; [left; eauto |].
        split; [intros; eauto | intros; eauto].
      * destruct (Hrun (Some (getPublicUrl
                                (Timeline.fileName uuid_text user stamp file))))
          as [H1 [H2 H3]].
        split; [exact H1 |]. split; [exact H2 |].
        split; [intros ? ? _ H; discriminate | exact H3].
    + cbn [fst Timeline.uploading Timeline.setUploading].
      split; [reflexivity |]. split; [left; eauto |].
      split; [intros; eauto | intros; eauto].
  - destruct (Hrun None) as [H1 [H2 H3]].
    split; [exact H1 |]. split; [exact H2 |].
    split; [intros ? ? H; discriminate | exact H3].
Qed.

(** X18 at work: Alice submits her fever with a photo.  When the store
    answers with an error nothing is written and her form stays; when it
    accepts, the row is hers and carries the photo's public URL. *)
Lemma handleSubmit_outcomes_witness :
  (exists e,
      Timeline.handleSubmit Sample.uuid_text Storage.folders Sample.public_url
        (Some Sample.alice) Sample.alices_timeline Sample.clinic
        (Js.lit "1700000000000") (Some (Js.lit "Payload too large")) 102 13
      = (Timeline.setUploading Sample.alices_timeline false, Sample.clinic,
         Some (Timeline.ToastError e)))
  /\ map Symptom.photo_url
         (symptoms
            (snd (fst (Timeline.handleSubmit Sample.uuid_text Storage.folders
                         Sample.public_url (Some Sample.alice)
                         Sample.alices_timeline Sample.clinic
                         (Js.lit "1700000000000") None 102 13))))
     = [None; None;
        Some (Js.lit "https://store.example/object/public/symptom-photos/00000000-0000-4000-8000-000000000001/1700000000000.JPG")].
Proof.
  split; [| reflexivity].
  exact (proj1 (proj2 (proj2 (handleSubmit_outcomes Sample.uuid_text
                                Storage.folders Sample.public_url
                                (Some Sample.alice) Sample.alices_timeline
                                Sample.clinic (Js.lit "1700000000000")
                                (Some (Js.lit "Payload too large")) 102 13)))
           _ _ eq_refl eq_refl).
Defined.

(* ===================================================================== *)
(** * Further properties of the chat view, the dashboards and the lookup *)
(* ===================================================================== *)

Lemma fetchMessagesFilter_iff u d m :
  Chat.fetchMessagesFilter u d m = true
  <-> (Message.sender_id m = u \/ Message.receiver_id m = u)
      /\ (Message.sender_id m = d \/ Message.receiver_id m = d).
Proof.
  unfold Chat.fetchMessagesFilter.
  now rewrite andb_true_iff, !orb_true_iff, !N.eqb_eq.
Qed.

Lemma fetchMessagesFrom_In db st u d m :
  Chat.user st = Some u -> Chat.selectedDoctor st = Some d ->
  In m (Chat.messages (Chat.fetchMessagesFrom db st))
  <-> In m (messages db)
      /\ (Message.sender_id m = u \/ Message.receiver_id m = u)
      /\ (Message.sender_id m = Chat.id d \/ Message.receiver_id m = Chat.id d).
Proof.
  intros Hu Hd. unfold Chat.fetchMessagesFrom, Chat.fetchMessages, Api.answered.
  rewrite Hu, Hd. cbn [Api.error Api.data Chat.messages Chat.setMessages].
  rewrite order_by_In, filter_In, fetchMessagesFilter_iff.
  unfold Sql.select_messages. rewrite filter_In, messages_select_iff.
  tauto.
Qed.

(** X19.  What [fetchMessages] loads.  When the selected doctor is somebody
    else than the user, the request's filter is the very test the
    subscription applies, and the list loaded holds exactly the stored
    messages of the open conversation.  When the user is his own selected
    doctor the two differ: the list loaded holds every stored message the
    user sent or received, whoever the other party is. *)
Theorem fetched_messages_match_subscription :
  forall (db : database) (st : Chat.state) (u : uuid) (d : Chat.Doctor),
    Chat.user st = Some u ->
    Chat.selectedDoctor st = Some d ->
    (u <> Chat.id d ->
     (forall m, Chat.fetchMessagesFilter u (Chat.id d) m
                = Chat.inConversation (Chat.user st) (Chat.selectedDoctor st) m)
     /\ (forall m, In m (Chat.messages (Chat.fetchMessagesFrom db st))
                   <-> In m (messages db) /\ OpenConversation st m))
    /\ (u = Chat.id d ->
        forall m, In m (Chat.messages (Chat.fetchMessagesFrom db st))
                  <-> In m (messages db)
                      /\ (Message.sender_id m = u \/ Message.receiver_id m = u)).
Proof.
  intros db st u d Hu Hd.
  assert (Hopen : forall m,
             OpenConversation st m
             <-> (Message.sender_id m = u /\ Message.receiver_id m = Chat.id d)
                 \/ (Message.sender_id m = Chat.id d /\ Message.receiver_id m = u)).
  { intros m. unfold OpenConversation. rewrite Hu, Hd. split.
    - intros [u' [d' [E1 [E2 H]]]]. injection E1 as <-. injection E2 as <-.
      exact H.
    - intros H. exists u, d. auto. }
  split.
  - intros Hne. split.
    + intros m.
      destruct (Chat.inConversation _ _ m) eqn:E.
      * apply inConversation_OpenConversation, Hopen in E.
        apply fetchMessagesFilter_iff. intuition.
      * apply not_true_is_false. intros H.
        apply fetchMessagesFilter_iff in H.
        assert (Hyes : OpenConversation st m).
        { apply Hopen. destruct H as [[H1 | H1] [H2 | H2]]; try tauto;
            exfalso; apply Hne; congruence. }
        apply inConversation_OpenConversation in Hyes. congruence.
    + intros m. rewrite (fetchMessagesFrom_In db st u d m Hu Hd), Hopen.
      split.
      * intros [Hin [[H1 | H1] [H2 | H2]]]; split; try assumption; try tauto;
          exfalso; apply Hne; congruence.
      * intuition.
  - intros He m. rewrite (fetchMessagesFrom_In db st u d m Hu Hd), <- He.
    tauto.
Qed.

(** X19 at work: Alice's view, open on Bob, loads Bob's answer. *)
Lemma fetched_messages_match_subscription_witness :
  In Sample.answer
     (Chat.messages (Chat.fetchMessagesFrom Sample.chatting Sample.alices_chat))
  /\ Chat.messages (Chat.fetchMessagesFrom Sample.chatting Sample.alices_chat)
     = [Sample.hello; Sample.answer].
Proof.
  split; [| reflexivity].
  assert (Hne : Sample.alice <> Chat.id Sample.dr_bob) by discriminate.
  apply (proj2 (proj1 (fetched_messages_match_subscription Sample.chatting
                         Sample.alices_chat Sample.alice Sample.dr_bob
                         eq_refl eq_refl) Hne)).
  split; [simpl; auto |].
  exists Sample.alice, Sample.dr_bob. simpl. auto.
Defined.

(** X20.  A message sent from the chat view reaches the view's list only
    through the subscription: when [handleSend] has stored a row, the
    view's own list is untouched and the input is cleared; the row belongs
    to the conversation the view subscribed for, so its INSERT event
    appends it; and sender and receiver are both returned the row by a
    SELECT. *)
Theorem sent_message_comes_back :
  forall (st : Chat.state) (db : database) (gen : uuid) (now : timestamptz),
    snd (fst (Chat.handleSend st db gen now)) <> db ->
    exists row d,
      Chat.selectedDoctor st = Some d
      /\ messages (snd (fst (Chat.handleSend st db gen now)))
         = messages db ++ [row]
      /\ Chat.messages (fst (fst (Chat.handleSend st db gen now)))
         = Chat.messages st
      /\ Chat.newMessage (fst (fst (Chat.handleSend st db gen now))) = []
      /\ Chat.messages
           (Chat.subscribeToMessages st row
              (fst (fst (Chat.handleSend st db gen now))))
         = Chat.messages st ++ [row]
      /\ In row (Sql.select_messages
                   (snd (fst (Chat.handleSend st db gen now))) (Chat.user st))
      /\ In row (Sql.select_messages
                   (snd (fst (Chat.handleSend st db gen now)))
                   (Some (Chat.id d))).
Proof.
  intros st db gen now. unfold Chat.handleSend.
  destruct (Chat.selectedDoctor st) as [d |] eqn:Hd;
    [| cbn [fst snd]; congruence].
  destruct (Js.falsy (Js.trim (Chat.newMessage st)));
    [cbn [fst snd]; congruence |].
  destruct (chat_insert_cases db (Chat.user st)
              {| Chat.sender_id := Chat.user st;
                 Chat.receiver_id := Chat.id d;
                 Chat.content := Js.trim (Chat.newMessage st) |} gen now)
    as [[s [Hs E]] | [Hfail Hsame]].
  - rewrite E. cbn [fst snd]. intros _. cbn [Chat.sender_id] in Hs.
    eexists _, d. split; [reflexivity |].
    split; [reflexivity |]. split; [reflexivity |]. split; [reflexivity |].
    split; [| split].
    + unfold Chat.subscribeToMessages, Chat.inConversation.
      rewrite Hs, Hd. simpl. now rewrite !N.eqb_refl.
    + rewrite Hs. unfold Sql.select_messages. apply filter_In. split.
      * simpl. apply in_or_app. right. now left.
      * apply messages_select_iff. now left.
    + unfold Sql.select_messages. apply filter_In. split.
      * simpl. apply in_or_app. right. now left.
      * apply messages_select_iff. now right.
  - destruct (Chat.insert db (Chat.user st) _ gen now) as [[| |] db1];
      cbn [fst snd] in *; subst db1; congruence.
Qed.

Lemma sent_message_comes_back_witness :
  exists row d,
    Chat.selectedDoctor Sample.alices_chat = Some d
    /\ messages (snd (fst (Chat.handleSend Sample.alices_chat Sample.chatting
                             302 11)))
       = messages Sample.chatting ++ [row]
    /\ Chat.messages
         (Chat.subscribeToMessages Sample.alices_chat row
            (fst (fst (Chat.handleSend Sample.alices_chat Sample.chatting 302 11))))
       = Chat.messages Sample.alices_chat ++ [row].
Proof.
  assert (Hne : snd (fst (Chat.handleSend Sample.alices_chat Sample.chatting
                            302 11)) <> Sample.chatting) by discriminate.
  destruct (sent_message_comes_back Sample.alices_chat Sample.chatting 302 11 Hne)
    as [row [d [Hd [Hdb [_ [_ [Hback _]]]]]]].
  exists row, d. auto.
Defined.

(** X21.  The two dashboards' redirects.  While the session is loading
    neither navigates.  Afterwards both send a visitor without user to
    /auth; a page that redirects to the other dashboard is never
    redirected back from there; and a signed-in user whose role is
    neither patient nor doctor (none at all, say) is redirected by
    neither page: the doctor dashboard opens, without fetching any
    patient. *)
Theorem dashboard_redirects :
  forall (a : Dashboards.useAuth),
    (Dashboards.loading a = true ->
     Dashboards.Dashboard a = None /\ Dashboards.DoctorDashboard a = None)
    /\ (Dashboards.loading a = false -> Dashboards.user a = None ->
        Dashboards.Dashboard a = Some "/auth"%string
        /\ Dashboards.DoctorDashboard a = Some "/auth"%string)
    /\ (Dashboards.Dashboard a = Some "/doctor"%string ->
        Dashboards.DoctorDashboard a = None
        /\ Dashboards.fetchesPatients a = true)
    /\ (Dashboards.DoctorDashboard a = Some "/dashboard"%string ->
        Dashboards.Dashboard a = None)
    /\ (Dashboards.loading a = false -> Dashboards.user a <> None ->
        Dashboards.roleIs a "doctor" = false ->
        Dashboards.roleIs a "patient" = false ->
        Dashboards.Dashboard a = None
        /\ Dashboards.DoctorDashboard a = None
        /\ Dashboards.fetchesPatients a = false).
Proof.
  intros [user userRole loading].
  assert (Hexcl : forall v, Sql.text_eqb v (Js.lit "doctor") = true ->
                            Sql.text_eqb v (Js.lit "patient") = false).
  { intros v H. apply text_eqb_eq in H. now subst v. }
  unfold Dashboards.Dashboard, Dashboards.DoctorDashboard,
    Dashboards.fetchesPatients, Dashboards.roleIs.
  cbn [Dashboards.user Dashboards.userRole Dashboards.loading].
  split; [| split; [| split; [| split]]].
  - intros ->. split; reflexivity.
  - intros -> ->. split; reflexivity.
  - destruct loading, user, userRole as [v |]; simpl; try discriminate.
    destruct (Sql.text_eqb v (Js.lit "doctor")) eqn:E; [| discriminate].
    intros _. now rewrite (Hexcl v E).
  - destruct loading, user, userRole as [v |]; simpl; try discriminate.
    destruct (Sql.text_eqb v (Js.lit "patient")) eqn:E; [| discriminate].
    intros _.
    destruct (Sql.text_eqb v (Js.lit "doctor")) eqn:E'; [| reflexivity].
    rewrite (Hexcl v E') in E. discriminate.
  - intros -> Hu Hd Hp. destruct user; [| congruence].
    simpl. now rewrite Hd, Hp.
Qed.

(** X21 at work: Dana, signed in without any role, is redirected by
    neither dashboard. *)
Lemma dashboard_redirects_witness :
  Dashboards.Dashboard
    {| Dashboards.user := Some Sample.dana; Dashboards.userRole := None;
       Dashboards.loading := false |} = None
  /\ Dashboards.DoctorDashboard
       {| Dashboards.user := Some Sample.dana; Dashboards.userRole := None;
          Dashboards.loading := false |} = None
  /\ Dashboards.fetchesPatients
       {| Dashboards.user := Some Sample.dana; Dashboards.userRole := None;
          Dashboards.loading := false |} = false.
Proof.
  apply (proj2 (proj2 (proj2 (proj2 (dashboard_redirects
           {| Dashboards.user := Some Sample.dana; Dashboards.userRole := None;
              Dashboards.loading := false |}))))); try reflexivity.
  discriminate.
Defined.

Lemma Substring_forallb (p : N -> bool) (t s : Js.jsstring) :
  Substring t s -> forallb p s = true -> forallb p t = true.
Proof.
  intros [pre [post ->]] H. rewrite !forallb_app in H.
  apply andb_true_iff in H. destruct H as [_ H].
  apply andb_true_iff in H. tauto.
Qed.

Lemma Substring_map (f : N -> N) (t s : Js.jsstring) :
  Substring t s -> Substring (map f t) (map f s).
Proof.
  intros [pre [post ->]]. exists (map f pre), (map f post).
  now rewrite !map_app.
Qed.

Lemma Substring_trans (a b c : Js.jsstring) :
  Substring a b -> Substring b c -> Substring a c.
Proof.
  intros [p1 [q1 ->]] [p2 [q2 ->]]. exists (p2 ++ p1), (q1 ++ q2).
  now rewrite <- !app_assoc.
Qed.

(** X22.  Typing on narrows the lookup: with [toLowerCase] lower-casing
    strings below U+00C0 code unit by code unit, if a query occurs inside
    a longer query below U+00C0, every entry the longer query yields is
    also yielded by the shorter one. *)
Theorem longer_query_narrows :
  forall toLowerCase : Js.jsstring -> Js.jsstring,
    Js.lowersBasicLatin toLowerCase ->
    forall (term term' : Js.jsstring) (st st' : SymptomFinder.state),
      Js.belowC0 term' = true ->
      Substring term term' ->
      forall e,
        In e (SymptomFinder.filteredSymptoms
                (SymptomFinder.handleSearch toLowerCase term' st')) ->
        In e (SymptomFinder.filteredSymptoms
                (SymptomFinder.handleSearch toLowerCase term st)).
Proof.
  intros toLowerCase Hlow term term' st st' Hbelow Hsub e.
  assert (Hdb : In e (SymptomFinder.filteredSymptoms
                        (SymptomFinder.handleSearch toLowerCase term' st')) ->
                In e SymptomFinder.symptomDatabase).
  { unfold SymptomFinder.handleSearch.
    destruct (Js.falsy (Js.trim term')); cbn [SymptomFinder.filteredSymptoms];
      [tauto |]. intros H. apply filter_In in H. tauto. }
  unfold SymptomFinder.handleSearch at 2. rewrite (trim_blank term).
  destruct (forallb Js.isWhiteSpace term) eqn:Hws;
    cbn [SymptomFinder.filteredSymptoms]; [exact Hdb |].
  assert (Hws' : forallb Js.isWhiteSpace term' = false).
  { apply not_true_is_false. intros H.
    rewrite (Substring_forallb _ _ _ Hsub H) in Hws. discriminate. }
  unfold SymptomFinder.handleSearch. rewrite (trim_blank term'), Hws'.
  cbn [SymptomFinder.filteredSymptoms].
  rewrite !filter_In, !matchesTerm_ContainsIgnoringCase.
  intros [Hin Hmatch]. split; [exact Hin |].
  assert (Hinner : Substring (toLowerCase term) (toLowerCase term')).
  { rewrite (Hlow term') by exact Hbelow.
    rewrite (Hlow term) by exact (Substring_forallb _ _ _ Hsub Hbelow).
    now apply Substring_map. }
  destruct Hmatch as [H | [H | [k [Hk H]]]].
  - left. exact (Substring_trans _ _ _ Hinner H).
  - right. left. exact (Substring_trans _ _ _ Hinner H).
  - right. right. exists k. split; [exact Hk |].
    exact (Substring_trans _ _ _ Hinner H).
Qed.

(** X22 at work: the entry found for ["pain in"], "Headache", is among
    those found for ["pain"]. *)
Lemma longer_query_narrows_witness :
  map SymptomFinder.name
      (SymptomFinder.filteredSymptoms
         (SymptomFinder.handleSearch (map Js.lowerUnit) (Js.lit "pain in")
                                     SymptomFinder.initial))
  = [Js.lit "Headache"]
  /\ exists e,
      SymptomFinder.name e = Js.lit "Headache"
      /\ In e (SymptomFinder.filteredSymptoms
                 (SymptomFinder.handleSearch (map Js.lowerUnit) (Js.lit "pain")
                                             SymptomFinder.initial)).
Proof.
  split; [reflexivity |].
  eexists. split;
    [| apply (longer_query_narrows (map Js.lowerUnit) (fun s _ => eq_refl)
                (Js.lit "pain") (Js.lit "pain in")
                SymptomFinder.initial SymptomFinder.initial eq_refl);
       [exists [], (Js.lit " in"); reflexivity | left; reflexivity]].
  reflexivity.
Defined.

(* ===================================================================== *)
(** * Profiles under update *)
(* ===================================================================== *)

Lemma profiles_update_iff db U r :
  Rls.permitted (Rls.profiles_policies Rls.UPDATE) db (Some U) r = true
  <-> Profile.id r = U.
Proof.
  unfold Rls.permitted. cbn [existsb Rls.profiles_policies].
  rewrite orb_false_r. unfold Rls.Users_can_update_their_own_profile.
  rewrite uid_eq_true. intuition congruence.
Qed.

(** X23.  A successful UPDATE of profiles by [U] changes profiles only,
    keeps the table's length, leaves every other identity's profile alone
    and cannot move [U]'s profile to another identity; a row it changes
    is stamped with the statement's time.  The role column is not
    protected: [U] may rewrite the role of his own profile; that changes
    no [has_role] answer. *)
Theorem profile_update_by_owner :
  forall (db db' : database) (U : uuid)
         (wher : Profile.row -> bool) (set : Profile.row -> Profile.row)
         (now : timestamptz),
    Sql.update_profiles db (Some U) wher set now = (Sql.Ok, db') ->
    db' = Sql.set_profiles db (profiles db')
    /\ length (profiles db') = length (profiles db)
    /\ (forall uid R, Rls.has_role db' uid R = Rls.has_role db uid R)
    /\ forall i old new,
        nth_error (profiles db) i = Some old ->
        nth_error (profiles db') i = Some new ->
        (Profile.id old <> U -> new = old)
        /\ (new <> old ->
            Profile.id old = U
            /\ Profile.id new = U
            /\ Profile.updated_at new = now
            /\ Profile.role new = Profile.role (set old)
            /\ new = Sql.update_profiles_updated_at now (set old)).
Proof.
  intros db db' U wher set now Hupd. unfold Sql.update_profiles in Hupd.
  destruct (forallb _ (map _ _)) eqn:Hcheck; [| discriminate].
  cbn [negb] in Hupd.
  match type of Hupd with
  | (if negb ?c then _ else _) = _ => destruct c; [| discriminate]
  end.
  cbn [negb] in Hupd. injection Hupd as Hdb. subst db'.
  split; [reflexivity |]. simpl.
  split; [apply length_map |].
  split; [reflexivity |].
  intros i old new Hold Hnew.
  rewrite nth_error_map, Hold in Hnew. simpl in Hnew.
  injection Hnew as Hnew.
  destruct (Sql.profiles_target db (Some U) wher old) eqn:Htarget.
  - assert (Hown : Profile.id old = U).
    { unfold Sql.profiles_target in Htarget.
      apply andb_true_iff in Htarget. destruct Htarget as [Htarget _].
      apply andb_true_iff in Htarget. destruct Htarget as [_ Htarget].
      now apply profiles_update_iff in Htarget. }
    assert (Hown' : Profile.id (Sql.update_profiles_updated_at now (set old)) = U).
    { rewrite forallb_forall in Hcheck.
      assert (Hw : In (Sql.update_profiles_updated_at now (set old))
                      (map (fun r => Sql.update_profiles_updated_at now (set r))
                           (filter (Sql.profiles_target db (Some U) wher)
                                   (profiles db)))).
      { apply in_map_iff. exists old. split; [reflexivity |].
        apply filter_In. split; [| exact Htarget].
        eapply nth_error_In; eassumption. }
      apply Hcheck, andb_true_iff in Hw. destruct Hw as [Hw _].
      now apply profiles_update_iff in Hw. }
    subst new. split; [intros; contradiction |]. intros _.
    repeat split; auto.
  - subst new. split; [reflexivity | intros H; now contradiction H].
Qed.

(** X23 at work: Dana, signed up as a patient, rewrites her profile's role
    to doctor; signing in now takes her to the doctor dashboard, and she
    holds the doctor role no more than before. *)
Lemma profile_update_by_owner_witness :
  Auth.handleAuthLogin
    (snd (Sql.update_profiles
            (Sql.set_profiles Sample.fresh [Sample.danas_profile])
            (Some Sample.dana) Sample.is_dana Sample.become_doctor 30))
    Sample.dana_signed_up
  = [Auth.Navigate "/doctor"]
  /\ Rls.has_role
       (snd (Sql.update_profiles
               (Sql.set_profiles Sample.fresh [Sample.danas_profile])
               (Some Sample.dana) Sample.is_dana Sample.become_doctor 30))
       (Some Sample.dana) doctor = false.
Proof.
  split; [reflexivity |].
  destruct (profile_update_by_owner
              (Sql.set_profiles Sample.fresh [Sample.danas_profile]) _
              Sample.dana Sample.is_dana Sample.become_doctor 30 eq_refl)
    as [_ [_ [Hrole _]]].
  rewrite Hrole. reflexivity.
Defined.

(* ===================================================================== *)
(** * Who may write messages and notes *)
(* ===================================================================== *)

Lemma messages_insert_iff db U r :
  Rls.permitted (Rls.messages_policies Rls.INSERT) db (Some U) r = true
  <-> Message.sender_id r = U.
Proof.
  unfold Rls.permitted. cbn [existsb Rls.messages_policies].
  rewrite orb_false_r. unfold Rls.Users_can_send_messages.
  rewrite uid_eq_true. intuition congruence.
Qed.

Lemma insert_message_cases db uid r :
  (Sql.insert_message db uid r
   = (Sql.Ok, Sql.set_messages db (messages db ++ [r]))
   /\ Rls.permitted (Rls.messages_policies Rls.INSERT) db uid r = true
   /\ Sql.messages_constraints db r = true)
  \/ (Sql.insert_message db uid r = (Sql.RlsViolation, db)
      /\ Rls.permitted (Rls.messages_policies Rls.INSERT) db uid r = false)
  \/ (Sql.insert_message db uid r = (Sql.ConstraintViolation, db)
      /\ Sql.messages_constraints db r = false).
Proof.
  unfold Sql.insert_message.
  destruct (Rls.permitted (Rls.messages_policies Rls.INSERT) db uid r);
    simpl; [| tauto].
  destruct (Sql.messages_constraints db r); simpl; tauto.
Qed.

(** X24.  A message row that meets the table's constraints (fresh key,
    known sender and receiver, a symptom reference that resolves) is
    inserted exactly when the requester is the sender it names: nobody
    writes in somebody else's name, and the receiver may be any known
    identity, roles and assignments playing no part.  A refused insert
    changes nothing; an inserted row is returned to its sender and its
    receiver and to nobody else. *)
Theorem message_insert_by_sender :
  forall (db : database) (U : uuid) (r : Message.row),
    Sql.messages_constraints db r = true ->
    (fst (Sql.insert_message db (Some U) r) = Sql.Ok
     <-> Message.sender_id r = U)
    /\ (forall (grants : list UserRole.row) (links : list Assignment.row),
           fst (Sql.insert_message
                  (Sql.set_user_roles (Sql.set_assignments db links) grants)
                  (Some U) r)
           = fst (Sql.insert_message db (Some U) r))
    /\ (fst (Sql.insert_message db (Some U) r) <> Sql.Ok ->
        snd (Sql.insert_message db (Some U) r) = db)
    /\ (fst (Sql.insert_message db (Some U) r) = Sql.Ok ->
        forall V, In r (Sql.select_messages
                          (snd (Sql.insert_message db (Some U) r)) (Some V))
                  <-> V = U \/ V = Message.receiver_id r).
Proof.
  intros db U r Hcons.
  destruct (insert_message_cases db (Some U) r)
    as [[E [Hp _]] | [[E Hp] | [E Hc]]]; [| | congruence].
  - apply messages_insert_iff in Hp.
    split; [| split; [| split]].
    + rewrite E. cbn [fst]. tauto.
    + intros grants links. rewrite E. cbn [fst].
      unfold Sql.insert_message.
      assert (Hc' : Sql.messages_constraints
                      (Sql.set_user_roles (Sql.set_assignments db links) grants) r
                    = true) by exact Hcons.
      rewrite Hc'.
      assert (Hp' : Rls.permitted (Rls.messages_policies Rls.INSERT)
                      (Sql.set_user_roles (Sql.set_assignments db links) grants)
                      (Some U) r = true)
        by (now apply messages_insert_iff).
      now rewrite Hp'.
    + rewrite E. cbn [fst]. congruence.
    + rewrite E. cbn [fst snd]. intros _ V.
      unfold Sql.select_messages. rewrite filter_In, messages_select_iff.
      cbn [messages Sql.set_messages]. rewrite Hp. split.
      * intros [_ [H | H]]; auto.
      * intros H. split; [apply in_or_app; right; now left |].
        destruct H; auto.
  - assert (Hno : Message.sender_id r <> U).
    { intros H. apply (messages_insert_iff db) in H. congruence. }
    split; [| split; [| split]].
    + rewrite E. cbn [fst]. split; [discriminate | contradiction].
    + intros grants links. rewrite E. cbn [fst].
      unfold Sql.insert_message.
      assert (Hp' : Rls.permitted (Rls.messages_policies Rls.INSERT)
                      (Sql.set_user_roles (Sql.set_assignments db links) grants)
                      (Some U) r = false).
      { apply not_true_is_false. intros H.
        apply messages_insert_iff in H. contradiction. }
      now rewrite Hp'.
    + now rewrite E.
    + rewrite E. cbn [fst]. discriminate.
Qed.

(** X24 at work: Carol, who is neither Alice's doctor nor her patient,
    writes to Alice; Bob cannot write in Carol's name. *)
Lemma message_insert_by_sender_witness :
  fst (Sql.insert_message Sample.unassigned (Some Sample.carol)
                          Sample.carols_hello) = Sql.Ok
  /\ fst (Sql.insert_message Sample.unassigned (Some Sample.bob)
                             Sample.carols_hello) <> Sql.Ok.
Proof.
  split.
  - apply (proj1 (message_insert_by_sender Sample.unassigned Sample.carol
                    Sample.carols_hello eq_refl)). reflexivity.
  - intros H.
    apply (proj1 (message_insert_by_sender Sample.unassigned Sample.bob
                    Sample.carols_hello eq_refl)) in H. discriminate.
Defined.

Lemma execute_doctor_notes db uid s n :
  In n (doctor_notes (snd (Sql.execute db uid s))) ->
  In n (doctor_notes db)
  \/ (s = Sql.InsertDoctorNote n
      /\ exists D, uid = Some D /\ DoctorNote.doctor_id n = D
                   /\ RoleGrant db D doctor).
Proof.
  destruct s; cbn [Sql.execute].
  - unfold Sql.insert_profile.
    repeat match goal with
           | |- context [if ?c then _ else _] => destruct c
           end; auto.
  - rewrite insert_user_role_refused. auto.
  - unfold Sql.insert_symptom.
    repeat match goal with
           | |- context [if ?c then _ else _] => destruct c
           end; auto.
  - destruct (insert_doctor_note_cases db uid r)
      as [[E [Hp _]] | [[E _] | [E _]]]; rewrite E; cbn [snd]; auto.
    cbn [doctor_notes Sql.set_doctor_notes]. intros H.
    apply in_app_or in H. destruct H as [H | [<- | []]]; [now left |].
    right. split; [reflexivity |].
    destruct uid as [D |].
    + apply doctor_notes_insert_iff in Hp. exists D. tauto.
    + exfalso.
      rewrite (proj1 (proj2 (proj2 (proj2 (permitted_unauthenticated
                                             db Rls.INSERT))))) in Hp.
      discriminate.
  - unfold Sql.insert_message.
    repeat match goal with
           | |- context [if ?c then _ else _] => destruct c
           end; auto.
  - unfold Sql.insert_assignment.
    repeat match goal with
           | |- context [if ?c then _ else _] => destruct c
           end; auto.
  - unfold Sql.update_profiles.
    repeat match goal with
           | |- In _ (doctor_notes (snd (if ?c then _ else _))) -> _ => destruct c
           end; auto.
  - unfold Sql.update_symptoms.
    repeat match goal with
           | |- In _ (doctor_notes (snd (if ?c then _ else _))) -> _ => destruct c
           end; auto.
  - unfold Sql.update_messages.
    repeat match goal with
           | |- In _ (doctor_notes (snd (if ?c then _ else _))) -> _ => destruct c
           end; auto.
  - rewrite update_user_roles_nothing. auto.
  - cbn [snd Sql.delete_symptoms doctor_notes]. intros H.
    apply filter_In in H. tauto.
  - rewrite delete_user_roles_nothing. auto.
Qed.

Lemma RoleGrant_user_roles db db' D R :
  user_roles db' = user_roles db -> RoleGrant db' D R -> RoleGrant db D R.
Proof. unfold RoleGrant. intros ->. auto. Qed.

(** X25.  Notes are written once, by their doctor.  Whatever script of
    statements runs, every note on file afterwards either was on file
    before, unchanged, or is the row of an INSERT in the script that was
    sent by the very identity the note names as doctor, an identity
    holding the doctor role; no statement edits a note or files one in
    another doctor's name. *)
Theorem notes_written_once_by_their_doctor :
  forall (script : list (option uuid * Sql.statement)) (db : database)
         (n : DoctorNote.row),
    In n (doctor_notes (Sql.run db script)) ->
    In n (doctor_notes db)
    \/ (In (Some (DoctorNote.doctor_id n), Sql.InsertDoctorNote n) script
        /\ RoleGrant db (DoctorNote.doctor_id n) doctor).
Proof.
  unfold Sql.run. induction script as [| [uid s] script IH]; intros db n;
    simpl; [auto |].
  intros Hin. apply IH in Hin. destruct Hin as [Hin | [Hin Hrole]].
  - apply execute_doctor_notes in Hin.
    destruct Hin as [Hin | [-> [D [-> [Hd Hrole]]]]]; [now left |].
    right. split; [left; now rewrite Hd | now rewrite Hd].
  - right. split; [now right |].
    eapply RoleGrant_user_roles; [| exact Hrole].
    apply execute_user_roles.
Qed.

(** X25 at work: of the three requests only Bob's own files the note. *)
Lemma notes_written_once_by_their_doctor_witness :
  In (Some Sample.bob, Sql.InsertDoctorNote Sample.bobs_note)
     Sample.three_requests
  /\ doctor_notes (Sql.run Sample.assigned Sample.three_requests)
     = [Sample.bobs_note].
Proof.
  assert (E : doctor_notes (Sql.run Sample.assigned Sample.three_requests)
              = [Sample.bobs_note]) by reflexivity.
  split; [| exact E].
  destruct (notes_written_once_by_their_doctor Sample.three_requests
              Sample.assigned Sample.bobs_note) as [[] | [H _]]; [| exact H].
  rewrite E. now left.
Defined.
